(** * blog4go: the buffered record writer and the rotating file writer

    A shallow embedding of [BLog] (the bufio-backed record renderer with its
    [%]-placeholder scanner) and of [baseFileWriter] (the rotating file
    writer and the body of its background daemon), followed by the
    properties of the rendering, the rotation and the closing behaviour.

    Go strings and byte slices are lists of bytes ([ascii]); the files the
    writer touches live in an explicit [World]; a run-time panic is the
    [Panic] outcome of the [Result] type, and a goroutine that waits in a
    send that nothing will receive is its [Blocked] outcome.  Each
    operation that Go guards with a mutex is one atomic function on the
    state. *)

From Stdlib Require Import ZArith Ascii String List Lia DecimalString.
From stdpp Require Import base option gmap strings list.

Open Scope Z_scope.

(* ===================================================================== *)
(** ** Go values *)
(* ===================================================================== *)

(** A Go [string] or [[]byte]. *)
Abbreviation bytes := (list ascii) (only parsing).

(** The bytes of a string literal. *)
Definition B (s : string) : bytes := list_ascii_of_string s.

(** The numeric value of a byte, also the rune of an ASCII byte. *)
Definition byte_val (c : ascii) : Z := Z.of_N (N_of_ascii c).

(** [const] block of the package. *)
Definition EOL : ascii := "010"%char.
Definition ESCAPE : ascii := "\"%char.
Definition PLACEHOLDER : ascii := "%"%char.

(** Run-time panics of the Go runtime that the modelled code can raise. *)
Inductive panic : Type :=
| IndexOutOfRange
| SliceBoundsOutOfRange
| NilPointerDereference.

(** What keeps a call from returning: a panic, or a send on a channel
    that is full and has no receiver left, in which the goroutine waits
    for ever. *)
Inductive stop : Type :=
| Panics (p : panic)
| Blocks.

Inductive Result (A : Type) : Type :=
| Ok (a : A)
| Stop (s : stop).
Arguments Ok {A} a.
Arguments Stop {A} s.

Abbreviation Panic p := (Stop (Panics p)).
Abbreviation Blocked := (Stop Blocks).

#[global] Instance Result_ret : MRet Result := fun _ a => Ok a.
#[global] Instance Result_bind : MBind Result := fun _ _ f r =>
  match r with
  | Ok a => f a
  | Stop s => Stop s
  end.

Definition is_Ok {A} (r : Result A) : bool :=
  match r with Ok _ => true | Stop _ => false end.

(** [l[i]]: panics out of range. *)
Definition index {A} (l : list A) (i : nat) : Result A :=
  match l !! i with
  | Some x => Ok x
  | None => Panic IndexOutOfRange
  end.

(** [s[lo:hi]]: panics unless [lo <= hi <= len(s)]. *)
Definition slice (s : bytes) (lo hi : nat) : Result bytes :=
  if (lo <=? hi)%nat && (hi <=? length s)%nat
  then Ok (take (hi - lo) (drop lo s))
  else Panic SliceBoundsOutOfRange.

(** [s[lo:]]. *)
Definition slice_from (s : bytes) (lo : nat) : Result bytes :=
  slice s lo (length s).

(** Two's complement wrap-around of the 64-bit signed integers ([int] on a
    64-bit platform, [int64], [ByteSize]). *)
Definition wrap64 (z : Z) : Z := (z + 2 ^ 63) mod 2 ^ 64 - 2 ^ 63.

Definition maxInt64 : Z := 2 ^ 63 - 1.

(* --------------------------------------------------------------------- *)
(** *** Ranging over a string

    [for i, v := range format] decodes UTF-8: [i] is the byte index at
    which a code point starts and [v] the code point; a byte sequence that
    is not valid UTF-8 yields [RuneError] and advances by one byte. *)

Definition RuneError : Z := 0xFFFD.

(** A continuation byte, [0x80 .. 0xBF]. *)
Definition is_cont (c : ascii) : bool :=
  (0x80 <=? byte_val c) && (byte_val c <=? 0xBF).

Definition cont_bits (c : ascii) : Z := Z.land (byte_val c) 0x3F.

(** The code point at the head of a non-empty string and its width. *)
Definition decoderune (s : bytes) : Z * nat :=
  match s with
  | [] => (RuneError, 1%nat)
  | c0 :: t =>
    let b0 := byte_val c0 in
    if b0 <? 0x80 then (b0, 1%nat)
    else if (0xC0 <=? b0) && (b0 <? 0xE0) then
      match t with
      | c1 :: _ =>
        let r := Z.lor (Z.shiftl (Z.land b0 0x1F) 6) (cont_bits c1) in
        if is_cont c1 && (0x7F <? r) then (r, 2%nat) else (RuneError, 1%nat)
      | _ => (RuneError, 1%nat)
      end
    else if (0xE0 <=? b0) && (b0 <? 0xF0) then
      match t with
      | c1 :: c2 :: _ =>
        let r := Z.lor (Z.lor (Z.shiftl (Z.land b0 0x0F) 12)
                              (Z.shiftl (cont_bits c1) 6)) (cont_bits c2) in
        if is_cont c1 && is_cont c2 && (0x7FF <? r)
           && negb ((0xD800 <=? r) && (r <=? 0xDFFF))
        then (r, 3%nat) else (RuneError, 1%nat)
      | _ => (RuneError, 1%nat)
      end
    else if (0xF0 <=? b0) && (b0 <? 0xF8) then
      match t with
      | c1 :: c2 :: c3 :: _ =>
        let r := Z.lor (Z.lor (Z.lor (Z.shiftl (Z.land b0 0x07) 18)
                                     (Z.shiftl (cont_bits c1) 12))
                              (Z.shiftl (cont_bits c2) 6)) (cont_bits c3) in
        if is_cont c1 && is_cont c2 && is_cont c3
           && (0xFFFF <? r) && (r <=? 0x10FFFF)
        then (r, 4%nat) else (RuneError, 1%nat)
      | _ => (RuneError, 1%nat)
      end
    else (RuneError, 1%nat)
  end.

(** The (index, rune) pairs visited by [range s], [s] being the part of the
    string that starts at byte index [i].  Every round consumes at least one
    byte, so [length s] rounds of fuel reach the end. *)
Fixpoint range_from (fuel : nat) (i : nat) (s : bytes) : list (nat * Z) :=
  match fuel with
  | O => []
  | S fuel' =>
    match s with
    | [] => []
    | _ :: _ =>
      let '(v, w) := decoderune s in
      (i, v) :: range_from fuel' (i + w) (drop w s)
    end
  end.

Definition range_string (s : bytes) : list (nat * Z) :=
  range_from (length s) 0 s.

(* ===================================================================== *)
(** ** Files *)
(* ===================================================================== *)

Inductive error : Type :=
| ErrInvalid      (* method called on a nil *os.File *)
| ErrClosed       (* file already closed *)
| ErrOpen         (* the file could not be opened *)
| ErrShortWrite.

#[global] Instance error_eq_dec : EqDecision error.
Proof. solve_decision. Defined.

(** An open-file description: the path it was opened on and whether
    [Close] was called on it. *)
Record os_File : Type := mk_File {
  f_name : bytes;
  f_closed : bool;
}.

(** A [*os.File]: [None] is the nil pointer, [Some fd] the descriptor
    number [fd] of the table [fds]. *)
Abbreviation handle := (option nat) (only parsing).

(** The part of the operating system the writer touches: the contents of
    the files by path, the table of file descriptions, and the paths that
    [os.OpenFile] fails on. *)
Record World : Type := mk_World {
  disk : gmap bytes bytes;
  fds : list os_File;
  denied : gset bytes;
}.

(** [os.OpenFile(name, O_WRONLY|O_APPEND|O_CREATE, 0644)]. *)
Definition os_OpenFile (name : bytes) (w : World) : handle * option error * World :=
  if bool_decide (name ∈ denied w) then (None, Some ErrOpen, w)
  else
    (Some (length (fds w)), None,
     {| disk := match disk w !! name with
                | Some _ => disk w
                | None => <[name := []]> (disk w)
                end;
        fds := fds w ++ [mk_File name false];
        denied := denied w |}).

(** The bytes of the file at [name], empty when there is none. *)
Definition contents (w : World) (name : bytes) : bytes :=
  default [] (disk w !! name).

(** [File.Write] of package os: a nil or closed file takes nothing; an open one
    appends (it was opened with [O_APPEND]). *)
Definition File_Write (h : handle) (p : bytes) (w : World) : nat * option error * World :=
  match h with
  | None => (0%nat, Some ErrInvalid, w)
  | Some fd =>
    match fds w !! fd with
    | None => (0%nat, Some ErrInvalid, w)
    | Some f =>
      if f_closed f then (0%nat, Some ErrClosed, w)
      else (length p, None,
            {| disk := <[f_name f := contents w (f_name f) ++ p]> (disk w);
               fds := fds w;
               denied := denied w |})
    end
  end.

(** [File.Close] of package os. *)
Definition File_Close (h : handle) (w : World) : option error * World :=
  match h with
  | None => (Some ErrInvalid, w)
  | Some fd =>
    match fds w !! fd with
    | None => (Some ErrInvalid, w)
    | Some f =>
      if f_closed f then (Some ErrClosed, w)
      else (None,
            {| disk := disk w;
               fds := <[fd := mk_File (f_name f) true]> (fds w);
               denied := denied w |})
    end
  end.

(** The file behind [h] takes writes. *)
Definition writable (h : handle) (w : World) : bool :=
  match h with
  | None => false
  | Some fd =>
    match fds w !! fd with
    | None => false
    | Some f => negb (f_closed f)
    end
  end.

(** The bytes of the file behind [h]. *)
Definition file_bytes (h : handle) (w : World) : bytes :=
  match h with
  | None => []
  | Some fd =>
    match fds w !! fd with
    | None => []
    | Some f => contents w (f_name f)
    end
  end.

(* ===================================================================== *)
(** ** bufio.Writer *)
(* ===================================================================== *)

(** [b_buf] is [buf[0:n]], the bytes not yet handed to [b_wr]; [b_cap] is
    [len(buf)]; [b_err] is the sticky error. *)
Record bufio_Writer : Type := mk_bufio {
  b_err : option error;
  b_buf : bytes;
  b_cap : nat;
  b_wr : handle;
}.

Definition bufio_NewWriterSize (wr : handle) (size : nat) : bufio_Writer :=
  {| b_err := None; b_buf := [];
     b_cap := if (size =? 0)%nat then 4096%nat else size;
     b_wr := wr |}.

Definition bufio_Available (b : bufio_Writer) : nat := (b_cap b - length (b_buf b))%nat.

Definition bufio_Flush (b : bufio_Writer) (w : World) : option error * bufio_Writer * World :=
  match b_err b with
  | Some e => (Some e, b, w)
  | None =>
    if (length (b_buf b) =? 0)%nat then (None, b, w)
    else
      let '(n, err, w') := File_Write (b_wr b) (b_buf b) w in
      let err := match err with
                 | None => if (n <? length (b_buf b))%nat then Some ErrShortWrite else None
                 | Some e => Some e
                 end in
      match err with
      | Some e => (Some e, mk_bufio (Some e) (drop n (b_buf b)) (b_cap b) (b_wr b), w')
      | None => (None, mk_bufio None [] (b_cap b) (b_wr b), w')
      end
  end.

(** The copy of [p] into the free part of the buffer. *)
Definition bufio_fill (p : bytes) (b : bufio_Writer) : nat * bufio_Writer :=
  let n := Nat.min (bufio_Available b) (length p) in
  (n, mk_bufio (b_err b) (b_buf b ++ take n p) (b_cap b) (b_wr b)).

(** The loop of [Write]: while [p] does not fit and no error is pending, a
    large write on an empty buffer goes to the file directly, otherwise the
    buffer is topped up and flushed. *)
Fixpoint bufio_Write_loop (fuel : nat) (p : bytes) (nn : nat) (b : bufio_Writer) (w : World)
  : bytes * nat * bufio_Writer * World :=
  match fuel with
  | O => (p, nn, b, w)
  | S fuel' =>
    if (bufio_Available b <? length p)%nat && bool_decide (b_err b = None) then
      if (length (b_buf b) =? 0)%nat then
        let '(n, err, w') := File_Write (b_wr b) p w in
        bufio_Write_loop fuel' (drop n p) (nn + n)%nat
          (mk_bufio err (b_buf b) (b_cap b) (b_wr b)) w'
      else
        let '(n, b1) := bufio_fill p b in
        let '(_, b2, w') := bufio_Flush b1 w in
        bufio_Write_loop fuel' (drop n p) (nn + n)%nat b2 w'
    else (p, nn, b, w)
  end.

(** [Writer.Write] of package bufio. *)
Definition bufio_Write (p : bytes) (b : bufio_Writer) (w : World)
  : nat * option error * bufio_Writer * World :=
  let '(p', nn, b', w') := bufio_Write_loop (length p + 2) p 0 b w in
  match b_err b' with
  | Some e => (nn, Some e, b', w')
  | None =>
    let '(n, b'') := bufio_fill p' b' in
    ((nn + n)%nat, None, b'', w')
  end.

(** The loop of [WriteString]: while [s] does not fit and no error is
    pending, top the buffer up and flush it. *)
Fixpoint bufio_WriteString_loop (fuel : nat) (s : bytes) (nn : nat) (b : bufio_Writer) (w : World)
  : bytes * nat * bufio_Writer * World :=
  match fuel with
  | O => (s, nn, b, w)
  | S fuel' =>
    if (bufio_Available b <? length s)%nat && bool_decide (b_err b = None) then
      let '(n, b1) := bufio_fill s b in
      let '(_, b2, w') := bufio_Flush b1 w in
      bufio_WriteString_loop fuel' (drop n s) (nn + n)%nat b2 w'
    else (s, nn, b, w)
  end.

(** [Writer.WriteString] of package bufio. *)
Definition bufio_WriteString (s : bytes) (b : bufio_Writer) (w : World)
  : nat * option error * bufio_Writer * World :=
  let '(s', nn, b', w') := bufio_WriteString_loop (length s + 2) s 0 b w in
  match b_err b' with
  | Some e => (nn, Some e, b', w')
  | None =>
    let '(n, b'') := bufio_fill s' b' in
    ((nn + n)%nat, None, b'', w')
  end.

(** [Writer.WriteByte] of package bufio. *)
Definition bufio_WriteByte (c : ascii) (b : bufio_Writer) (w : World)
  : option error * bufio_Writer * World :=
  match b_err b with
  | Some e => (Some e, b, w)
  | None =>
    if (bufio_Available b <=? 0)%nat then
      let '(err, b1, w') := bufio_Flush b w in
      match err with
      | Some e => (Some e, b1, w')
      | None => (None, mk_bufio (b_err b1) (b_buf b1 ++ [c]) (b_cap b1) (b_wr b1), w')
      end
    else (None, mk_bufio (b_err b) (b_buf b ++ [c]) (b_cap b) (b_wr b), w)
  end.

(** [Writer.Reset] of package bufio: drops what is buffered and the error. *)
Definition bufio_Reset (wr : handle) (b : bufio_Writer) : bufio_Writer :=
  mk_bufio None [] (b_cap b) wr.

(* ===================================================================== *)
(** ** BLog *)
(* ===================================================================== *)

(** Modelled from the spec: the [Level] enumeration (its declaration is in
    a file of the package that is not part of the sources modelled here),
    ordered Debug < Trace < Info < Warn < Error < Critical. *)
Inductive Level : Type := DEBUG | TRACE | INFO | WARN | ERROR | CRITICAL.

(** [level.prefix()], the bytes written after the time stamp; the table of
    prefixes belongs to the same missing file and is a parameter. *)
Class LevelPrefix : Type := prefix : Level -> bytes.

(** The values passed as [args ...interface{}] and [fmt.Sprintf] applied
    to a format with one verb and one argument. *)
Class Formatter (Arg : Type) : Type := Sprintf : bytes -> Arg -> bytes.

(** Modelled from the spec: the type of the package variable [timeCache]
    (its declaration is in a file of the package that is not part of the
    sources modelled here), with the three fields the code reads: the
    rendered time stamp and the current and previous dates.  The variable
    is refreshed by another goroutine and only read here, so the functions
    below take its value as an argument. *)
Record TimeCache : Type := mk_TimeCache {
  tc_format : bytes;
  tc_date : bytes;
  tc_dateYesterday : bytes;
}.

(** [writer] is nil ([None]) once the BLog is closed.  The mutex is not
    modelled: every method runs atomically. *)
Record BLog : Type := mk_BLog {
  level : Level;
  in_ : handle;
  writer : option bufio_Writer;
}.

(** [DefaultBufferSize] is the page size of the machine. *)
Definition NewBLog (DefaultBufferSize : nat) (in' : handle) : BLog :=
  {| level := DEBUG; in_ := in';
     writer := Some (bufio_NewWriterSize in' DefaultBufferSize) |}.

(** The local variables of [writef]: [tag], [tagPos], [escape], [n],
    [last] and [size]. *)
Record scan : Type := mk_scan {
  v_tag : bool;
  v_tagPos : nat;
  v_escape : bool;
  v_n : nat;
  v_last : nat;
  v_size : nat;
}.

(** The verbs that close a placeholder. *)
Definition verbs : list Z := map byte_val (B "dfvboxXcptsTqUeEgG").

Definition is_verb (v : Z) : bool := bool_decide (v ∈ verbs).

Section BLog.
Context {LP : LevelPrefix} {Arg : Type} {F : Formatter Arg}.

(** [BLog.write]. *)
Definition BLog_write (tc : TimeCache) (lv : Level) (format : bytes)
    (blog : BLog) (w : World) : Result (nat * BLog * World) :=
  match writer blog with
  | None => Panic NilPointerDereference
  | Some b =>
    let '(_, _, b, w) := bufio_Write (tc_format tc) b w in
    let '(_, _, b, w) := bufio_WriteString (prefix lv) b w in
    let '(_, _, b, w) := bufio_WriteString format b w in
    let '(_, b, w) := bufio_WriteByte EOL b w in
    let size := (length (tc_format tc) + length (prefix lv) + length format + 1)%nat in
    Ok (size, mk_BLog (level blog) (in_ blog) (Some b), w)
  end.

(** One round of the loop of [BLog.writef], at byte index [i] with the
    rune [v]. *)
Definition writef_body (format : bytes) (args : list Arg) (i : nat) (v : Z)
    (st : scan) (b : bufio_Writer) (w : World) : Result (scan * bufio_Writer * World) :=
  if v_tag st then
    if is_verb v then
      f ← slice format (v_tagPos st) (i + 1);
      a ← index args (v_n st);
      let '(s, _, b, w) := bufio_WriteString (Sprintf f a) b w in
      Ok (mk_scan false (v_tagPos st) false (v_n st + 1) (i + 1) (v_size st + s), b, w)
    else if v =? byte_val ESCAPE then
      if v_escape st then
        let '(_, b, w) := bufio_WriteByte ESCAPE b w in
        Ok (mk_scan (v_tag st) (v_tagPos st) (negb (v_escape st)) (v_n st) (v_last st)
              (v_size st + 1), b, w)
      else
        Ok (mk_scan (v_tag st) (v_tagPos st) (negb (v_escape st)) (v_n st) (v_last st)
              (v_size st), b, w)
    else Ok (st, b, w)
  else
    c ← index format i;
    if bool_decide (PLACEHOLDER = c) && negb (v_escape st) then
      lit ← slice format (v_last st) i;
      let '(s, _, b, w) := bufio_WriteString lit b w in
      Ok (mk_scan true i false (v_n st) (v_last st) (v_size st + s), b, w)
    else Ok (st, b, w).

(** The loop over the (index, rune) pairs of the format. *)
Fixpoint writef_loop (format : bytes) (args : list Arg) (rs : list (nat * Z))
    (st : scan) (b : bufio_Writer) (w : World) : Result (scan * bufio_Writer * World) :=
  match rs with
  | [] => Ok (st, b, w)
  | (i, v) :: rs' =>
    '(st, b, w) ← writef_body format args i v st b w;
    writef_loop format args rs' st b w
  end.

(** [BLog.writef]. *)
Definition BLog_writef (tc : TimeCache) (lv : Level) (format : bytes) (args : list Arg)
    (blog : BLog) (w : World) : Result (nat * BLog * World) :=
  match writer blog with
  | None => Panic NilPointerDereference
  | Some b =>
    let '(_, _, b, w) := bufio_Write (tc_format tc) b w in
    let '(_, _, b, w) := bufio_WriteString (prefix lv) b w in
    let st := mk_scan false 0 false 0 0 (length (tc_format tc) + length (prefix lv)) in
    '(st, b, w) ← writef_loop format args (range_string format) st b w;
    tail ← slice_from format (v_last st);
    let '(_, _, b, w) := bufio_WriteString tail b w in
    let '(_, b, w) := bufio_WriteByte EOL b w in
    Ok ((v_size st + (length tail + 1))%nat, mk_BLog (level blog) (in_ blog) (Some b), w)
  end.

(** [BLog.flush]. *)
Definition BLog_flush (blog : BLog) (w : World) : Result (BLog * World) :=
  match writer blog with
  | None => Panic NilPointerDereference
  | Some b =>
    let '(_, b, w) := bufio_Flush b w in
    Ok (mk_BLog (level blog) (in_ blog) (Some b), w)
  end.

(** [BLog.Close]: flush, then drop the bufio writer. *)
Definition BLog_Close (blog : BLog) (w : World) : Result (BLog * World) :=
  match writer blog with
  | None => Panic NilPointerDereference
  | Some b =>
    let '(_, _, w) := bufio_Flush b w in
    Ok (mk_BLog (level blog) (in_ blog) None, w)
  end.

(** [BLog.resetFile]: flush to the old file, then point the BLog and its
    bufio writer to [in']. *)
Definition BLog_resetFile (in' : handle) (blog : BLog) (w : World) : Result (BLog * World) :=
  match writer blog with
  | None => Panic NilPointerDereference
  | Some b =>
    let '(_, b, w) := bufio_Flush b w in
    Ok (mk_BLog (level blog) in' (Some (bufio_Reset in' b)), w)
  end.

Definition BLog_Level (blog : BLog) : Level := level blog.

Definition BLog_SetLevel (lv : Level) (blog : BLog) : BLog :=
  mk_BLog lv (in_ blog) (writer blog).

End BLog.

(* ===================================================================== *)
(** ** baseFileWriter *)
(* ===================================================================== *)

(** [ByteSize] is an [int64]. *)
Abbreviation ByteSize := Z (only parsing).

Definition KB : ByteSize := Z.shiftl 1 10.
Definition MB : ByteSize := Z.shiftl 1 20.
Definition GB : ByteSize := Z.shiftl 1 30.
Definition DefaultRotateSize : ByteSize := 500 * MB.
Definition DefaultRotateLines : Z := 2000000.

(** The struct, without its mutex and its two unused signal channels.
    [blog] is nil ([None]) after [Close]; [logSizeChan] holds the sizes
    sent and not yet received, oldest first.  The channel has room for
    [logSizeChanCap] sizes; what a send does when it is full is told at
    [deferred_send]. *)
Record baseFileWriter : Type := mk_baseFileWriter {
  fileName : bytes;
  file : handle;
  blog : option BLog;
  closed : bool;
  timeRotated : bool;
  lineRotated : bool;
  rotateLines : Z;
  currentLines : Z;
  sizeRotated : bool;
  rotateSize : ByteSize;
  currentSize : ByteSize;
  sizeRotateTimes : Z;
  logSizeChan : list Z;
  colored : bool;
}.

(** The decimal rendering of an integer, as the verb [%d] prints it. *)
Definition itoa (z : Z) : bytes := B (NilZero.string_of_int (Z.to_int z)).

(** [fmt.Sprintf("%s.%s", a, b)]. *)
Definition Sprintf_s_s (a b : bytes) : bytes := a ++ B "." ++ b.

(** [fmt.Sprintf("%s.%d", a, n)]. *)
Definition Sprintf_s_d (a : bytes) (n : Z) : bytes := a ++ B "." ++ itoa n.

(** [fmt.Sprintf("%s.%s.%d", a, b, n)]. *)
Definition Sprintf_s_s_d (a b : bytes) (n : Z) : bytes := a ++ B "." ++ b ++ B "." ++ itoa n.

(** [make(chan int, 4096)]: the room of [logSizeChan]. *)
Definition logSizeChanCap : nat := 4096.

(** What wakes the daemon up: the 10 second ticker, the 1 second ticker
    (with the date [time.Now()] is formatted to), a size on [logSizeChan]. *)
Inductive stimulus : Type :=
| FlushTick
| TimeTick (now : bytes)
| LogSize.

(** Whether the daemon loop goes on or was left by [break DaemonLoop]. *)
Inductive outcome : Type := Continue | Break.

Section baseFileWriter.
Context {LP : LevelPrefix} {Arg : Type} {F : Formatter Arg}.

(** [newBaseFileWriter], up to the start of the daemon. *)
Definition newBaseFileWriter (DefaultBufferSize : nat) (name : bytes) (w : World)
    : baseFileWriter * option error * World :=
  let '(f, err, w) := os_OpenFile name w in
  match err with
  | Some e =>
    (mk_baseFileWriter name f None false false false 0 0 false 0 0 0 [] false, Some e, w)
  | None =>
    (mk_baseFileWriter name f (Some (NewBLog DefaultBufferSize f)) false
       false false DefaultRotateLines 0 false DefaultRotateSize 0 0 [] false, None, w)
  end.

(** [fw] with the BLog [bl] and the file [f]. *)
Definition with_file (f : handle) (bl : BLog) (fw : baseFileWriter) : baseFileWriter :=
  mk_baseFileWriter (fileName fw) f (Some bl) (closed fw) (timeRotated fw)
    (lineRotated fw) (rotateLines fw) (currentLines fw) (sizeRotated fw)
    (rotateSize fw) (currentSize fw) (sizeRotateTimes fw) (logSizeChan fw)
    (colored fw).

(** The swap of the file that ends both kinds of rotation:
    [writer.file.Close(); writer.blog.resetFile(file); writer.file = file]. *)
Definition swap_file (f : handle) (fw : baseFileWriter) (w : World)
    : Result (baseFileWriter * World) :=
  let '(_, w) := File_Close (file fw) w in
  match blog fw with
  | None => Panic NilPointerDereference
  | Some bl =>
    '(bl, w) ← BLog_resetFile f bl w;
    Ok (with_file f bl fw, w)
  end.

(** The name of the file a time rotation opens. *)
Definition timeRotateName (tc : TimeCache) (fw : baseFileWriter) : bytes :=
  Sprintf_s_s (fileName fw) (tc_dateYesterday tc).

(** The name of the file a size or line rotation opens, [fw] being the
    writer after the increment of [sizeRotateTimes]. *)
Definition sizeRotateName (tc : TimeCache) (fw : baseFileWriter) : bytes :=
  if timeRotated fw
  then Sprintf_s_s_d (fileName fw) (tc_date tc) (wrap64 (sizeRotateTimes fw + 1))
  else Sprintf_s_d (fileName fw) (wrap64 (sizeRotateTimes fw + 1)).

(** [writer.sizeRotateTimes = 0]. *)
Definition reset_sequence (fw : baseFileWriter) : baseFileWriter :=
  mk_baseFileWriter (fileName fw) (file fw) (blog fw) (closed fw)
    (timeRotated fw) (lineRotated fw) (rotateLines fw) (currentLines fw)
    (sizeRotated fw) (rotateSize fw) (currentSize fw) 0 (logSizeChan fw)
    (colored fw).

(** The [case <-t] of the daemon, after the test of [closed]. *)
Definition daemon_time (tc : TimeCache) (now : bytes) (fw : baseFileWriter) (w : World)
    : Result (baseFileWriter * World) :=
  if timeRotated fw && negb (bool_decide (now = tc_date tc)) then
    let fw := reset_sequence fw in
    let '(f, _, w) := os_OpenFile (timeRotateName tc fw) w in
    swap_file f fw w
  else Ok (fw, w).

(** The test that decides a size or line rotation. *)
Definition needRotate (fw : baseFileWriter) : bool :=
  (sizeRotated fw && (rotateSize fw <? currentSize fw))
  || (lineRotated fw && (rotateLines fw <? currentLines fw)).

(** [writer.currentSize += ByteSize(size); writer.currentLines++]. *)
Definition add_size (size : Z) (fw : baseFileWriter) : baseFileWriter :=
  mk_baseFileWriter (fileName fw) (file fw) (blog fw) (closed fw)
    (timeRotated fw) (lineRotated fw) (rotateLines fw)
    (wrap64 (currentLines fw + 1))
    (sizeRotated fw) (rotateSize fw) (wrap64 (currentSize fw + size))
    (sizeRotateTimes fw) (logSizeChan fw) (colored fw).

(** [writer.sizeRotateTimes++; writer.currentSize = 0;
    writer.currentLines = 0]. *)
Definition next_sequence (fw : baseFileWriter) : baseFileWriter :=
  mk_baseFileWriter (fileName fw) (file fw) (blog fw) (closed fw)
    (timeRotated fw) (lineRotated fw) (rotateLines fw) 0
    (sizeRotated fw) (rotateSize fw) 0
    (wrap64 (sizeRotateTimes fw + 1)) (logSizeChan fw) (colored fw).

(** The [case size := <-writer.logSizeChan] of the daemon, after the
    tests of [closed] and of the two flags. *)
Definition daemon_logSize (tc : TimeCache) (size : Z) (fw : baseFileWriter) (w : World)
    : Result (baseFileWriter * World) :=
  let fw := add_size size fw in
  if needRotate fw then
    let fw := next_sequence fw in
    let '(f, _, w) := os_OpenFile (sizeRotateName tc fw) w in
    swap_file f fw w
  else Ok (fw, w).

(** The writer with the oldest size taken off the channel. *)
Definition receive (fw : baseFileWriter) : baseFileWriter :=
  mk_baseFileWriter (fileName fw) (file fw) (blog fw) (closed fw)
    (timeRotated fw) (lineRotated fw) (rotateLines fw) (currentLines fw)
    (sizeRotated fw) (rotateSize fw) (currentSize fw) (sizeRotateTimes fw)
    (tail (logSizeChan fw)) (colored fw).

(** One round of the [select] of [daemon].  The case [LogSize] is ready
    only when the channel holds a size; when it does not, the round
    leaves the writer as it is. *)
Definition daemon (tc : TimeCache) (ev : stimulus) (fw : baseFileWriter) (w : World)
    : Result (outcome * baseFileWriter * World) :=
  match ev with
  | FlushTick =>
    if closed fw then Ok (Break, fw, w)
    else
      match blog fw with
      | None => Panic NilPointerDereference
      | Some bl =>
        '(bl, w) ← BLog_flush bl w;
        Ok (Continue,
            mk_baseFileWriter (fileName fw) (file fw) (Some bl) (closed fw)
              (timeRotated fw) (lineRotated fw) (rotateLines fw) (currentLines fw)
              (sizeRotated fw) (rotateSize fw) (currentSize fw) (sizeRotateTimes fw)
              (logSizeChan fw) (colored fw), w)
      end
  | TimeTick now =>
    if closed fw then Ok (Break, fw, w)
    else
      '(fw, w) ← daemon_time tc now fw w;
      Ok (Continue, fw, w)
  | LogSize =>
    match logSizeChan fw with
    | [] => Ok (Continue, fw, w)
    | size :: _ =>
      let fw := receive fw in
      if closed fw then Ok (Break, fw, w)
      else if negb (sizeRotated fw) && negb (lineRotated fw) then Ok (Continue, fw, w)
      else
        '(fw, w) ← daemon_logSize tc size fw w;
        Ok (Continue, fw, w)
    end
  end.

(** The send of the deferred function of [write] and [writef]: the size
    goes to the channel when size or line rotation is on. *)
Definition send_size (size : Z) (fw : baseFileWriter) : baseFileWriter :=
  if sizeRotated fw || lineRotated fw then
    mk_baseFileWriter (fileName fw) (file fw) (blog fw) (closed fw)
      (timeRotated fw) (lineRotated fw) (rotateLines fw) (currentLines fw)
      (sizeRotated fw) (rotateSize fw) (currentSize fw) (sizeRotateTimes fw)
      (logSizeChan fw ++ [size]) (colored fw)
  else fw.

(** The deferred function of [write] and [writef],
    [if writer.sizeRotated || writer.lineRotated { writer.logSizeChan <- size }],
    and whether the call returns from it.  The daemon is the one receiver
    of the channel.  While the writer is open the daemon is in its loop:
    a send that finds the channel full waits for the daemon to take a
    size, and the size sent stands behind the sizes not yet received,
    which is the order in which the daemon takes them.  Once the writer
    is closed the daemon leaves its loop at its next round and the
    channel is left without a receiver: a send that finds the channel
    full waits in it, for ever once the daemon has left, and the call is
    [Blocked]. *)
Definition deferred_send (size : Z) (fw : baseFileWriter) (w : World)
    : Result (baseFileWriter * World) :=
  if (sizeRotated fw || lineRotated fw) && closed fw
     && (logSizeChanCap <=? length (logSizeChan fw))%nat
  then Blocked
  else Ok (send_size size fw, w).

Definition with_blog (bl : BLog) (fw : baseFileWriter) : baseFileWriter :=
  mk_baseFileWriter (fileName fw) (file fw) (Some bl) (closed fw)
    (timeRotated fw) (lineRotated fw) (rotateLines fw) (currentLines fw)
    (sizeRotated fw) (rotateSize fw) (currentSize fw) (sizeRotateTimes fw)
    (logSizeChan fw) (colored fw).

(** [baseFileWriter.write]. *)
Definition write (tc : TimeCache) (lv : Level) (format : bytes)
    (fw : baseFileWriter) (w : World) : Result (baseFileWriter * World) :=
  if closed fw then deferred_send 0 fw w
  else
    match blog fw with
    | None => Panic NilPointerDereference
    | Some bl =>
      '(size, bl, w) ← BLog_write tc lv format bl w;
      deferred_send (Z.of_nat size) (with_blog bl fw) w
    end.

(** [baseFileWriter.writef]. *)
Definition writef (tc : TimeCache) (lv : Level) (format : bytes) (args : list Arg)
    (fw : baseFileWriter) (w : World) : Result (baseFileWriter * World) :=
  if closed fw then deferred_send 0 fw w
  else
    match blog fw with
    | None => Panic NilPointerDereference
    | Some bl =>
      '(size, bl, w) ← BLog_writef tc lv format args bl w;
      deferred_send (Z.of_nat size) (with_blog bl fw) w
    end.

(** [baseFileWriter.Close]. *)
Definition Close (fw : baseFileWriter) (w : World) : Result (baseFileWriter * World) :=
  if closed fw then Ok (fw, w)
  else
    match blog fw with
    | None => Panic NilPointerDereference
    | Some bl =>
      '(_, w) ← BLog_Close bl w;
      Ok (mk_baseFileWriter (fileName fw) (file fw) None true
            (timeRotated fw) (lineRotated fw) (rotateLines fw) (currentLines fw)
            (sizeRotated fw) (rotateSize fw) (currentSize fw) (sizeRotateTimes fw)
            (logSizeChan fw) (colored fw), w)
    end.

(** [baseFileWriter.flush]. *)
Definition flush (fw : baseFileWriter) (w : World) : Result (baseFileWriter * World) :=
  match blog fw with
  | None => Panic NilPointerDereference
  | Some bl =>
    '(bl, w) ← BLog_flush bl w;
    Ok (with_blog bl fw, w)
  end.

(** [baseFileWriter.SetTimeRotated]. *)
Definition SetTimeRotated (timeRotated' : bool) (fw : baseFileWriter) : baseFileWriter :=
  mk_baseFileWriter (fileName fw) (file fw) (blog fw) (closed fw)
    timeRotated' (lineRotated fw) (rotateLines fw) (currentLines fw)
    (sizeRotated fw) (rotateSize fw) (currentSize fw) (sizeRotateTimes fw)
    (logSizeChan fw) (colored fw).

(** [baseFileWriter.SetRotateSize]. *)
Definition SetRotateSize (rotateSize' : ByteSize) (fw : baseFileWriter) : baseFileWriter :=
  if 0 <? rotateSize' then
    mk_baseFileWriter (fileName fw) (file fw) (blog fw) (closed fw)
      (timeRotated fw) (lineRotated fw) (rotateLines fw) (currentLines fw)
      true rotateSize' (currentSize fw) (sizeRotateTimes fw)
      (logSizeChan fw) (colored fw)
  else
    mk_baseFileWriter (fileName fw) (file fw) (blog fw) (closed fw)
      (timeRotated fw) (lineRotated fw) (rotateLines fw) (currentLines fw)
      false (rotateSize fw) (currentSize fw) (sizeRotateTimes fw)
      (logSizeChan fw) (colored fw).

(** [baseFileWriter.SetRotateLines]. *)
Definition SetRotateLines (rotateLines' : Z) (fw : baseFileWriter) : baseFileWriter :=
  if 0 <? rotateLines' then
    mk_baseFileWriter (fileName fw) (file fw) (blog fw) (closed fw)
      (timeRotated fw) true rotateLines' (currentLines fw)
      (sizeRotated fw) (rotateSize fw) (currentSize fw) (sizeRotateTimes fw)
      (logSizeChan fw) (colored fw)
  else
    mk_baseFileWriter (fileName fw) (file fw) (blog fw) (closed fw)
      (timeRotated fw) false (rotateLines fw) (currentLines fw)
      (sizeRotated fw) (rotateSize fw) (currentSize fw) (sizeRotateTimes fw)
      (logSizeChan fw) (colored fw).

Definition RotateSize (fw : baseFileWriter) : ByteSize := rotateSize fw.

Definition RotateLine (fw : baseFileWriter) : Z := rotateLines fw.

End baseFileWriter.

(* ===================================================================== *)
(** ** Notions used in the statements *)
(* ===================================================================== *)

(** The bytes the writer has taken: those already in its file followed by
    those still in the buffer. *)
Definition stream (b : bufio_Writer) (w : World) : bytes :=
  file_bytes (b_wr b) w ++ b_buf b.

(** The bufio writer has no pending error, a buffer of positive capacity
    and an open file behind it. *)
Definition healthy (b : bufio_Writer) (w : World) : bool :=
  bool_decide (b_err b = None) && (0 <? b_cap b)%nat && writable (b_wr b) w.

(** The bufio writer of a file writer, when it has one. *)
Definition bufio_of (fw : baseFileWriter) : option bufio_Writer :=
  bl ← blog fw; writer bl.

(** A handle is nil or a descriptor of the table of [w]. *)
Definition valid_handle (h : handle) (w : World) : bool :=
  match h with
  | None => true
  | Some fd => (fd <? length (fds w))%nat
  end.

(** The writer is open and wired as [newBaseFileWriter] and the rotations
    leave it: it has a BLog with a bufio writer, both write to the file of
    the writer, and that file is nil or a descriptor of [w]. *)
Definition wired (fw : baseFileWriter) (w : World) : bool :=
  negb (closed fw)
  && match blog fw with
     | Some bl =>
       bool_decide (in_ bl = file fw)
       && match writer bl with
          | Some b => bool_decide (b_wr b = file fw)
          | None => false
          end
     | None => false
     end
  && valid_handle (file fw) w.

(** [fw'] has the name, the flags and the thresholds of [fw]. *)
Definition same_policy (fw fw' : baseFileWriter) : Prop :=
  fileName fw' = fileName fw /\ closed fw' = closed fw
  /\ timeRotated fw' = timeRotated fw
  /\ lineRotated fw' = lineRotated fw /\ rotateLines fw' = rotateLines fw
  /\ sizeRotated fw' = sizeRotated fw /\ rotateSize fw' = rotateSize fw
  /\ colored fw' = colored fw.

(** [b'], [w'] are [b], [w] after the bufio writer took the bytes [p]: it
    is healthy, its stream grew by [p], and neither its file nor the
    table of descriptors changed. *)
Definition accepts (p : bytes) (b : bufio_Writer) (w : World)
    (b' : bufio_Writer) (w' : World) : Prop :=
  healthy b' w' = true /\ stream b' w' = stream b w ++ p
  /\ b_wr b' = b_wr b /\ b_cap b' = b_cap b
  /\ fds w' = fds w /\ denied w' = denied w.

(** No operation of a bufio writer changes the file it writes to, and on
    a file that takes no bytes none changes the world. *)
Definition bufio_frame (b : bufio_Writer) (w : World) (b' : bufio_Writer) (w' : World) : Prop :=
  b_wr b' = b_wr b /\ fds w' = fds w /\ denied w' = denied w
  /\ (writable (b_wr b) w = false -> w' = w).

(** The loop of [writef] run on every byte of [s], [s] starting at byte
    index [i] of the format; it is the loop over the runes of a format,
    see [writef_loop_bytes]. *)
Fixpoint writef_bytes {Arg : Type} {F : Formatter Arg} (format : bytes) (args : list Arg) (i : nat)
    (s : bytes) (st : scan) (b : bufio_Writer) (w : World)
    : Result (scan * bufio_Writer * World) :=
  match s with
  | [] => Ok (st, b, w)
  | c :: s' =>
    '(st, b, w) ← writef_body format args i (byte_val c) st b w;
    writef_bytes format args (S i) s' st b w
  end.

(** The part of the state of the scanner that steers it. *)
Record ctl : Type := mk_ctl {
  c_tag : bool;
  c_tagPos : nat;
  c_escape : bool;
  c_n : nat;
  c_last : nat;
}.

Definition ctl_of (st : scan) : ctl :=
  mk_ctl (v_tag st) (v_tagPos st) (v_escape st) (v_n st) (v_last st).

(** The moves of [writef_body] on that part. *)
Definition ctl_step (i : nat) (c : ascii) (k : ctl) : ctl :=
  if c_tag k then
    if is_verb (byte_val c) then mk_ctl false (c_tagPos k) false (c_n k + 1) (i + 1)
    else if byte_val c =? byte_val ESCAPE
         then mk_ctl (c_tag k) (c_tagPos k) (negb (c_escape k)) (c_n k) (c_last k)
         else k
  else
    if bool_decide (PLACEHOLDER = c) && negb (c_escape k)
    then mk_ctl true i false (c_n k) (c_last k)
    else k.

Fixpoint ctl_scan (i : nat) (s : bytes) (k : ctl) : ctl :=
  match s with
  | [] => k
  | c :: s' => ctl_scan (S i) s' (ctl_step i c k)
  end.

Definition ctl_init : ctl := mk_ctl false 0 false 0 0.

(** The state in which [writef] enters its loop. *)
Definition scan_init {LP : LevelPrefix} (tc : TimeCache) (lv : Level) : scan :=
  mk_scan false 0 false 0 0 (length (tc_format tc) + length (prefix lv)).

(** Outside a placeholder the escape flag is not set. *)
Definition escape_inside (k : ctl) : Prop := c_tag k = false -> c_escape k = false.

(** The number of placeholders of a format that a verb closes: a [%]
    met outside a placeholder opens one, the next verb closes it. *)
Fixpoint count_placeholders (tag : bool) (s : bytes) : nat :=
  match s with
  | [] => 0
  | c :: s' =>
    if tag then
      if is_verb (byte_val c) then S (count_placeholders false s')
      else count_placeholders true s'
    else
      if bool_decide (PLACEHOLDER = c) then count_placeholders true s'
      else count_placeholders false s'
  end.

Definition placeholders (format : bytes) : nat := count_placeholders false format.

(** The backslashes that the scanner writes while it is inside a
    placeholder and meets no verb: every second one. *)
Fixpoint escapes (escape : bool) (s : bytes) : bytes :=
  match s with
  | [] => []
  | c :: s' =>
    if byte_val c =? byte_val ESCAPE then
      if escape then ESCAPE :: escapes false s' else escapes true s'
    else escapes escape s'
  end.

(** What the callers and the daemon do to a writer, one step at a time:
    a call of [write], or a round of the daemon on the channel of sizes (a
    round that finds the channel empty does nothing). *)
Inductive step : Type :=
| DoWrite (message : bytes)
| DoCount.

Section Runs.
Context {LP : LevelPrefix}.

Definition run_step (tc : TimeCache) (lv : Level) (s : step)
    (fw : baseFileWriter) (w : World) : Result (baseFileWriter * World) :=
  match s with
  | DoWrite message => write tc lv message fw w
  | DoCount =>
    '(_, fw, w) ← daemon tc LogSize fw w;
    Ok (fw, w)
  end.

Fixpoint run_steps (tc : TimeCache) (lv : Level) (steps : list step)
    (fw : baseFileWriter) (w : World) : Result (baseFileWriter * World) :=
  match steps with
  | [] => Ok (fw, w)
  | s :: steps' =>
    '(fw, w) ← run_step tc lv s fw w;
    run_steps tc lv steps' fw w
  end.

(** The length of the record of a message. *)
Definition record_size (tc : TimeCache) (lv : Level) (message : bytes) : Z :=
  Z.of_nat (length (tc_format tc) + length (prefix lv) + length message + 1).

End Runs.

(** The number of writes that the daemon has counted at the end of
    [steps], when [pending] sizes wait in the channel at the start. *)
Fixpoint counted (pending : nat) (steps : list step) : nat :=
  match steps with
  | [] => 0
  | DoWrite _ :: steps' => counted (S pending) steps'
  | DoCount :: steps' =>
    match pending with
    | O => counted O steps'
    | S pending' => S (counted pending' steps')
    end
  end.

(** Every write of [steps] makes a record of [s] bytes. *)
Definition writes_of_size {LP : LevelPrefix} (tc : TimeCache) (lv : Level) (s : Z)
    (steps : list step) : Prop :=
  Forall (fun st => match st with
                    | DoWrite m => record_size tc lv m = s
                    | DoCount => True
                    end) steps.

(** No byte of [s] is a verb. *)
Definition verb_free (s : bytes) : bool := forallb (fun c => negb (is_verb (byte_val c))) s.

(** The number of counted records after which the daemon rotates when
    every record has [s] bytes: [T / s + 1] with rotation by size alone
    and threshold [T], [L + 1] with rotation by lines alone and threshold
    [L], the smaller of the two when both are on. *)
Definition period (s : Z) (fw : baseFileWriter) : Z :=
  match sizeRotated fw, lineRotated fw with
  | true, true => Z.min (rotateSize fw / s + 1) (rotateLines fw + 1)
  | true, false => rotateSize fw / s + 1
  | false, true => rotateLines fw + 1
  | false, false => 0
  end.

(** The writer has counted [j] records since its last rotation: a
    rotation by size or lines is on, [j] is below the period, and the
    counter of each policy that is on says so.  With rotation by size the
    records have [s] bytes each, the sizes that wait in the channel
    included, and the threshold is such that the counter does not
    overflow. *)
Definition counting (s j : Z) (fw : baseFileWriter) : Prop :=
  sizeRotated fw || lineRotated fw = true
  /\ 0 <= j < period s fw
  /\ (sizeRotated fw = true ->
      0 < s /\ 0 <= rotateSize fw /\ rotateSize fw + s <= maxInt64
      /\ currentSize fw = j * s /\ Forall (eq s) (logSizeChan fw))
  /\ (lineRotated fw = true -> 0 <= rotateLines fw < maxInt64 /\ currentLines fw = j)
  /\ (j = 0 -> currentSize fw = 0 /\ currentLines fw = 0).

(* ===================================================================== *)
(** ** The rest of BLog and of baseFileWriter *)
(* ===================================================================== *)

(** [BLog.In]. *)
Definition BLog_In (blog : BLog) : handle := in_ blog.

(** [baseFileWriter.Level]: the level of the BLog, which is nil after
    [Close]. *)
Definition baseFileWriter_Level (fw : baseFileWriter) : Result Level :=
  match blog fw with
  | None => Panic NilPointerDereference
  | Some bl => Ok (BLog_Level bl)
  end.

(** [baseFileWriter.SetLevel]. *)
Definition baseFileWriter_SetLevel (lv : Level) (fw : baseFileWriter) : Result baseFileWriter :=
  match blog fw with
  | None => Panic NilPointerDereference
  | Some bl =>
    Ok (mk_baseFileWriter (fileName fw) (file fw) (Some (BLog_SetLevel lv bl)) (closed fw)
          (timeRotated fw) (lineRotated fw) (rotateLines fw) (currentLines fw)
          (sizeRotated fw) (rotateSize fw) (currentSize fw) (sizeRotateTimes fw)
          (logSizeChan fw) (colored fw))
  end.

(* ===================================================================== *)
(** ** Formats made of literal text and closed placeholders *)
(* ===================================================================== *)

(** A stretch of a format: literal text, then a placeholder made of a
    [%], of flags and of the verb that closes it. *)
Record piece : Type := mk_piece {
  p_lit : bytes;
  p_flags : bytes;
  p_verb : ascii;
}.

(** The text of the placeholder, which [writef] hands to [Sprintf]. *)
Definition piece_spec (p : piece) : bytes := PLACEHOLDER :: p_flags p ++ [p_verb p].

Definition piece_text (p : piece) : bytes := p_lit p ++ piece_spec p.

(** No byte of [s] is a [%]. *)
Definition percent_free (s : bytes) : bool :=
  forallb (fun c => negb (bool_decide (PLACEHOLDER = c))) s.

(** No byte of [s] is a verb or a backslash. *)
Definition plain_flags (s : bytes) : bool :=
  forallb (fun c => negb (is_verb (byte_val c)) && negb (byte_val c =? byte_val ESCAPE)) s.

Definition well_formed (p : piece) : bool :=
  percent_free (p_lit p) && plain_flags (p_flags p) && is_verb (byte_val (p_verb p)).

(** The format made of the pieces [ps] and of the literal text [tail]. *)
Fixpoint format_of (ps : list piece) (tail : bytes) : bytes :=
  match ps with
  | [] => tail
  | p :: ps' => piece_text p ++ format_of ps' tail
  end.

(** The pieces rendered with the arguments, one argument a piece. *)
Fixpoint render {Arg : Type} {F : Formatter Arg} (ps : list piece) (args : list Arg) : bytes :=
  match ps, args with
  | p :: ps', a :: args' => p_lit p ++ Sprintf (piece_spec p) a ++ render ps' args'
  | _, _ => []
  end.

(** The record that [write] makes of a message. *)
Definition record {LP : LevelPrefix} (tc : TimeCache) (lv : Level) (message : bytes) : bytes :=
  tc_format tc ++ prefix lv ++ message ++ [EOL].

(* ===================================================================== *)
(** ** Runs of a writer *)
(* ===================================================================== *)

(** The messages of the writes of [steps], in the order of the calls. *)
Fixpoint messages (steps : list step) : list bytes :=
  match steps with
  | [] => []
  | DoWrite m :: steps' => m :: messages steps'
  | DoCount :: steps' => messages steps'
  end.

(** The number of rounds of the daemon among [steps]. *)
Fixpoint rounds (steps : list step) : nat :=
  match steps with
  | [] => 0
  | DoWrite _ :: steps' => rounds steps'
  | DoCount :: steps' => S (rounds steps')
  end.

(** The records of a list of messages, one after the other. *)
Definition records {LP : LevelPrefix} (tc : TimeCache) (lv : Level) (ms : list bytes) : bytes :=
  concat (map (record tc lv) ms).

(** Whether the round of the daemon on [ev] finds, on an open writer,
    the condition of a rotation: a new date with time rotation on, or a
    size that takes a counter over its threshold. *)
Definition rotates (tc : TimeCache) (ev : stimulus) (fw : baseFileWriter) : bool :=
  match ev with
  | FlushTick => false
  | TimeTick now => timeRotated fw && negb (bool_decide (now = tc_date tc))
  | LogSize =>
    match logSizeChan fw with
    | [] => false
    | size :: _ => needRotate (add_size size fw)
    end
  end.

(** The name of the file that such a round opens. *)
Definition rotation_name (tc : TimeCache) (ev : stimulus) (fw : baseFileWriter) : bytes :=
  match ev, logSizeChan fw with
  | LogSize, size :: _ => sizeRotateName tc (next_sequence (add_size size fw))
  | _, _ => timeRotateName tc fw
  end.

(** [fw'] has the file, the counters and the sequence number of [fw]. *)
Definition same_file_and_counters (fw fw' : baseFileWriter) : Prop :=
  file fw' = file fw /\ currentSize fw' = currentSize fw
  /\ currentLines fw' = currentLines fw /\ sizeRotateTimes fw' = sizeRotateTimes fw.

(** What may happen to an open writer: a call of one of its methods
    other than [Close], or a round of its daemon. *)
Inductive call (Arg : Type) : Type :=
| CallWrite (lv : Level) (message : bytes)
| CallWritef (lv : Level) (format : bytes) (args : list Arg)
| CallFlush
| CallSetTimeRotated (timeRotated' : bool)
| CallSetRotateSize (rotateSize' : ByteSize)
| CallSetRotateLines (rotateLines' : Z)
| CallSetLevel (lv : Level)
| Round (ev : stimulus).
Arguments CallWrite {Arg} lv message.
Arguments CallWritef {Arg} lv format args.
Arguments CallFlush {Arg}.
Arguments CallSetTimeRotated {Arg} timeRotated'.
Arguments CallSetRotateSize {Arg} rotateSize'.
Arguments CallSetRotateLines {Arg} rotateLines'.
Arguments CallSetLevel {Arg} lv.
Arguments Round {Arg} ev.

(** A call of [writef] with fewer arguments than its format closes
    placeholders. *)
Definition lacks_argument {Arg : Type} (c : call Arg) : bool :=
  match c with
  | CallWritef _ format args => (length args <? placeholders format)%nat
  | _ => false
  end.

Section Calls.
Context {LP : LevelPrefix} {Arg : Type} {F : Formatter Arg}.

Definition run_call (tc : TimeCache) (c : call Arg) (fw : baseFileWriter) (w : World)
    : Result (baseFileWriter * World) :=
  match c with
  | CallWrite lv message => write tc lv message fw w
  | CallWritef lv format args => writef tc lv format args fw w
  | CallFlush => flush fw w
  | CallSetTimeRotated timeRotated' => Ok (SetTimeRotated timeRotated' fw, w)
  | CallSetRotateSize rotateSize' => Ok (SetRotateSize rotateSize' fw, w)
  | CallSetRotateLines rotateLines' => Ok (SetRotateLines rotateLines' fw, w)
  | CallSetLevel lv => fw ← baseFileWriter_SetLevel lv fw; Ok (fw, w)
  | Round ev => '(_, fw, w) ← daemon tc ev fw w; Ok (fw, w)
  end.

Fixpoint run_calls (tc : TimeCache) (cs : list (call Arg)) (fw : baseFileWriter) (w : World)
    : Result (baseFileWriter * World) :=
  match cs with
  | [] => Ok (fw, w)
  | c :: cs' =>
    '(fw, w) ← run_call tc c fw w;
    run_calls tc cs' fw w
  end.

End Calls.

(** Two outcomes of a call agree on what a caller can observe of the
    output: the same panic or wait, or the same world, the same bufio writer and
    the same sizes in the channel. *)
Definition same_output (r1 r2 : Result (baseFileWriter * World)) : Prop :=
  match r1, r2 with
  | Ok (fw1, w1), Ok (fw2, w2) =>
    w1 = w2 /\ bufio_of fw1 = bufio_of fw2 /\ logSizeChan fw1 = logSizeChan fw2
  | Stop s1, Stop s2 => s1 = s2
  | _, _ => False
  end.

(* ===================================================================== *)
(** ** An instance to run the model on *)
(* ===================================================================== *)

(** Arguments of the two kinds the examples pass. *)
Inductive DemoArg : Type :=
| AInt (z : Z)
| AStr (s : bytes).

(** A fragment of [fmt.Sprintf]: [%d] and [%v] on an integer, [%s] and
    [%v] on a string.  Outside the fragment the format is given back. *)
Definition demo_Sprintf : Formatter DemoArg := fun f a =>
  match a with
  | AInt z => if bool_decide (f = B "%d") || bool_decide (f = B "%v") then itoa z else f
  | AStr s => if bool_decide (f = B "%s") || bool_decide (f = B "%v") then s else f
  end.

Definition demo_prefix : LevelPrefix := fun lv =>
  match lv with
  | DEBUG => B " [DEBUG] "
  | TRACE => B " [TRACE] "
  | INFO => B " [INFO] "
  | WARN => B " [WARN] "
  | ERROR => B " [ERROR] "
  | CRITICAL => B " [CRITICAL] "
  end.

Definition demo_tc : TimeCache :=
  mk_TimeCache (B "2015-06-02 10:00:00") (B "2015-06-02") (B "2015-06-01").

(** A world with no file, in which every path opens. *)
Definition demo_world : World := mk_World ∅ [] ∅.

(** A writer on [app.log] with a buffer of 64 bytes, and the world it was
    made in. *)
Definition demo_fw : baseFileWriter := (newBaseFileWriter 64 (B "app.log") demo_world).1.1.
Definition demo_w : World := (newBaseFileWriter 64 (B "app.log") demo_world).2.

(** A world with no file, in which [app.log.2] cannot be opened. *)
Definition ro_world : World := mk_World ∅ [] {[ B "app.log.2" ]}.

(** The BLog of that writer and its bufio writer. *)
Definition demo_bufio : bufio_Writer := bufio_NewWriterSize (Some 0%nat) 64.
Definition demo_blog : BLog := NewBLog 64 (Some 0%nat).

(** Five writes of a record of 29 bytes; two sizes wait in the channel
    for a while and every one is counted in the end. *)
Definition five_writes : list step :=
  [DoWrite (B "a"); DoWrite (B "b"); DoCount; DoWrite (B "c"); DoCount; DoCount;
   DoWrite (B "d"); DoCount; DoWrite (B "e"); DoCount; DoCount].

(** A writer that counted two records of 29 bytes, with rotation by time
    and by size on, and the world it lives in. *)
Definition counting_run : Result (baseFileWriter * World) :=
  run_steps (LP:=demo_prefix) demo_tc INFO
    [DoWrite (B "a"); DoCount; DoWrite (B "b"); DoCount]
    (SetRotateSize 1000 (SetTimeRotated true demo_fw)) demo_w.

Definition counting_fw : baseFileWriter :=
  match counting_run with Ok (fw, _) => fw | Stop _ => demo_fw end.

Definition counting_w : World :=
  match counting_run with Ok (_, w) => w | Stop _ => demo_w end.

Definition counting_blog : BLog := default demo_blog (blog counting_fw).

Definition counting_bufio : bufio_Writer := default demo_bufio (writer counting_blog).

(** A fresh writer with rotation by lines after 3 lines, three records
    written and counted, and a fourth written and not yet counted. *)
Definition fourth_write_run : Result (baseFileWriter * World) :=
  run_steps (LP:=demo_prefix) demo_tc INFO
    [DoWrite (B "a"); DoCount; DoWrite (B "b"); DoCount; DoWrite (B "c"); DoCount;
     DoWrite (B "d")]
    (SetRotateLines 3 demo_fw) demo_w.

Definition fourth_write_fw : baseFileWriter :=
  match fourth_write_run with Ok (fw, _) => fw | Stop _ => demo_fw end.

Definition fourth_write_w : World :=
  match fourth_write_run with Ok (_, w) => w | Stop _ => demo_w end.

(** The same run in the world in which [app.log.2] cannot be opened, and
    with a buffer large enough to hold every record. *)
Definition ro_fw : baseFileWriter := (newBaseFileWriter 4096 (B "app.log") ro_world).1.1.
Definition ro_w : World := (newBaseFileWriter 4096 (B "app.log") ro_world).2.

Definition ro_fourth_write_run : Result (baseFileWriter * World) :=
  run_steps (LP:=demo_prefix) demo_tc INFO
    [DoWrite (B "a"); DoCount; DoWrite (B "b"); DoCount; DoWrite (B "c"); DoCount;
     DoWrite (B "d")]
    (SetRotateLines 3 ro_fw) ro_w.

Definition ro_fourth_write_fw : baseFileWriter :=
  match ro_fourth_write_run with Ok (fw, _) => fw | Stop _ => ro_fw end.

Definition ro_fourth_write_w : World :=
  match ro_fourth_write_run with Ok (_, w) => w | Stop _ => ro_w end.


(** A format of two pieces, [id=%d host=\%-8s up] once [ up] is put
    after them, and three arguments for it. *)
Definition demo_pieces : list piece :=
  [mk_piece (B "id=") [] "d"%char; mk_piece (B " host=\") (B "-8") "s"%char].

Definition demo_args : list DemoArg := [AInt 7; AStr (B "web1"); AInt 0].

(** The writer that counted two records, closed, and the world after. *)
Definition closed_fw : baseFileWriter :=
  match Close counting_fw counting_w with Ok (fw, _) => fw | Stop _ => counting_fw end.

Definition closed_w : World :=
  match Close counting_fw counting_w with Ok (_, w) => w | Stop _ => counting_w end.

(** Calls and rounds of the daemon on a new writer. *)
Definition demo_calls : list (call DemoArg) :=
  [CallWritef INFO (B "%s took %d ms") [AStr (B "GET"); AInt 12];
   CallSetRotateLines 2; CallWrite WARN (B "slow"); Round LogSize;
   CallSetTimeRotated true; CallWrite INFO (B "a"); CallWrite INFO (B "b");
   Round LogSize; Round LogSize; Round (TimeTick (B "2015-06-03"));
   CallSetLevel ERROR; CallFlush; Round FlushTick; CallWritef DEBUG (B "100%") []].

(** A writer with rotation by lines on, closed before any write; the
    writes that come after [Close], as many as the channel has room for;
    and the writer after them. *)
Definition late_fw : baseFileWriter :=
  match Close (SetRotateLines 3 demo_fw) demo_w with Ok (fw, _) => fw | Stop _ => demo_fw end.

Definition late_w : World :=
  match Close (SetRotateLines 3 demo_fw) demo_w with Ok (_, w) => w | Stop _ => demo_w end.

Definition late_writes : list step := repeat (DoWrite (B "late")) logSizeChanCap.

Definition late_run : Result (baseFileWriter * World) :=
  run_steps (LP:=demo_prefix) demo_tc INFO late_writes late_fw late_w.

Definition full_fw : baseFileWriter :=
  match late_run return baseFileWriter with Ok (fw, _) => fw | Stop _ => late_fw end.

(** The demo writer with rotation by size alone (threshold 58), by lines
    alone (threshold 3), and by both (thresholds 58 and 1): records of 29
    bytes rotate it every third, every fourth and every second write. *)
Definition size_fw : baseFileWriter := SetRotateSize 58 demo_fw.
Definition lines_fw : baseFileWriter := SetRotateLines 3 demo_fw.
Definition both_fw : baseFileWriter := SetRotateSize 58 (SetRotateLines 1 demo_fw).
(* ===================================================================== *)
(** ** Properties of the files and of bufio.Writer *)
(* ===================================================================== *)

Lemma File_Write_writable h p w :
  writable h w = true ->
  exists w', File_Write h p w = (length p, None, w')
    /\ file_bytes h w' = file_bytes h w ++ p
    /\ fds w' = fds w /\ denied w' = denied w.
Proof.
  unfold writable, File_Write, file_bytes.
  destruct h as [fd|]; [|discriminate].
  destruct (fds w !! fd) as [f|] eqn:Hfd; [|discriminate].
  destruct (f_closed f); [discriminate|]. intros _.
  eexists. split; [reflexivity|]. cbn. rewrite Hfd.
  split; [|done]. unfold contents at 1. cbn. by rewrite lookup_insert_eq.
Qed.

Lemma writable_fds h w w' : fds w' = fds w -> writable h w' = writable h w.
Proof. unfold writable. by intros ->. Qed.

Lemma healthy_inv b w :
  healthy b w = true -> b_err b = None /\ (0 < b_cap b)%nat /\ writable (b_wr b) w = true.
Proof.
  unfold healthy. rewrite !andb_true_iff, bool_decide_eq_true, Nat.ltb_lt. tauto.
Qed.

Lemma healthy_intro b w :
  b_err b = None -> (0 < b_cap b)%nat -> writable (b_wr b) w = true -> healthy b w = true.
Proof.
  unfold healthy. rewrite !andb_true_iff, bool_decide_eq_true, Nat.ltb_lt. tauto.
Qed.

Lemma accepts_refl b w : healthy b w = true -> accepts [] b w b w.
Proof. intros Hh. unfold accepts. by rewrite app_nil_r. Qed.

Lemma accepts_trans p q b w b1 w1 b2 w2 :
  accepts p b w b1 w1 -> accepts q b1 w1 b2 w2 -> accepts (p ++ q) b w b2 w2.
Proof.
  intros (_ & Hs1 & Hw1 & Hc1 & Hf1 & Hd1) (Hh & Hs2 & Hw2 & Hc2 & Hf2 & Hd2).
  unfold accepts. rewrite Hs2, Hs1, Hw2, Hc2, Hf2, Hd2, app_assoc. done.
Qed.

(** A healthy writer flushes everything and stays healthy. *)
Lemma bufio_Flush_healthy b w :
  healthy b w = true ->
  exists b' w', bufio_Flush b w = (None, b', w')
    /\ b_buf b' = [] /\ accepts [] b w b' w'.
Proof.
  intros Hh. destruct (healthy_inv _ _ Hh) as (He & Hc & Hw).
  unfold bufio_Flush. rewrite He.
  destruct (length (b_buf b) =? 0)%nat eqn:Hn.
  - apply Nat.eqb_eq in Hn. apply nil_length_inv in Hn.
    exists b, w. split; [done|]. split; [done|]. by apply accepts_refl.
  - destruct (File_Write_writable _ (b_buf b) _ Hw) as (w' & -> & Hb & Hf & Hd).
    rewrite Nat.ltb_irrefl. eexists _, w'. split; [reflexivity|]. split; [done|].
    unfold accepts, stream. cbn. rewrite Hb, !app_nil_r. repeat split; try done.
    apply healthy_intro; cbn; try done. by rewrite (writable_fds _ _ _ Hf).
Qed.

Lemma healthy_fields b b' w w' :
  healthy b w = true -> b_err b' = None -> b_cap b' = b_cap b -> b_wr b' = b_wr b ->
  fds w' = fds w -> healthy b' w' = true.
Proof.
  intros Hh He Hc Hw Hf. destruct (healthy_inv _ _ Hh) as (_ & ? & ?).
  apply healthy_intro; [done|lia|]. by rewrite Hw, (writable_fds _ _ _ Hf).
Qed.

(** The copy of [p] into the buffer adds it to the stream. *)
Lemma accepts_fill p b w :
  healthy b w = true ->
  accepts p b w (mk_bufio (b_err b) (b_buf b ++ p) (b_cap b) (b_wr b)) w.
Proof.
  intros Hh. destruct (healthy_inv _ _ Hh) as (He & _ & _).
  unfold accepts, stream. cbn. rewrite app_assoc.
  repeat split; try done; by apply (healthy_fields b _ w).
Qed.

(** Topping the buffer up and flushing it, as both loops do. *)
Lemma fill_flush_healthy s b w :
  healthy b w = true -> (bufio_Available b < length s)%nat ->
  exists b2 w2,
    bufio_fill s b = (bufio_Available b, (bufio_fill s b).2)
    /\ bufio_Flush (bufio_fill s b).2 w = (None, b2, w2)
    /\ b_buf b2 = [] /\ accepts (take (bufio_Available b) s) b w b2 w2.
Proof.
  intros Hh Hlt. unfold bufio_fill. cbn [snd].
  rewrite Nat.min_l by lia.
  pose proof (accepts_fill (take (bufio_Available b) s) b w Hh) as Ha.
  destruct (bufio_Flush_healthy _ w (proj1 Ha)) as (b2 & w2 & Hfl & Hnil & Ha2).
  exists b2, w2. split; [done|]. split; [done|]. split; [done|].
  rewrite <- (app_nil_r (take _ s)). by eapply accepts_trans.
Qed.

Lemma bufio_WriteString_loop_healthy fuel : forall s nn b w,
  healthy b w = true ->
  (length s + 2 <= fuel \/ (b_buf b = [] /\ length s + 1 <= fuel))%nat ->
  exists p s' b' w',
    bufio_WriteString_loop fuel s nn b w = (s', (nn + length p)%nat, b', w')
    /\ s = p ++ s' /\ (length s' <= bufio_Available b')%nat /\ accepts p b w b' w'.
Proof.
  induction fuel as [|fuel IH]; intros s nn b w Hh Hfuel; [lia|].
  destruct (healthy_inv _ _ Hh) as (He & Hc & _).
  cbn [bufio_WriteString_loop]. rewrite He, bool_decide_true, andb_true_r by done.
  destruct (bufio_Available b <? length s)%nat eqn:Hlt.
  - apply Nat.ltb_lt in Hlt.
    destruct (fill_flush_healthy s b w Hh Hlt) as (b2 & w2 & Hfill & Hfl & Hnil & Ha).
    rewrite Hfill, Hfl.
    destruct (IH (drop (bufio_Available b) s) (nn + bufio_Available b)%nat b2 w2 (proj1 Ha))
      as (p & s' & b' & w' & Hloop & Hs & Hlen & Ha').
    { right. split; [done|]. rewrite length_drop.
      destruct Hfuel as [?|[Hb ?]]; [lia|].
      unfold bufio_Available in *. rewrite Hb in *. cbn in *. lia. }
    exists (take (bufio_Available b) s ++ p), s', b', w'.
    rewrite Hloop, length_app, length_take, Nat.min_l by lia.
    split; [f_equal; f_equal; f_equal; lia|].
    split; [by rewrite <- app_assoc, <- Hs, take_drop|].
    split; [done|]. by eapply accepts_trans.
  - apply Nat.ltb_ge in Hlt. exists [], s, b, w. cbn.
    rewrite Nat.add_0_r. repeat split; try done. by apply accepts_refl.
Qed.

(** On a healthy writer [WriteString] takes the whole string. *)
Lemma bufio_WriteString_healthy s b w :
  healthy b w = true ->
  exists b' w', bufio_WriteString s b w = (length s, None, b', w') /\ accepts s b w b' w'.
Proof.
  intros Hh. unfold bufio_WriteString.
  destruct (bufio_WriteString_loop_healthy (length s + 2) s 0 b w Hh)
    as (p & s' & b' & w' & -> & Hs & Hlen & Ha); [lia|].
  destruct (healthy_inv _ _ (proj1 Ha)) as (He & _ & _). rewrite He.
  unfold bufio_fill. rewrite Nat.min_r, firstn_all by lia.
  eexists _, w'. split.
  - subst s. rewrite length_app. reflexivity.
  - subst s. eapply accepts_trans; [exact Ha|].
    apply accepts_fill, Ha.
Qed.

Lemma bufio_Write_loop_healthy fuel : forall s nn b w,
  healthy b w = true ->
  (length s + 2 <= fuel \/ (b_buf b = [] /\ length s + 1 <= fuel))%nat ->
  exists p s' b' w',
    bufio_Write_loop fuel s nn b w = (s', (nn + length p)%nat, b', w')
    /\ s = p ++ s' /\ (length s' <= bufio_Available b')%nat /\ accepts p b w b' w'.
Proof.
  induction fuel as [|fuel IH]; intros s nn b w Hh Hfuel; [lia|].
  destruct (healthy_inv _ _ Hh) as (He & Hc & Hw).
  cbn [bufio_Write_loop]. rewrite He, bool_decide_true, andb_true_r by done.
  destruct (bufio_Available b <? length s)%nat eqn:Hlt.
  - apply Nat.ltb_lt in Hlt.
    destruct (length (b_buf b) =? 0)%nat eqn:Hn.
    + apply Nat.eqb_eq in Hn. apply nil_length_inv in Hn.
      destruct (File_Write_writable _ s _ Hw) as (w1 & -> & Hb & Hf & Hd).
      assert (Ha : accepts s b w (mk_bufio None (b_buf b) (b_cap b) (b_wr b)) w1).
      { unfold accepts, stream. cbn. rewrite Hb, Hn, !app_nil_r.
        repeat split; try done. by apply (healthy_fields b _ w). }
      destruct (IH (drop (length s) s) (nn + length s)%nat _ w1 (proj1 Ha))
        as (p & s' & b' & w' & Hloop & Hs & Hlen & Ha').
      { right. split; [done|]. rewrite length_drop. lia. }
      cbv beta iota. rewrite drop_all in Hloop, Hs |- *. symmetry in Hs.
      apply app_eq_nil in Hs as [-> ->].
      exists s, [], b', w'. rewrite Hloop. cbn. rewrite Nat.add_0_r, app_nil_r.
      split; [done|]. split; [done|]. split; [lia|].
      rewrite <- (app_nil_r s). by eapply accepts_trans.
    + destruct (fill_flush_healthy s b w Hh Hlt) as (b2 & w2 & Hfill & Hfl & Hnil & Ha).
      rewrite Hfill, Hfl.
      destruct (IH (drop (bufio_Available b) s) (nn + bufio_Available b)%nat b2 w2 (proj1 Ha))
        as (p & s' & b' & w' & Hloop & Hs & Hlen & Ha').
      { right. split; [done|]. rewrite length_drop.
        destruct Hfuel as [?|[Hb ?]]; [lia|].
        rewrite Hb in Hn. discriminate. }
      exists (take (bufio_Available b) s ++ p), s', b', w'.
      rewrite Hloop, length_app, length_take, Nat.min_l by lia.
      split; [f_equal; f_equal; f_equal; lia|].
      split; [by rewrite <- app_assoc, <- Hs, take_drop|].
      split; [done|]. by eapply accepts_trans.
  - apply Nat.ltb_ge in Hlt. exists [], s, b, w. cbn.
    rewrite Nat.add_0_r. repeat split; try done. by apply accepts_refl.
Qed.

(** On a healthy writer [Write] takes the whole slice. *)
Lemma bufio_Write_healthy s b w :
  healthy b w = true ->
  exists b' w', bufio_Write s b w = (length s, None, b', w') /\ accepts s b w b' w'.
Proof.
  intros Hh. unfold bufio_Write.
  destruct (bufio_Write_loop_healthy (length s + 2) s 0 b w Hh)
    as (p & s' & b' & w' & -> & Hs & Hlen & Ha); [lia|].
  destruct (healthy_inv _ _ (proj1 Ha)) as (He & _ & _). rewrite He.
  unfold bufio_fill. rewrite Nat.min_r, firstn_all by lia.
  eexists _, w'. split.
  - subst s. rewrite length_app. reflexivity.
  - subst s. eapply accepts_trans; [exact Ha|].
    apply accepts_fill, Ha.
Qed.

(** On a healthy writer [WriteByte] takes the byte. *)
Lemma bufio_WriteByte_healthy c b w :
  healthy b w = true ->
  exists b' w', bufio_WriteByte c b w = (None, b', w') /\ accepts [c] b w b' w'.
Proof.
  intros Hh. destruct (healthy_inv _ _ Hh) as (He & _ & _).
  unfold bufio_WriteByte. rewrite He.
  assert (Hput : forall b1 w1, healthy b1 w1 = true ->
            accepts [c] b1 w1 (mk_bufio (b_err b1) (b_buf b1 ++ [c]) (b_cap b1) (b_wr b1)) w1).
  { intros b1 w1 H1. apply (accepts_fill [c] b1 w1 H1). }
  destruct (bufio_Available b <=? 0)%nat.
  - destruct (bufio_Flush_healthy b w Hh) as (b1 & w1 & -> & _ & Ha).
    eexists _, w1. split; [reflexivity|].
    change [c] with ([] ++ [c]). eapply accepts_trans; [exact Ha|]. apply Hput, Ha.
  - eexists _, w. split; [reflexivity|]. specialize (Hput b w Hh). by rewrite He in Hput.
Qed.

(* ===================================================================== *)
(** ** Ranging over the runes and ranging over the bytes *)
(* ===================================================================== *)

Lemma bind_Ok {A B} (x : A) (f : A -> Result B) : (Ok x ≫= f) = f x.
Proof. reflexivity. Qed.

Lemma bind_Panic {A B} (s : stop) (f : A -> Result B) : (Stop s ≫= f) = Stop s.
Proof. reflexivity. Qed.

Lemma verbs_ascii : Forall (fun v => v < 0x80) verbs.
Proof. vm_compute. repeat constructor. Qed.

Lemma is_verb_high v : 0x80 <= v -> is_verb v = false.
Proof.
  intros Hv. unfold is_verb. apply bool_decide_eq_false. intros Hin.
  pose proof (proj1 (Forall_forall _ _) verbs_ascii v Hin). cbn beta in *. lia.
Qed.

Lemma byte_val_inj c1 c2 : byte_val c1 = byte_val c2 -> c1 = c2.
Proof.
  unfold byte_val. intros Heq. apply N2Z.inj in Heq.
  rewrite <- (ascii_N_embedding c1), <- (ascii_N_embedding c2). by rewrite Heq.
Qed.

Section Scanner.
Context {LP : LevelPrefix} {Arg : Type} {F : Formatter Arg}.
Variables (format : bytes) (args : list Arg).

(** A rune or a byte outside ASCII is no verb, no backslash and no [%]:
    the round does nothing. *)
Lemma writef_body_high i v c st b w :
  0x80 <= v -> format !! i = Some c -> 0x80 <= byte_val c ->
  writef_body format args i v st b w = Ok (st, b, w).
Proof.
  intros Hv Hi Hc. unfold writef_body.
  rewrite (is_verb_high v Hv).
  replace (v =? byte_val ESCAPE) with false
    by (symmetry; apply Z.eqb_neq; vm_compute (byte_val ESCAPE); lia).
  unfold index. rewrite Hi. cbn.
  rewrite bool_decide_false; [by destruct (v_tag st)|].
  intros <-. vm_compute in Hc. by apply Hc.
Qed.

(** The loop over the bytes passes over a run of bytes outside ASCII. *)
Lemma writef_bytes_high hi : forall pre rest st b w,
  Forall (fun c => 0x80 <= byte_val c) hi ->
  (exists post, format = pre ++ hi ++ post) ->
  writef_bytes format args (length pre) (hi ++ rest) st b w
  = writef_bytes format args (length pre + length hi) rest st b w.
Proof.
  induction hi as [|c hi IH]; intros pre rest st b w Hhi [post Hf].
  - cbn. by rewrite Nat.add_0_r.
  - apply Forall_cons in Hhi as [Hc Hhi]. cbn [app writef_bytes].
    rewrite (writef_body_high _ _ c) by (try done; subst format;
      by rewrite lookup_app_r, Nat.sub_diag by lia).
    cbn. replace (S (length pre)) with (length (pre ++ [c])) by (rewrite length_app; cbn; lia).
    rewrite IH; [|done|exists post; subst; by rewrite <- app_assoc].
    f_equal. rewrite length_app. cbn. lia.
Qed.

End Scanner.

(** What [range] yields on a byte outside ASCII: a rune outside ASCII, of
    a width within the string, over bytes that are all outside ASCII. *)
Lemma decoderune_high c t v wd :
  0x80 <= byte_val c -> decoderune (c :: t) = (v, wd) ->
  0x80 <= v /\ (1 <= wd <= length (c :: t))%nat
  /\ Forall (fun x => 0x80 <= byte_val x) (take wd (c :: t)).
Proof.
  intros Hc. unfold decoderune.
  replace (byte_val c <? 0x80) with false by (symmetry; apply Z.ltb_ge; lia).
  assert (Hone : 0x80 <= RuneError /\ (1 <= 1 <= length (c :: t))%nat
            /\ Forall (fun x => 0x80 <= byte_val x) (take 1 (c :: t))).
  { split; [by vm_compute|]. split; [cbn; lia|]. cbn. by repeat constructor. }
  assert (Hcont : forall x, is_cont x = true -> 0x80 <= byte_val x).
  { intros x. unfold is_cont. rewrite andb_true_iff, Z.leb_le. tauto. }
  repeat case_match; intros [= <- <-]; try exact Hone;
    repeat match goal with
           | Hb : _ && _ = true |- _ => apply andb_true_iff in Hb as [? ?]
           | Hb : (_ <? _) = true |- _ => apply Z.ltb_lt in Hb
           end;
    (split; [lia|]); (split; [cbn; lia|]); cbn; repeat constructor; auto.
Qed.

Section Bridge.
Context {LP : LevelPrefix} {Arg : Type} {F : Formatter Arg}.
Variables (format : bytes) (args : list Arg).

Lemma writef_loop_range_from fuel : forall pre s st b w,
  format = pre ++ s -> (length s <= fuel)%nat ->
  writef_loop format args (range_from fuel (length pre) s) st b w
  = writef_bytes format args (length pre) s st b w.
Proof.
  induction fuel as [|fuel IH]; intros pre s st b w Hf Hlen.
  - destruct s; [done|cbn in Hlen; lia].
  - destruct s as [|c t]; [done|]. cbn [range_from].
    destruct (decoderune (c :: t)) as [v wd] eqn:Hd. cbn [writef_loop].
    destruct (Z.ltb_spec (byte_val c) 0x80) as [Hlo|Hhi].
    + assert (v = byte_val c /\ wd = 1%nat) as [-> ->].
      { unfold decoderune in Hd.
        replace (byte_val c <? 0x80) with true in Hd by (symmetry; by apply Z.ltb_lt).
        by inversion Hd. }
      cbn [writef_bytes drop].
      destruct (writef_body format args (length pre) (byte_val c) st b w)
        as [[[st1 b1] w1]|]; [|done]. cbn.
      replace (length pre + 1)%nat with (length (pre ++ [c])) by by rewrite length_app.
      replace (S (length pre)) with (length (pre ++ [c])) by (rewrite length_app; cbn; lia).
      apply IH; [by rewrite <- app_assoc|cbn in Hlen; lia].
    + destruct (decoderune_high c t v wd Hhi Hd) as (Hv & Hwd & Hall).
      assert (HR : writef_bytes format args (length pre) (c :: t) st b w
                   = writef_bytes format args (length pre + wd) (drop wd (c :: t)) st b w).
      { rewrite <- (take_drop wd (c :: t)) at 1.
        rewrite writef_bytes_high;
          [|done|exists (drop wd (c :: t)); by rewrite take_drop].
        by rewrite length_take, Nat.min_l by lia. }
      rewrite HR.
      rewrite (writef_body_high _ _ _ _ c) by
        (try done; subst format; by rewrite lookup_app_r, Nat.sub_diag by lia).
      rewrite bind_Ok.
      replace (length pre + wd)%nat with (length (pre ++ take wd (c :: t)))
        by (rewrite length_app, length_take; lia).
      apply IH; [by rewrite <- app_assoc, take_drop|].
      rewrite length_drop. cbn in *. lia.
Qed.

(** The loop of [writef] over the runes of the format is the loop over
    its bytes. *)
Lemma writef_loop_bytes st b w :
  writef_loop format args (range_string format) st b w
  = writef_bytes format args 0 format st b w.
Proof. apply (writef_loop_range_from (length format) []); [done|lia]. Qed.

End Bridge.

(* ===================================================================== *)
(** ** The scanner of writef *)
(* ===================================================================== *)

Lemma slice_ok s lo hi :
  (lo <= hi)%nat -> (hi <= length s)%nat -> slice s lo hi = Ok (take (hi - lo) (drop lo s)).
Proof.
  intros H1 H2. unfold slice.
  by rewrite (proj2 (Nat.leb_le _ _) H1), (proj2 (Nat.leb_le _ _) H2).
Qed.

Lemma ctl_step_bounds i c k :
  (c_tagPos k <= i)%nat -> (c_last k <= i)%nat ->
  (c_tagPos (ctl_step i c k) <= S i)%nat /\ (c_last (ctl_step i c k) <= S i)%nat
  /\ (c_n k <= c_n (ctl_step i c k))%nat.
Proof.
  intros H1 H2. unfold ctl_step. repeat case_match; cbn; lia.
Qed.

Lemma ctl_scan_bounds s : forall i k,
  (c_tagPos k <= i)%nat -> (c_last k <= i)%nat ->
  (c_tagPos (ctl_scan i s k) <= i + length s)%nat
  /\ (c_last (ctl_scan i s k) <= i + length s)%nat
  /\ (c_n k <= c_n (ctl_scan i s k))%nat.
Proof.
  induction s as [|c s IH]; intros i k H1 H2; cbn; [lia|].
  destruct (ctl_step_bounds i c k H1 H2) as (H3 & H4 & H5).
  destruct (IH (S i) _ H3 H4) as (H6 & H7 & H8). lia.
Qed.

Lemma ctl_step_escape_inside i c k : escape_inside k -> escape_inside (ctl_step i c k).
Proof.
  unfold escape_inside, ctl_step. repeat case_match; cbn; intros; auto; congruence.
Qed.

Lemma ctl_scan_escape_inside s : forall i k, escape_inside k -> escape_inside (ctl_scan i s k).
Proof.
  induction s as [|c s IH]; intros i k Hk; cbn; [done|].
  by apply IH, ctl_step_escape_inside.
Qed.

(** The count of arguments used is the count of the closed placeholders. *)
Lemma ctl_scan_n s : forall i k,
  escape_inside k ->
  c_n (ctl_scan i s k) = (c_n k + count_placeholders (c_tag k) s)%nat.
Proof.
  induction s as [|c s IH]; intros i k Hk; cbn [ctl_scan count_placeholders]; [lia|].
  rewrite (IH (S i) _ (ctl_step_escape_inside i c k Hk)).
  unfold ctl_step, escape_inside in *.
  destruct (c_tag k) eqn:Ht.
  - destruct (is_verb (byte_val c)); cbn; [lia|].
    destruct (byte_val c =? byte_val ESCAPE); cbn; rewrite ?Ht; done.
  - rewrite (Hk eq_refl), andb_true_r.
    destruct (bool_decide (PLACEHOLDER = c)); cbn; rewrite ?Ht; done.
Qed.

Section Control.
Context {LP : LevelPrefix} {Arg : Type} {F : Formatter Arg}.
Variables (format : bytes) (args : list Arg).

(** One round steers as [ctl_step] says; it panics exactly when a verb
    closes a placeholder and no argument is left. *)
Lemma writef_body_ctl i c st b w :
  format !! i = Some c ->
  (v_tagPos st <= i)%nat -> (v_last st <= i)%nat -> (v_n st <= length args)%nat ->
  if (c_n (ctl_step i c (ctl_of st)) <=? length args)%nat
  then exists st' b' w',
      writef_body format args i (byte_val c) st b w = Ok (st', b', w')
      /\ ctl_of st' = ctl_step i c (ctl_of st)
  else writef_body format args i (byte_val c) st b w = Panic IndexOutOfRange.
Proof.
  intros Hi Htp Hl Hn. pose proof (lookup_lt_Some _ _ _ Hi) as Hlt.
  unfold writef_body, ctl_step, ctl_of. destruct st as [tag tagPos escape n last size].
  cbn in *. destruct tag.
  - destruct (is_verb (byte_val c)); cbn.
    + rewrite slice_ok, bind_Ok by lia. unfold index.
      destruct (args !! n) as [a|] eqn:Ha.
      * apply lookup_lt_Some in Ha.
        rewrite (proj2 (Nat.leb_le _ _)) by lia. rewrite bind_Ok.
        destruct (bufio_WriteString _ b w) as [[[s e] b'] w']. by eexists _, _, _.
      * apply lookup_ge_None in Ha.
        rewrite (proj2 (Nat.leb_gt _ _)) by lia. done.
    + rewrite (proj2 (Nat.leb_le _ _)) by (repeat case_match; cbn; lia).
      destruct (byte_val c =? byte_val ESCAPE); [|by eexists _, _, _].
      destruct escape; [|by eexists _, _, _].
      destruct (bufio_WriteByte ESCAPE b w) as [[e b'] w']. by eexists _, _, _.
  - rewrite (proj2 (Nat.leb_le _ _)) by (repeat case_match; cbn; lia).
    unfold index. rewrite Hi, bind_Ok.
    destruct (bool_decide (PLACEHOLDER = c) && negb escape); [|by eexists _, _, _].
    rewrite slice_ok, bind_Ok by lia.
    destruct (bufio_WriteString _ b w) as [[[s e] b'] w']. by eexists _, _, _.
Qed.

(** The loop over a part [s] of the format steers as [ctl_scan] says and
    panics exactly when [s] closes more placeholders than arguments are
    left. *)
Lemma writef_bytes_ctl s : forall pre post st b w,
  format = pre ++ s ++ post ->
  (v_tagPos st <= length pre)%nat -> (v_last st <= length pre)%nat ->
  (v_n st <= length args)%nat ->
  if (c_n (ctl_scan (length pre) s (ctl_of st)) <=? length args)%nat
  then exists st' b' w',
      writef_bytes format args (length pre) s st b w = Ok (st', b', w')
      /\ ctl_of st' = ctl_scan (length pre) s (ctl_of st)
  else writef_bytes format args (length pre) s st b w = Panic IndexOutOfRange.
Proof.
  induction s as [|c s IH]; intros pre post st b w Hf Htp Hl Hn.
  - cbn. rewrite (proj2 (Nat.leb_le _ _)) by done. by eexists _, _, _.
  - cbn [ctl_scan writef_bytes].
    assert (Hi : format !! length pre = Some c).
    { subst format. by rewrite lookup_app_r, Nat.sub_diag by lia. }
    pose proof (writef_body_ctl _ c st b w Hi Htp Hl Hn) as Hbody.
    destruct (ctl_step_bounds (length pre) c (ctl_of st) Htp Hl) as (B1 & B2 & B3).
    destruct (ctl_scan_bounds s (S (length pre)) _ B1 B2) as (_ & _ & B4).
    destruct (c_n (ctl_step (length pre) c (ctl_of st)) <=? length args)%nat eqn:Hstep.
    + destruct Hbody as (st1 & b1 & w1 & -> & Hctl). rewrite bind_Ok. cbv beta iota.
      apply Nat.leb_le in Hstep. rewrite <- Hctl in *.
      replace (S (length pre)) with (length (pre ++ [c])) in *
        by (rewrite length_app; cbn; lia).
      apply (IH (pre ++ [c]) post); [by rewrite <- app_assoc|done..].
    + rewrite Hbody, bind_Panic. apply Nat.leb_gt in Hstep.
      by rewrite (proj2 (Nat.leb_gt _ _)) by lia.
Qed.

(** What a round writes on a healthy writer is taken whole, and [size]
    grows by its length. *)
Lemma writef_body_accepts i v st b w st' b' w' :
  healthy b w = true ->
  writef_body format args i v st b w = Ok (st', b', w') ->
  exists out, accepts out b w b' w' /\ v_size st' = (v_size st + length out)%nat.
Proof.
  intros Hh. unfold writef_body.
  assert (Hnone : exists out, accepts out b w b w /\ v_size st = (v_size st + length out)%nat).
  { exists []. split; [by apply accepts_refl|cbn; lia]. }
  destruct (v_tag st).
  - destruct (is_verb v).
    + destruct (slice _ _ _) as [f|]; [|done]. rewrite bind_Ok.
      destruct (index _ _) as [a|]; [|done]. rewrite bind_Ok.
      destruct (bufio_WriteString_healthy (Sprintf f a) b w Hh) as (b1 & w1 & -> & Ha).
      intros [= <- <- <-]. by eexists.
    + destruct (v =? byte_val ESCAPE); [|by intros [= <- <- <-]].
      destruct (v_escape st); [|by intros [= <- <- <-]].
      destruct (bufio_WriteByte_healthy ESCAPE b w Hh) as (b1 & w1 & -> & Ha).
      intros [= <- <- <-]. by exists [ESCAPE].
  - destruct (index _ _) as [c|]; [|done]. rewrite bind_Ok.
    destruct (_ && _); [|by intros [= <- <- <-]].
    destruct (slice _ _ _) as [lit|]; [|done]. rewrite bind_Ok.
    destruct (bufio_WriteString_healthy lit b w Hh) as (b1 & w1 & -> & Ha).
    intros [= <- <- <-]. by eexists.
Qed.

Lemma writef_bytes_accepts s : forall i st b w st' b' w',
  healthy b w = true ->
  writef_bytes format args i s st b w = Ok (st', b', w') ->
  exists out, accepts out b w b' w' /\ v_size st' = (v_size st + length out)%nat.
Proof.
  induction s as [|c s IH]; intros i st b w st' b' w' Hh; cbn [writef_bytes].
  - intros [= <- <- <-]. exists []. split; [by apply accepts_refl|cbn; lia].
  - destruct (writef_body _ _ _ _ _ _ _) as [[[st1 b1] w1]|] eqn:Hbody; [|done].
    rewrite bind_Ok. cbv beta iota. intros Hrest.
    destruct (writef_body_accepts _ _ _ _ _ _ _ _ Hh Hbody) as (o1 & Ha1 & Hs1).
    destruct (IH _ _ _ _ _ _ _ (proj1 Ha1) Hrest) as (o2 & Ha2 & Hs2).
    exists (o1 ++ o2). split; [by eapply accepts_trans|].
    rewrite length_app. lia.
Qed.

End Control.

Lemma slice_app_l pre x lo hi :
  (hi <= length pre)%nat -> slice (pre ++ x) lo hi = slice pre lo hi.
Proof.
  intros Hhi. unfold slice. rewrite length_app.
  rewrite (proj2 (Nat.leb_le hi (length pre)) Hhi).
  rewrite (proj2 (Nat.leb_le hi (length pre + length x)%nat)) by lia.
  destruct (Nat.leb_spec lo hi) as [Hlo|]; [|done]. cbn. f_equal.
  rewrite drop_app_le by lia. apply take_app_le. rewrite length_drop. lia.
Qed.

Lemma slice_from_ok s lo : (lo <= length s)%nat -> slice_from s lo = Ok (drop lo s).
Proof.
  intros Hlo. unfold slice_from. rewrite slice_ok by lia.
  f_equal. apply take_ge. rewrite length_drop. lia.
Qed.

Section Segments.
Context {LP : LevelPrefix} {Arg : Type} {F : Formatter Arg}.
Variable (args : list Arg).

Lemma writef_bytes_app format s1 : forall s2 i st b w,
  writef_bytes format args i (s1 ++ s2) st b w
  = writef_bytes format args i s1 st b w
      ≫= λ '(st, b, w), writef_bytes format args (i + length s1) s2 st b w.
Proof.
  induction s1 as [|c s1 IH]; intros s2 i st b w; cbn [app writef_bytes length].
  - rewrite bind_Ok. by rewrite Nat.add_0_r.
  - destruct (writef_body _ _ _ _ _ _ _) as [[[st1 b1] w1]|]; [|done].
    rewrite !bind_Ok. cbv beta iota. rewrite IH.
    by replace (i + S (length s1))%nat with (S i + length s1)%nat by lia.
Qed.

(** A round at index [i] reads the format up to [i] only. *)
Lemma writef_body_prefix pre x y i v st b w :
  (i < length pre)%nat ->
  writef_body (pre ++ x) args i v st b w = writef_body (pre ++ y) args i v st b w.
Proof.
  intros Hi. unfold writef_body, index.
  rewrite !(slice_app_l pre) by lia. by rewrite !lookup_app_l by lia.
Qed.

Lemma writef_bytes_prefix s : forall pre x st b w,
  writef_bytes (pre ++ s ++ x) args (length pre) s st b w
  = writef_bytes (pre ++ s) args (length pre) s st b w.
Proof.
  induction s as [|c s IH]; intros pre x st b w; [done|]. cbn [writef_bytes].
  replace (pre ++ (c :: s) ++ x) with ((pre ++ [c]) ++ s ++ x) by by rewrite <- app_assoc.
  replace (pre ++ c :: s) with ((pre ++ [c]) ++ s) by by rewrite <- app_assoc.
  rewrite (writef_body_prefix (pre ++ [c]) (s ++ x) s) by (rewrite length_app; cbn; lia).
  destruct (writef_body _ _ _ _ _ _ _) as [[[st1 b1] w1]|]; [|done].
  rewrite !bind_Ok. cbv beta iota.
  replace (S (length pre)) with (length (pre ++ [c])) by (rewrite length_app; cbn; lia).
  apply IH.
Qed.

(** Inside a placeholder, over bytes that hold no verb, the scanner stays
    inside and writes every second backslash. *)
Lemma writef_bytes_inside format rest : forall i st b w,
  v_tag st = true -> verb_free rest = true -> healthy b w = true ->
  exists st' b' w',
    writef_bytes format args i rest st b w = Ok (st', b', w')
    /\ v_tag st' = true /\ v_last st' = v_last st /\ v_n st' = v_n st
    /\ accepts (escapes (v_escape st) rest) b w b' w'
    /\ v_size st' = (v_size st + length (escapes (v_escape st) rest))%nat.
Proof.
  induction rest as [|c rest IH]; intros i st b w Ht Hvf Hh.
  - exists st, b, w. cbn. rewrite Nat.add_0_r. do 4 (split; [done|]).
    split; [by apply accepts_refl|done].
  - cbn in Hvf. apply andb_true_iff in Hvf as [Hc Hvf]. apply negb_true_iff in Hc.
    cbn [writef_bytes escapes]. unfold writef_body. rewrite Ht, Hc.
    destruct (byte_val c =? byte_val ESCAPE); [destruct (v_escape st) eqn:He|].
    + destruct (bufio_WriteByte_healthy ESCAPE b w Hh) as (b1 & w1 & -> & Ha).
      rewrite bind_Ok. cbv beta iota.
      match goal with
      | |- context [writef_bytes _ _ _ _ ?st1 _ _] =>
        destruct (IH (S i) st1 b1 w1 eq_refl Hvf (proj1 Ha))
          as (st' & b' & w' & -> & ? & ? & ? & Ha' & Hs)
      end.
      cbn in *. eexists _, _, _. do 4 (split; [done|]). split.
      * apply (accepts_trans [ESCAPE] _ _ _ _ _ _ _ Ha Ha').
      * rewrite Hs. lia.
    + rewrite bind_Ok. cbv beta iota.
      match goal with
      | |- context [writef_bytes _ _ _ _ ?st1 _ _] =>
        destruct (IH (S i) st1 b w eq_refl Hvf Hh)
          as (st' & b' & w' & -> & ? & ? & ? & Ha' & Hs)
      end.
      cbn in *. eexists _, _, _. by do 4 (split; [done|]).
    + rewrite bind_Ok. cbv beta iota.
      destruct (IH (S i) st b w Ht Hvf Hh) as (st' & b' & w' & -> & ? & ? & ? & Ha' & Hs).
      eexists _, _, _. by do 4 (split; [done|]).
Qed.

End Segments.

(* ===================================================================== *)
(** ** BLog.write and BLog.writef *)
(* ===================================================================== *)

Section Rendering.
Context {LP : LevelPrefix} {Arg : Type} {F : Formatter Arg}.
Variables (tc : TimeCache) (lv : Level).

(** The time stamp and the level prefix that open every record. *)
Lemma header_healthy b w :
  healthy b w = true ->
  exists b1 w1,
    (forall T (K : bufio_Writer -> World -> T),
        (let '(_, _, b, w) := bufio_Write (tc_format tc) b w in
         let '(_, _, b, w) := bufio_WriteString (prefix lv) b w in K b w) = K b1 w1)
    /\ accepts (tc_format tc ++ prefix lv) b w b1 w1.
Proof.
  intros Hh.
  destruct (bufio_Write_healthy (tc_format tc) b w Hh) as (bx & wx & Hx & Hax).
  destruct (bufio_WriteString_healthy (prefix lv) bx wx (proj1 Hax)) as (b1 & w1 & H1 & Ha1).
  exists b1, w1. split; [|by eapply accepts_trans].
  intros T K. by rewrite Hx, H1.
Qed.

(** The rest of the format and the line end that close every record. *)
Lemma trailer_healthy tail b w :
  healthy b w = true ->
  exists b1 w1,
    (forall T (K : bufio_Writer -> World -> T),
        (let '(_, _, b, w) := bufio_WriteString tail b w in
         let '(_, b, w) := bufio_WriteByte EOL b w in K b w) = K b1 w1)
    /\ accepts (tail ++ [EOL]) b w b1 w1.
Proof.
  intros Hh.
  destruct (bufio_WriteString_healthy tail b w Hh) as (bx & wx & Hx & Hax).
  destruct (bufio_WriteByte_healthy EOL bx wx (proj1 Hax)) as (b1 & w1 & H1 & Ha1).
  exists b1, w1. split; [|by eapply accepts_trans].
  intros T K. by rewrite Hx, H1.
Qed.

(** [write] on a healthy writer: the record is the time stamp, the
    prefix, the message as it is and the line end. *)
Lemma BLog_write_healthy message blog b w :
  writer blog = Some b -> healthy b w = true ->
  exists b' w',
    BLog_write tc lv message blog w
    = Ok (length (tc_format tc ++ prefix lv ++ message ++ [EOL]),
          mk_BLog (level blog) (in_ blog) (Some b'), w')
    /\ accepts (tc_format tc ++ prefix lv ++ message ++ [EOL]) b w b' w'.
Proof.
  intros Hb Hh. unfold BLog_write. rewrite Hb.
  destruct (header_healthy b w Hh) as (b1 & w1 & -> & Ha1).
  destruct (trailer_healthy message b1 w1 (proj1 Ha1)) as (b2 & w2 & -> & Ha2).
  exists b2, w2. split.
  - do 3 f_equal. rewrite !length_app. cbn. lia.
  - pose proof (accepts_trans _ _ _ _ _ _ _ _ Ha1 Ha2) as Ha.
    by rewrite <- !app_assoc in Ha.
Qed.

(** [writef] panics exactly when the format closes more placeholders
    than there are arguments, whatever the state of the bufio writer. *)
Lemma BLog_writef_outcome format (args : list Arg) blog b w :
  writer blog = Some b ->
  if (placeholders format <=? length args)%nat
  then is_Ok (BLog_writef tc lv format args blog w) = true
  else BLog_writef tc lv format args blog w = Panic IndexOutOfRange.
Proof.
  intros Hb. unfold BLog_writef. rewrite Hb.
  destruct (bufio_Write _ b w) as [[[? ?] bx] wx].
  destruct (bufio_WriteString _ bx wx) as [[[? ?] b1] w1].
  rewrite writef_loop_bytes. fold (scan_init tc lv).
  pose proof (writef_bytes_ctl format args format [] [] (scan_init tc lv) b1 w1) as Hloop.
  rewrite app_nil_r in Hloop. cbn [length app] in Hloop.
  specialize (Hloop eq_refl (Nat.le_0_l _) (Nat.le_0_l _) (Nat.le_0_l _)).
  assert (Hn : c_n (ctl_scan 0 format (ctl_of (scan_init tc lv))) = placeholders format).
  { by rewrite ctl_scan_n. }
  rewrite Hn in Hloop. destruct (placeholders format <=? length args)%nat.
  - destruct Hloop as (st' & b2 & w2 & -> & Hctl). rewrite bind_Ok. cbv beta iota.
    destruct (ctl_scan_bounds format 0 (ctl_of (scan_init tc lv))) as (_ & Hlast & _);
      [cbn; lia..|].
    rewrite <- Hctl in Hlast. cbn in Hlast.
    rewrite slice_from_ok, bind_Ok by done.
    destruct (bufio_WriteString _ b2 w2) as [[[? ?] b3] w3].
    by destruct (bufio_WriteByte _ b3 w3) as [[? b4] w4].
  - by rewrite Hloop.
Qed.

(** [writef] on a healthy writer, with an argument for every placeholder
    that a verb closes: the record is the time stamp, the prefix, a
    body and the line end, and the size returned is its length. *)
Lemma BLog_writef_healthy format (args : list Arg) blog b w :
  writer blog = Some b -> healthy b w = true ->
  (placeholders format <= length args)%nat ->
  exists body b' w',
    BLog_writef tc lv format args blog w
    = Ok (length (tc_format tc ++ prefix lv ++ body ++ [EOL]),
          mk_BLog (level blog) (in_ blog) (Some b'), w')
    /\ accepts (tc_format tc ++ prefix lv ++ body ++ [EOL]) b w b' w'.
Proof.
  intros Hb Hh Hargs. unfold BLog_writef. rewrite Hb.
  destruct (header_healthy b w Hh) as (b1 & w1 & -> & Ha1).
  rewrite writef_loop_bytes. fold (scan_init tc lv).
  pose proof (writef_bytes_ctl format args format [] [] (scan_init tc lv) b1 w1) as Hloop.
  rewrite app_nil_r in Hloop. cbn [length app] in Hloop.
  specialize (Hloop eq_refl (Nat.le_0_l _) (Nat.le_0_l _) (Nat.le_0_l _)).
  rewrite ctl_scan_n in Hloop by done. cbn [ctl_of scan_init v_n v_tag c_n c_tag] in Hloop.
  fold (placeholders format) in Hloop.
  rewrite (proj2 (Nat.leb_le _ _)) in Hloop by (cbn; lia).
  destruct Hloop as (st' & b2 & w2 & Hrun & Hctl). rewrite Hrun, bind_Ok. cbv beta iota.
  destruct (writef_bytes_accepts _ _ _ _ _ _ _ _ _ _ (proj1 Ha1) Hrun) as (out & Ha2 & Hsize).
  destruct (ctl_scan_bounds format 0 (ctl_of (scan_init tc lv))) as (_ & Hlast & _); [cbn; lia..|].
  rewrite <- Hctl in Hlast. cbn in Hlast.
  rewrite slice_from_ok, bind_Ok by done.
  destruct (trailer_healthy (drop (v_last st') format) b2 w2 (proj1 Ha2))
    as (b3 & w3 & -> & Ha3).
  exists (out ++ drop (v_last st') format), b3, w3. split.
  - do 3 f_equal. rewrite Hsize, !length_app. cbn. lia.
  - pose proof (accepts_trans _ _ _ _ _ _ _ _ (accepts_trans _ _ _ _ _ _ _ _ Ha1 Ha2) Ha3) as Ha.
    rewrite <- !app_assoc in Ha. rewrite <- !app_assoc. exact Ha.
Qed.

End Rendering.

Section Dangling.
Context {LP : LevelPrefix} {Arg : Type} {F : Formatter Arg}.
Variables (tc : TimeCache) (lv : Level).

(** The two records compared by the property of the unterminated
    placeholder: [writef] on [pre], which ends outside a placeholder,
    and [writef] on [pre] followed by a [%] and by bytes without a
    verb. *)
Lemma BLog_writef_dangling pre rest (args : list Arg) blog b w :
  writer blog = Some b -> healthy b w = true ->
  c_tag (ctl_scan 0 pre ctl_init) = false ->
  verb_free rest = true ->
  (placeholders pre <= length args)%nat ->
  let span := drop (c_last (ctl_scan 0 pre ctl_init)) pre in
  exists out0 b0 w0 b' w',
    BLog_writef tc lv pre args blog w
    = Ok (length (tc_format tc ++ prefix lv ++ out0 ++ span ++ [EOL]),
          mk_BLog (level blog) (in_ blog) (Some b0), w0)
    /\ accepts (tc_format tc ++ prefix lv ++ out0 ++ span ++ [EOL]) b w b0 w0
    /\ BLog_writef tc lv (pre ++ PLACEHOLDER :: rest) args blog w
       = Ok (length (tc_format tc ++ prefix lv ++ out0 ++ span ++ escapes false rest
                       ++ span ++ PLACEHOLDER :: rest ++ [EOL]),
             mk_BLog (level blog) (in_ blog) (Some b'), w')
    /\ accepts (tc_format tc ++ prefix lv ++ out0 ++ span ++ escapes false rest
                  ++ span ++ PLACEHOLDER :: rest ++ [EOL]) b w b' w'.
Proof.
  intros Hb Hh Htag Hvf Hargs span.
  set (fmt := pre ++ PLACEHOLDER :: rest).
  set (k := ctl_scan 0 pre ctl_init) in *.
  destruct (header_healthy tc lv b w Hh) as (b1 & w1 & Hhdr & Ha1).
  (* the scan of [pre], the same in both formats *)
  pose proof (writef_bytes_ctl fmt args pre [] (PLACEHOLDER :: rest) (scan_init tc lv) b1 w1)
    as Hloop.
  cbn [length app] in Hloop.
  specialize (Hloop eq_refl (Nat.le_0_l _) (Nat.le_0_l _) (Nat.le_0_l _)).
  change (ctl_of (scan_init tc lv)) with ctl_init in Hloop. fold k in Hloop.
  assert (Hn : c_n k = placeholders pre) by (unfold k; by rewrite ctl_scan_n).
  rewrite (proj2 (Nat.leb_le _ _)) in Hloop by lia.
  destruct Hloop as (st1 & b2 & w2 & Hrun & Hctl).
  destruct (writef_bytes_accepts _ _ _ _ _ _ _ _ _ _ (proj1 Ha1) Hrun) as (out0 & Ha2 & Hsize).
  destruct (ctl_scan_bounds pre 0 ctl_init) as (_ & Hlast & _); [cbn; lia..|].
  fold k in Hlast. cbn in Hlast.
  assert (Hesc : c_escape k = false) by (by apply (ctl_scan_escape_inside pre 0 ctl_init)).
  assert (Hst1 : v_tag st1 = false /\ v_escape st1 = false /\ v_last st1 = c_last k
                 /\ v_n st1 = c_n k).
  { rewrite <- Hctl in Htag, Hesc |- *. by cbn in *. }
  destruct Hst1 as (Ht1 & He1 & Hl1 & Hn1).
  (* the record of [pre] *)
  assert (Hrun0 : writef_bytes pre args 0 pre (scan_init tc lv) b1 w1 = Ok (st1, b2, w2)).
  { rewrite <- Hrun. symmetry.
    pose proof (writef_bytes_prefix args pre [] (PLACEHOLDER :: rest)
                  (scan_init tc lv) b1 w1) as Hp.
    cbn [app length] in Hp. exact Hp. }
  destruct (trailer_healthy span b2 w2 (proj1 Ha2)) as (b0 & w0 & Htr0 & Ha0).
  (* the round at the [%] *)
  destruct (bufio_WriteString_healthy span b2 w2 (proj1 Ha2)) as (b3 & w3 & Hw3 & Ha3).
  assert (Hopen : writef_body fmt args (length pre) (byte_val PLACEHOLDER) st1 b2 w2
                  = Ok (mk_scan true (length pre) false (v_n st1) (v_last st1)
                          (v_size st1 + length span), b3, w3)).
  { unfold writef_body, index, fmt. rewrite Ht1, He1.
    rewrite lookup_app_r, Nat.sub_diag by lia. cbn [lookup list_lookup].
    rewrite bind_Ok, bool_decide_true by done. cbn [andb negb].
    rewrite slice_app_l, slice_ok by lia. rewrite bind_Ok.
    rewrite take_ge by (rewrite length_drop; lia).
    rewrite Hl1. fold span. by rewrite Hw3. }
  (* the bytes after the [%] *)
  destruct (writef_bytes_inside args fmt rest (S (length pre))
              (mk_scan true (length pre) false (v_n st1) (v_last st1)
                 (v_size st1 + length span)) b3 w3 eq_refl Hvf (proj1 Ha3))
    as (st3 & b4 & w4 & Hrun3 & Ht3 & Hl3 & Hn3 & Ha4 & Hsize3).
  cbn [v_escape v_last v_size] in Ha4, Hl3, Hsize3.
  destruct (trailer_healthy (span ++ PLACEHOLDER :: rest) b4 w4 (proj1 Ha4))
    as (b5 & w5 & Htr5 & Ha5).
  exists out0, b0, w0, b5, w5.
  assert (Hs1 : v_size st1 = (length (tc_format tc) + length (prefix lv) + length out0)%nat).
  { by rewrite Hsize. }
  split; [|split; [|split]].
  - unfold BLog_writef. rewrite Hb, Hhdr, writef_loop_bytes. fold (scan_init tc lv).
    rewrite Hrun0, bind_Ok. cbv beta iota.
    rewrite slice_from_ok, bind_Ok by lia. rewrite Hl1. fold span. rewrite Htr0.
    do 3 f_equal. rewrite Hs1, !length_app. cbn. lia.
  - pose proof (accepts_trans _ _ _ _ _ _ _ _ (accepts_trans _ _ _ _ _ _ _ _ Ha1 Ha2) Ha0) as Ha.
    rewrite <- !app_assoc in Ha. exact Ha.
  - unfold BLog_writef. rewrite Hb, Hhdr, writef_loop_bytes. fold (scan_init tc lv).
    fold fmt. unfold fmt at 3. rewrite writef_bytes_app, Hrun, bind_Ok. cbv beta iota.
    cbn [writef_bytes Nat.add]. rewrite Hopen, bind_Ok. cbv beta iota.
    rewrite Hrun3, bind_Ok. cbv beta iota.
    rewrite slice_from_ok, bind_Ok by (unfold fmt; rewrite length_app; lia).
    rewrite Hl3, Hl1.
    replace (drop (c_last k) fmt) with (span ++ PLACEHOLDER :: rest)
      by (unfold fmt; by rewrite drop_app_le by lia).
    rewrite Htr5. do 3 f_equal.
    rewrite Hsize3, Hs1, !length_app. cbn [length]. rewrite !length_app. cbn. lia.
  - pose proof (accepts_trans _ _ _ _ _ _ _ _
                  (accepts_trans _ _ _ _ _ _ _ _
                     (accepts_trans _ _ _ _ _ _ _ _
                        (accepts_trans _ _ _ _ _ _ _ _ Ha1 Ha2) Ha3) Ha4) Ha5) as Ha.
    rewrite <- !app_assoc in Ha. exact Ha.
Qed.

End Dangling.

(* ===================================================================== *)
(** ** The daemon and the rotations *)
(* ===================================================================== *)

Lemma wrap64_id z : - 2 ^ 63 <= z < 2 ^ 63 -> wrap64 z = z.
Proof. intros Hz. unfold wrap64. rewrite Z.mod_small; lia. Qed.

Lemma same_policy_refl fw : same_policy fw fw.
Proof. unfold same_policy. tauto. Qed.

Lemma same_policy_trans fw1 fw2 fw3 :
  same_policy fw1 fw2 -> same_policy fw2 fw3 -> same_policy fw1 fw3.
Proof. unfold same_policy. intuition congruence. Qed.

Lemma wired_inv fw w :
  wired fw w = true ->
  closed fw = false /\ valid_handle (file fw) w = true
  /\ exists bl b, blog fw = Some bl /\ writer bl = Some b
                  /\ in_ bl = file fw /\ b_wr b = file fw.
Proof.
  unfold wired. destruct (closed fw); [done|]. cbn.
  destruct (blog fw) as [bl|]; [|done].
  destruct (writer bl) as [b|] eqn:Hb; [|by rewrite andb_false_r].
  rewrite !andb_true_iff, !bool_decide_eq_true. intros [[? ?] ?]. do 2 (split; [done|]).
  exists bl, b. by repeat split.
Qed.

Lemma wired_intro fw w bl b :
  closed fw = false -> valid_handle (file fw) w = true ->
  blog fw = Some bl -> writer bl = Some b -> in_ bl = file fw -> b_wr b = file fw ->
  wired fw w = true.
Proof.
  intros Hc Hv Hbl Hb Hin Hwr. unfold wired. rewrite Hc, Hbl, Hb, Hv. cbn.
  by rewrite !bool_decide_true.
Qed.

Lemma bufio_frame_refl b w : bufio_frame b w b w.
Proof. by repeat split. Qed.

Lemma bufio_frame_trans b w b1 w1 b2 w2 :
  bufio_frame b w b1 w1 -> bufio_frame b1 w1 b2 w2 -> bufio_frame b w b2 w2.
Proof.
  intros (H1 & F1 & D1 & H2) (H3 & F3 & D3 & H4).
  split; [congruence|]. split; [congruence|]. split; [congruence|].
  intros Hw. specialize (H2 Hw). subst w1. rewrite H1 in H4. by apply H4.
Qed.

Lemma File_Write_frame h p w :
  fds (File_Write h p w).2 = fds w /\ denied (File_Write h p w).2 = denied w
  /\ (writable h w = false -> (File_Write h p w).2 = w).
Proof.
  unfold writable, File_Write. destruct h as [fd|]; [|done].
  destruct (fds w !! fd) as [f|]; [|done]. by destruct (f_closed f).
Qed.

Lemma bufio_Flush_frame b w :
  bufio_frame b w (bufio_Flush b w).1.2 (bufio_Flush b w).2.
Proof.
  unfold bufio_Flush. destruct (b_err b); [apply bufio_frame_refl|].
  destruct (length (b_buf b) =? 0)%nat; [apply bufio_frame_refl|].
  pose proof (File_Write_frame (b_wr b) (b_buf b) w) as (Hf & Hd & Hw).
  destruct (File_Write (b_wr b) (b_buf b) w) as [[n e] w1]. cbn [snd] in Hf, Hd, Hw.
  unfold bufio_frame. repeat case_match; simplify_eq; cbn; auto.
Qed.

Lemma bufio_fill_frame p b w : bufio_frame b w (bufio_fill p b).2 w.
Proof. by repeat split. Qed.

Lemma bufio_WriteString_loop_frame fuel : forall s nn b w,
  bufio_frame b w (bufio_WriteString_loop fuel s nn b w).1.2
    (bufio_WriteString_loop fuel s nn b w).2.
Proof.
  induction fuel as [|fuel IH]; intros s nn b w; cbn [bufio_WriteString_loop];
    [apply bufio_frame_refl|].
  destruct (_ && _); [|apply bufio_frame_refl].
  destruct (bufio_fill s b) as [n b1] eqn:Hfill.
  pose proof (bufio_Flush_frame b1 w) as Hfl.
  destruct (bufio_Flush b1 w) as [[e b2] w1]. cbn [fst snd] in Hfl.
  eapply bufio_frame_trans; [|apply IH].
  eapply bufio_frame_trans; [|exact Hfl].
  replace b1 with (bufio_fill s b).2 by by rewrite Hfill. apply bufio_fill_frame.
Qed.

Lemma bufio_WriteString_frame s b w :
  bufio_frame b w (bufio_WriteString s b w).1.2 (bufio_WriteString s b w).2.
Proof.
  unfold bufio_WriteString.
  pose proof (bufio_WriteString_loop_frame (length s + 2) s 0 b w) as Hl.
  destruct (bufio_WriteString_loop _ s 0 b w) as [[[s' nn] b1] w1]. cbn [fst snd] in Hl.
  destruct (b_err b1); [exact Hl|].
  destruct (bufio_fill s' b1) as [n b2] eqn:Hfill. cbn [fst snd].
  eapply bufio_frame_trans; [exact Hl|].
  replace b2 with (bufio_fill s' b1).2 by by rewrite Hfill. apply bufio_fill_frame.
Qed.

Lemma bufio_Write_loop_frame fuel : forall s nn b w,
  bufio_frame b w (bufio_Write_loop fuel s nn b w).1.2 (bufio_Write_loop fuel s nn b w).2.
Proof.
  induction fuel as [|fuel IH]; intros s nn b w; cbn [bufio_Write_loop];
    [apply bufio_frame_refl|].
  destruct (_ && _); [|apply bufio_frame_refl].
  destruct (length (b_buf b) =? 0)%nat.
  - pose proof (File_Write_frame (b_wr b) s w) as (Hf & Hd & Hw).
    destruct (File_Write (b_wr b) s w) as [[n e] w1]. cbn [snd] in Hf, Hd, Hw.
    eapply bufio_frame_trans; [|apply IH]. by repeat split.
  - destruct (bufio_fill s b) as [n b1] eqn:Hfill.
    pose proof (bufio_Flush_frame b1 w) as Hfl.
    destruct (bufio_Flush b1 w) as [[e b2] w1]. cbn [fst snd] in Hfl.
    eapply bufio_frame_trans; [|apply IH].
    eapply bufio_frame_trans; [|exact Hfl].
    replace b1 with (bufio_fill s b).2 by by rewrite Hfill. apply bufio_fill_frame.
Qed.

Lemma bufio_Write_frame s b w :
  bufio_frame b w (bufio_Write s b w).1.2 (bufio_Write s b w).2.
Proof.
  unfold bufio_Write.
  pose proof (bufio_Write_loop_frame (length s + 2) s 0 b w) as Hl.
  destruct (bufio_Write_loop _ s 0 b w) as [[[s' nn] b1] w1]. cbn [fst snd] in Hl.
  destruct (b_err b1); [exact Hl|].
  destruct (bufio_fill s' b1) as [n b2] eqn:Hfill. cbn [fst snd].
  eapply bufio_frame_trans; [exact Hl|].
  replace b2 with (bufio_fill s' b1).2 by by rewrite Hfill. apply bufio_fill_frame.
Qed.

Lemma bufio_WriteByte_frame c b w :
  bufio_frame b w (bufio_WriteByte c b w).1.2 (bufio_WriteByte c b w).2.
Proof.
  unfold bufio_WriteByte. destruct (b_err b); [apply bufio_frame_refl|].
  destruct (bufio_Available b <=? 0)%nat; [|by repeat split].
  pose proof (bufio_Flush_frame b w) as Hfl.
  destruct (bufio_Flush b w) as [[e b1] w1]. cbn [fst snd] in Hfl.
  destruct e; [exact Hfl|]. cbn [fst snd].
  eapply bufio_frame_trans; [exact Hfl|]. by repeat split.
Qed.

Lemma File_Close_frame h w :
  disk (File_Close h w).2 = disk w /\ denied (File_Close h w).2 = denied w
  /\ length (fds (File_Close h w).2) = length (fds w).
Proof.
  unfold File_Close. destruct h as [fd|]; [|done].
  destruct (fds w !! fd) as [f|]; [|done]. destruct (f_closed f); [done|].
  cbn. by rewrite length_insert.
Qed.

Lemma File_Close_not_writable h w : writable h (File_Close h w).2 = false.
Proof.
  unfold File_Close, writable. destruct h as [fd|]; [|done].
  destruct (fds w !! fd) as [f|] eqn:Hfd; cbn; [|by rewrite Hfd].
  destruct (f_closed f) eqn:Hc; cbn; [by rewrite Hfd, Hc|].
  by rewrite list_lookup_insert_eq by by eapply lookup_lt_Some.
Qed.

Lemma File_Close_lookup_ne fd fd' w :
  fd <> fd' -> fds (File_Close (Some fd) w).2 !! fd' = fds w !! fd'.
Proof.
  intros Hne. unfold File_Close. destruct (fds w !! fd) as [f|]; [|done].
  destruct (f_closed f); [done|]. cbn. by rewrite list_lookup_insert_ne.
Qed.

Lemma valid_handle_grow h w w' :
  (length (fds w) <= length (fds w'))%nat -> valid_handle h w = true -> valid_handle h w' = true.
Proof.
  unfold valid_handle. destruct h as [fd|]; [|done].
  rewrite !Nat.ltb_lt. lia.
Qed.

Lemma os_OpenFile_denied name w :
  name ∈ denied w -> os_OpenFile name w = (None, Some ErrOpen, w).
Proof. intros Hd. unfold os_OpenFile. by rewrite bool_decide_true. Qed.

Lemma os_OpenFile_ok name w :
  name ∉ denied w ->
  exists w1, os_OpenFile name w = (Some (length (fds w)), None, w1)
    /\ fds w1 = fds w ++ [mk_File name false] /\ denied w1 = denied w
    /\ (forall other, other <> name -> disk w1 !! other = disk w !! other)
    /\ contents w1 name = contents w name.
Proof.
  intros Hd. unfold os_OpenFile. rewrite bool_decide_false by done.
  eexists. split; [reflexivity|]. cbn. do 2 (split; [done|]). split.
  - intros other Hne. destruct (disk w !! name); [done|]. by rewrite lookup_insert_ne.
  - unfold contents. cbn. destruct (disk w !! name) eqn:Hn; [by rewrite Hn|].
    by rewrite lookup_insert_eq.
Qed.

Lemma os_OpenFile_grow name w :
  (length (fds w) <= length (fds (os_OpenFile name w).2))%nat
  /\ valid_handle (os_OpenFile name w).1.1 (os_OpenFile name w).2 = true.
Proof.
  unfold os_OpenFile. destruct (bool_decide _); cbn; [done|].
  rewrite length_app. cbn. split; [lia|]. apply Nat.ltb_lt. lia.
Qed.

(** The world after a rotation whose file opens: the writer gets the new
    descriptor, which is open on [name]. *)
Lemma rotation_world_opened name h w :
  name ∉ denied w -> valid_handle h w = true ->
  (os_OpenFile name w).1.1 = Some (length (fds w))
  /\ fds (File_Close h (os_OpenFile name w).2).2 !! length (fds w)
     = Some (mk_File name false)
  /\ writable (Some (length (fds w))) (File_Close h (os_OpenFile name w).2).2 = true.
Proof.
  intros Hd Hv. destruct (os_OpenFile_ok name w Hd) as (w1 & -> & Hf & _). cbn [fst snd].
  split; [done|].
  assert (Hnew : fds (File_Close h w1).2 !! length (fds w) = Some (mk_File name false)).
  { destruct h as [fd|]; [|cbn; by rewrite Hf, lookup_app_r, Nat.sub_diag by lia].
    cbn in Hv. apply Nat.ltb_lt in Hv.
    rewrite File_Close_lookup_ne by lia.
    by rewrite Hf, lookup_app_r, Nat.sub_diag by lia. }
  split; [done|]. unfold writable. by rewrite Hnew.
Qed.

(** The world after a rotation whose file does not open: the old file is
    closed all the same and the disk is as it was. *)
Lemma rotation_world_denied name h w :
  name ∈ denied w ->
  (os_OpenFile name w).1.1 = None
  /\ disk (File_Close h (os_OpenFile name w).2).2 = disk w
  /\ writable h (File_Close h (os_OpenFile name w).2).2 = false.
Proof.
  intros Hd. rewrite (os_OpenFile_denied name w Hd). cbn [fst snd].
  split; [done|]. split; [apply File_Close_frame|apply File_Close_not_writable].
Qed.

Lemma needRotate_on fw : needRotate fw = true -> sizeRotated fw || lineRotated fw = true.
Proof. unfold needRotate. destruct (sizeRotated fw), (lineRotated fw); cbn; auto. Qed.

(** On an open writer the deferred send puts the size in the channel
    and the call returns. *)
Lemma deferred_send_open size fw w :
  closed fw = false -> deferred_send size fw w = Ok (send_size size fw, w).
Proof. intros Hc. unfold deferred_send. by rewrite Hc, andb_false_r. Qed.

Section Daemon.
Context {LP : LevelPrefix}.
Variable tc : TimeCache.

(** The swap of the file on a wired writer: the old file is closed
    first, so the flush that follows reaches no file and what was
    buffered is dropped; then the BLog and the writer point to [f]. *)
Lemma swap_file_spec f fw w :
  wired fw w = true ->
  exists bl' b',
    swap_file f fw w = Ok (with_file f bl' fw, (File_Close (file fw) w).2)
    /\ in_ bl' = f /\ writer bl' = Some b'
    /\ b_wr b' = f /\ b_buf b' = [] /\ b_err b' = None.
Proof.
  intros Hw. destruct (wired_inv _ _ Hw) as (Hc & Hv & bl & b & Hbl & Hb & Hin & Hwr).
  unfold swap_file, BLog_resetFile.
  pose proof (File_Close_not_writable (file fw) w) as Hnw.
  destruct (File_Close (file fw) w) as [e w1]. cbn [snd] in *. rewrite Hbl. cbn. rewrite Hb.
  pose proof (bufio_Flush_frame b w1) as (_ & _ & _ & Hfl).
  rewrite Hwr in Hfl. specialize (Hfl Hnw).
  destruct (bufio_Flush b w1) as [[e' b1] w2]. cbn [fst snd] in *. subst w2.
  eexists _, _. split; [reflexivity|]. by cbn.
Qed.

(** A rotation to the file [name] on a wired writer. *)
Lemma rotate_spec name fw w :
  wired fw w = true ->
  exists bl' b',
    (let '(f, _, w1) := os_OpenFile name w in swap_file f fw w1)
    = Ok (with_file (os_OpenFile name w).1.1 bl' fw,
          (File_Close (file fw) (os_OpenFile name w).2).2)
    /\ in_ bl' = (os_OpenFile name w).1.1 /\ writer bl' = Some b'
    /\ b_wr b' = (os_OpenFile name w).1.1 /\ b_buf b' = [] /\ b_err b' = None
    /\ wired (with_file (os_OpenFile name w).1.1 bl' fw)
         (File_Close (file fw) (os_OpenFile name w).2).2 = true.
Proof.
  intros Hw. destruct (wired_inv _ _ Hw) as (Hc & Hv & bl & b & Hbl & Hb & Hin & Hwr).
  destruct (os_OpenFile_grow name w) as [Hgrow Hvalid].
  destruct (os_OpenFile name w) as [[f e] w1]. cbn [fst snd] in *.
  assert (Hw1 : wired fw w1 = true).
  { eapply wired_intro; eauto using valid_handle_grow. }
  destruct (swap_file_spec f fw w1 Hw1) as (bl' & b' & -> & Hin' & Hb' & Hwr' & Hbuf & Herr).
  exists bl', b'. do 6 (split; [done|]).
  eapply wired_intro; cbn; eauto.
  eapply valid_handle_grow; [|exact Hvalid].
  by destruct (File_Close_frame (file fw) w1) as (_ & _ & ->).
Qed.

(** [BLog.write] returns whenever the BLog has its bufio writer, and
    the size it returns is the length of the record. *)
Lemma BLog_write_ok lv message bl b w :
  writer bl = Some b ->
  exists b' w',
    BLog_write tc lv message bl w
    = Ok ((length (tc_format tc) + length (prefix lv) + length message + 1)%nat,
          mk_BLog (level bl) (in_ bl) (Some b'), w')
    /\ bufio_frame b w b' w'.
Proof.
  intros Hb. unfold BLog_write. rewrite Hb.
  pose proof (bufio_Write_frame (tc_format tc) b w) as H1.
  destruct (bufio_Write _ b w) as [[[n1 e1] b1] w1]. cbn [fst snd] in H1.
  pose proof (bufio_WriteString_frame (prefix lv) b1 w1) as H2.
  destruct (bufio_WriteString _ b1 w1) as [[[n2 e2] b2] w2]. cbn [fst snd] in H2.
  pose proof (bufio_WriteString_frame message b2 w2) as H3.
  destruct (bufio_WriteString _ b2 w2) as [[[n3 e3] b3] w3]. cbn [fst snd] in H3.
  pose proof (bufio_WriteByte_frame EOL b3 w3) as H4.
  destruct (bufio_WriteByte _ b3 w3) as [[e4 b4] w4]. cbn [fst snd] in H4.
  exists b4, w4. split; [done|].
  eauto using bufio_frame_trans.
Qed.

(** A size or line rotation, or none, on a wired writer. *)
Lemma daemon_logSize_spec size fw w :
  wired fw w = true ->
  exists fw' w',
    daemon_logSize tc size fw w = Ok (fw', w')
    /\ wired fw' w' = true /\ same_policy fw fw'
    /\ logSizeChan fw' = logSizeChan fw
    /\ if needRotate (add_size size fw) then
         let name := sizeRotateName tc (next_sequence (add_size size fw)) in
         currentSize fw' = 0 /\ currentLines fw' = 0
         /\ sizeRotateTimes fw' = wrap64 (sizeRotateTimes fw + 1)
         /\ file fw' = (os_OpenFile name w).1.1
         /\ w' = (File_Close (file fw) (os_OpenFile name w).2).2
         /\ exists b', bufio_of fw' = Some b' /\ b_buf b' = [] /\ b_wr b' = file fw'
       else fw' = add_size size fw /\ w' = w.
Proof.
  intros Hw. unfold daemon_logSize.
  destruct (needRotate (add_size size fw)).
  - set (fn := next_sequence (add_size size fw)).
    assert (Hwn : wired fn w = true) by exact Hw.
    destruct (rotate_spec (sizeRotateName tc fn) fn w Hwn)
      as (bl' & b' & -> & Hin & Hb & Hwr & Hbuf & Herr & Hw').
    eexists _, _. split; [reflexivity|]. split; [exact Hw'|].
    split; [by repeat split|]. split; [done|]. cbn.
    do 5 (split; [done|]). exists b'. unfold bufio_of. cbn. by rewrite Hb.
  - exists (add_size size fw), w. split; [done|]. split; [exact Hw|].
    split; [by repeat split|]. done.
Qed.

(** A time rotation, or none, on a wired writer. *)
Lemma daemon_time_spec now fw w :
  wired fw w = true ->
  exists fw' w',
    daemon_time tc now fw w = Ok (fw', w')
    /\ wired fw' w' = true /\ same_policy fw fw'
    /\ logSizeChan fw' = logSizeChan fw
    /\ currentSize fw' = currentSize fw /\ currentLines fw' = currentLines fw
    /\ if timeRotated fw && negb (bool_decide (now = tc_date tc)) then
         let name := timeRotateName tc fw in
         sizeRotateTimes fw' = 0
         /\ file fw' = (os_OpenFile name w).1.1
         /\ w' = (File_Close (file fw) (os_OpenFile name w).2).2
         /\ exists b', bufio_of fw' = Some b' /\ b_buf b' = [] /\ b_wr b' = file fw'
       else fw' = fw /\ w' = w.
Proof.
  intros Hw. unfold daemon_time.
  destruct (timeRotated fw && negb (bool_decide (now = tc_date tc))).
  - set (fn := reset_sequence fw).
    assert (Hwn : wired fn w = true) by exact Hw.
    destruct (rotate_spec (timeRotateName tc fn) fn w Hwn)
      as (bl' & b' & -> & Hin & Hb & Hwr & Hbuf & Herr & Hw').
    eexists _, _. split; [reflexivity|]. split; [exact Hw'|].
    split; [by repeat split|]. do 3 (split; [done|]). cbn.
    do 3 (split; [done|]). exists b'. unfold bufio_of. cbn. by rewrite Hb.
  - exists fw, w. split; [done|]. split; [exact Hw|].
    split; [apply same_policy_refl|]. done.
Qed.

(** [write] on a wired writer: the record goes to the bufio writer and
    its size to the channel, when a size or line rotation is on. *)
Lemma write_wired lv message fw w :
  wired fw w = true ->
  exists bl' w',
    write tc lv message fw w
    = Ok (send_size (record_size tc lv message) (with_blog bl' fw), w')
    /\ wired (with_blog bl' fw) w' = true
    /\ (writable (file fw) w = false -> w' = w).
Proof.
  intros Hw. destruct (wired_inv _ _ Hw) as (Hc & Hv & bl & b & Hbl & Hb & Hin & Hwr).
  unfold write. rewrite Hc, Hbl.
  destruct (BLog_write_ok lv message bl b w Hb) as (b' & w' & -> & Hwr' & Hf & Hd & Hfr).
  rewrite bind_Ok. cbv beta iota. rewrite deferred_send_open by done.
  eexists _, w'. split; [reflexivity|]. split.
  - eapply wired_intro; cbn; eauto; [|congruence].
    eapply valid_handle_grow; [|exact Hv]. by rewrite Hf.
  - rewrite <- Hwr. exact Hfr.
Qed.

Lemma send_size_eq size fw :
  send_size size fw
  = mk_baseFileWriter (fileName fw) (file fw) (blog fw) (closed fw)
      (timeRotated fw) (lineRotated fw) (rotateLines fw) (currentLines fw)
      (sizeRotated fw) (rotateSize fw) (currentSize fw) (sizeRotateTimes fw)
      (if sizeRotated fw || lineRotated fw then logSizeChan fw ++ [size] else logSizeChan fw)
      (colored fw).
Proof. unfold send_size. destruct (_ || _); [done|by destruct fw]. Qed.

(** The round of the daemon that takes a size off the channel. *)
Lemma daemon_LogSize_recv size q fw w :
  logSizeChan fw = size :: q -> closed fw = false ->
  sizeRotated fw || lineRotated fw = true ->
  daemon tc LogSize fw w
  = '(fw, w) ← daemon_logSize tc size (receive fw) w; Ok (Continue, fw, w).
Proof.
  intros Hchan Hc Hon. unfold daemon. rewrite Hchan.
  cbn [receive closed sizeRotated lineRotated]. rewrite Hc.
  by destruct (sizeRotated fw), (lineRotated fw).
Qed.

(** The round of the daemon that rotates by size or lines. *)
Lemma daemon_LogSize_rotates size q fw w :
  wired fw w = true -> logSizeChan fw = size :: q ->
  needRotate (add_size size fw) = true ->
  let name := sizeRotateName tc (next_sequence (add_size size fw)) in
  exists fw' w',
    daemon tc LogSize fw w = Ok (Continue, fw', w')
    /\ wired fw' w' = true /\ same_policy fw fw' /\ logSizeChan fw' = q
    /\ currentSize fw' = 0 /\ currentLines fw' = 0
    /\ sizeRotateTimes fw' = wrap64 (sizeRotateTimes fw + 1)
    /\ file fw' = (os_OpenFile name w).1.1
    /\ w' = (File_Close (file fw) (os_OpenFile name w).2).2
    /\ exists b', bufio_of fw' = Some b' /\ b_buf b' = [] /\ b_wr b' = file fw'.
Proof.
  intros Hw Hchan Hrot name. destruct (wired_inv _ _ Hw) as (Hc & _).
  rewrite (daemon_LogSize_recv size q) by (try done; by apply (needRotate_on (add_size size fw))).
  assert (Hw2 : wired (receive fw) w = true) by exact Hw.
  destruct (daemon_logSize_spec size (receive fw) w Hw2)
    as (fw' & w' & -> & Hw' & Hpol & Hch & Hcase).
  change (needRotate (add_size size (receive fw))) with (needRotate (add_size size fw)) in Hcase.
  rewrite Hrot in Hcase. rewrite bind_Ok. cbv beta iota.
  exists fw', w'. split; [done|]. split; [done|]. split; [exact Hpol|].
  split; [by rewrite Hch; cbn; rewrite Hchan|]. exact Hcase.
Qed.

(** The round of the daemon that rotates by time. *)
Lemma daemon_TimeTick_rotates now fw w :
  wired fw w = true -> timeRotated fw = true -> now <> tc_date tc ->
  let name := timeRotateName tc fw in
  exists fw' w',
    daemon tc (TimeTick now) fw w = Ok (Continue, fw', w')
    /\ wired fw' w' = true /\ same_policy fw fw' /\ logSizeChan fw' = logSizeChan fw
    /\ currentSize fw' = currentSize fw /\ currentLines fw' = currentLines fw
    /\ sizeRotateTimes fw' = 0
    /\ file fw' = (os_OpenFile name w).1.1
    /\ w' = (File_Close (file fw) (os_OpenFile name w).2).2
    /\ exists b', bufio_of fw' = Some b' /\ b_buf b' = [] /\ b_wr b' = file fw'.
Proof.
  intros Hw Ht Hnow name. destruct (wired_inv _ _ Hw) as (Hc & _).
  unfold daemon. rewrite Hc.
  destruct (daemon_time_spec now fw w Hw)
    as (fw' & w' & -> & Hw' & Hpol & Hch & Hcs & Hcl & Hcase).
  rewrite Ht, bool_decide_false in Hcase by done. cbn [andb negb] in Hcase.
  rewrite bind_Ok. cbv beta iota.
  exists fw', w'. do 6 (split; [done|]). exact Hcase.
Qed.

(** [write] on a wired writer with a size or line rotation on: the size
    of the record joins the channel and the counters stay. *)
Lemma write_spec lv message fw w :
  wired fw w = true -> sizeRotated fw || lineRotated fw = true ->
  exists fw' w',
    write tc lv message fw w = Ok (fw', w')
    /\ wired fw' w' = true /\ same_policy fw fw'
    /\ logSizeChan fw' = logSizeChan fw ++ [record_size tc lv message]
    /\ currentSize fw' = currentSize fw /\ currentLines fw' = currentLines fw
    /\ sizeRotateTimes fw' = sizeRotateTimes fw.
Proof.
  intros Hw Hon. destruct (write_wired lv message fw w Hw) as (bl' & w' & -> & Hw' & _).
  eexists _, _. split; [reflexivity|]. rewrite send_size_eq. cbn. rewrite Hon.
  split; [exact Hw'|]. split; [by repeat split|]. done.
Qed.

(** The round of the daemon that takes the size of a write off the
    channel and counts it. *)
Lemma count_spec size q fw w :
  wired fw w = true -> logSizeChan fw = size :: q ->
  sizeRotated fw || lineRotated fw = true ->
  exists fw' w',
    daemon tc LogSize fw w = Ok (Continue, fw', w')
    /\ wired fw' w' = true /\ same_policy fw fw' /\ logSizeChan fw' = q
    /\ if needRotate (add_size size fw) then
         currentSize fw' = 0 /\ currentLines fw' = 0
         /\ sizeRotateTimes fw' = wrap64 (sizeRotateTimes fw + 1)
       else
         currentSize fw' = wrap64 (currentSize fw + size)
         /\ currentLines fw' = wrap64 (currentLines fw + 1)
         /\ sizeRotateTimes fw' = sizeRotateTimes fw.
Proof.
  intros Hw Hchan Hon. destruct (wired_inv _ _ Hw) as (Hc & _).
  rewrite (daemon_LogSize_recv size q) by done.
  assert (Hw2 : wired (receive fw) w = true) by exact Hw.
  destruct (daemon_logSize_spec size (receive fw) w Hw2)
    as (fw' & w' & -> & Hw' & Hpol & Hch & Hcase).
  change (needRotate (add_size size (receive fw))) with (needRotate (add_size size fw)) in Hcase.
  rewrite bind_Ok. cbv beta iota.
  exists fw', w'. split; [done|]. split; [done|]. split; [exact Hpol|].
  split; [by rewrite Hch; cbn; rewrite Hchan|].
  destruct (needRotate (add_size size fw)).
  - destruct Hcase as (? & ? & ? & _). by repeat split.
  - destruct Hcase as [-> _]. by repeat split.
Qed.

(** A round of the daemon on an empty channel. *)
Lemma count_nothing fw w :
  logSizeChan fw = [] -> daemon tc LogSize fw w = Ok (Continue, fw, w).
Proof. intros Hch. unfold daemon. by rewrite Hch. Qed.

End Daemon.

Section Frames.
Context {LP : LevelPrefix} {Arg : Type} {F : Formatter Arg}.
Variable tc : TimeCache.

Lemma writef_body_frame format (args : list Arg) i v st b w st' b' w' :
  writef_body format args i v st b w = Ok (st', b', w') -> bufio_frame b w b' w'.
Proof.
  unfold writef_body.
  destruct (v_tag st).
  - destruct (is_verb v).
    + destruct (slice _ _ _) as [f|]; [|done]. rewrite bind_Ok.
      destruct (index _ _) as [a|]; [|done]. rewrite bind_Ok.
      pose proof (bufio_WriteString_frame (Sprintf f a) b w) as Hfr.
      destruct (bufio_WriteString _ b w) as [[[s e] b1] w1]. by intros [= <- <- <-].
    + destruct (v =? byte_val ESCAPE); [|intros [= <- <- <-]; apply bufio_frame_refl].
      destruct (v_escape st); [|intros [= <- <- <-]; apply bufio_frame_refl].
      pose proof (bufio_WriteByte_frame ESCAPE b w) as Hfr.
      destruct (bufio_WriteByte _ b w) as [[e b1] w1]. by intros [= <- <- <-].
  - destruct (index _ _) as [c|]; [|done]. rewrite bind_Ok.
    destruct (_ && _); [|intros [= <- <- <-]; apply bufio_frame_refl].
    destruct (slice _ _ _) as [lit|]; [|done]. rewrite bind_Ok.
    pose proof (bufio_WriteString_frame lit b w) as Hfr.
    destruct (bufio_WriteString _ b w) as [[[s e] b1] w1]. by intros [= <- <- <-].
Qed.

Lemma writef_loop_frame format (args : list Arg) rs : forall st b w st' b' w',
  writef_loop format args rs st b w = Ok (st', b', w') -> bufio_frame b w b' w'.
Proof.
  induction rs as [|[i v] rs IH]; intros st b w st' b' w'; cbn [writef_loop].
  - intros [= <- <- <-]. apply bufio_frame_refl.
  - destruct (writef_body _ _ _ _ _ _ _) as [[[st1 b1] w1]|] eqn:Hbody; [|done].
    rewrite bind_Ok. cbv beta iota. intros Hrest.
    eapply bufio_frame_trans; [by eapply writef_body_frame|by eapply IH].
Qed.

(** When [writef] returns, the BLog has its level and its file, and
    the world changed by what the bufio writer did only. *)
Lemma BLog_writef_frame lv format (args : list Arg) bl b w size bl' w' :
  writer bl = Some b ->
  BLog_writef tc lv format args bl w = Ok (size, bl', w') ->
  exists b', bl' = mk_BLog (level bl) (in_ bl) (Some b') /\ bufio_frame b w b' w'.
Proof.
  intros Hb. unfold BLog_writef. rewrite Hb.
  pose proof (bufio_Write_frame (tc_format tc) b w) as H1.
  destruct (bufio_Write _ b w) as [[[n1 e1] b1] w1]. cbn [fst snd] in H1.
  pose proof (bufio_WriteString_frame (prefix lv) b1 w1) as H2.
  destruct (bufio_WriteString _ b1 w1) as [[[n2 e2] b2] w2]. cbn [fst snd] in H2.
  destruct (writef_loop _ _ _ _ _ _) as [[[st3 b3] w3]|] eqn:Hloop; [|done].
  apply writef_loop_frame in Hloop. rewrite bind_Ok. cbv beta iota.
  destruct (slice_from _ _) as [tail|]; [|done]. rewrite bind_Ok.
  pose proof (bufio_WriteString_frame tail b3 w3) as H4.
  destruct (bufio_WriteString _ b3 w3) as [[[n4 e4] b4] w4]. cbn [fst snd] in H4.
  pose proof (bufio_WriteByte_frame EOL b4 w4) as H5.
  destruct (bufio_WriteByte _ b4 w4) as [[e5 b5] w5]. cbn [fst snd] in H5.
  intros [= <- <- <-]. exists b5. split; [done|].
  eauto using bufio_frame_trans.
Qed.

(** A wired writer whose file is nil takes records and flushes, and
    none of it reaches the disk. *)
Lemma lost_sink fw w :
  wired fw w = true -> file fw = None ->
  (forall lv message, exists fw',
        write tc lv message fw w = Ok (fw', w)
        /\ wired fw' w = true /\ file fw' = None)
  /\ (forall lv format (args : list Arg) fw' w',
         writef tc lv format args fw w = Ok (fw', w') ->
         w' = w /\ wired fw' w = true /\ file fw' = None)
  /\ (exists fw', flush fw w = Ok (fw', w) /\ wired fw' w = true /\ file fw' = None).
Proof.
  intros Hw Hnil.
  destruct (wired_inv _ _ Hw) as (Hc & Hv & bl & b & Hbl & Hb & Hin & Hwr).
  assert (Hdead : writable (b_wr b) w = false) by (by rewrite Hwr, Hnil).
  split; [|split].
  - intros lv message.
    destruct (write_wired tc lv message fw w Hw) as (bl' & w' & Hwrite & Hw' & Hsame).
    rewrite Hnil in Hsame. specialize (Hsame eq_refl). subst w'.
    eexists. split; [exact Hwrite|]. rewrite send_size_eq. split; [exact Hw'|exact Hnil].
  - intros lv format args fw' w'. unfold writef. rewrite Hc, Hbl.
    destruct (BLog_writef _ _ _ _ _ _) as [[[size bl'] w1]|] eqn:Hwf; [|done].
    destruct (BLog_writef_frame _ _ _ _ _ _ _ _ _ Hb Hwf) as (b' & -> & Hwr' & Hf & Hd & Hfr).
    specialize (Hfr Hdead). subst w1. rewrite bind_Ok. cbv beta iota.
    rewrite deferred_send_open by done.
    intros [= <- <-]. split; [done|]. rewrite send_size_eq. split; [|exact Hnil].
    eapply wired_intro; cbn; eauto. congruence.
  - unfold flush, BLog_flush. rewrite Hbl. cbn. rewrite Hb.
    pose proof (bufio_Flush_frame b w) as (Hwr' & Hf & Hd & Hfr).
    destruct (bufio_Flush b w) as [[e b1] w1]. cbn [fst snd] in *.
    specialize (Hfr Hdead). subst w1.
    eexists. split; [reflexivity|]. split; [|exact Hnil].
    eapply wired_intro; cbn; eauto. congruence.
Qed.

(** [Close] on a writer whose sink takes bytes: everything buffered is
    in the file when it returns. *)
Lemma Close_flushes fw w bl b :
  closed fw = false -> blog fw = Some bl -> writer bl = Some b -> healthy b w = true ->
  exists fw' w',
    Close fw w = Ok (fw', w')
    /\ closed fw' = true /\ blog fw' = None /\ file fw' = file fw
    /\ file_bytes (b_wr b) w' = stream b w
    /\ fds w' = fds w.
Proof.
  intros Hc Hbl Hb Hh. unfold Close, BLog_Close. rewrite Hc, Hbl. cbn. rewrite Hb.
  destruct (bufio_Flush_healthy b w Hh) as (b1 & w1 & -> & Hnil & Ha).
  destruct Ha as (_ & Hs & Hwr & _ & Hf & _).
  eexists _, w1. split; [reflexivity|]. cbn. do 3 (split; [done|]). split; [|done].
  unfold stream in Hs at 1. by rewrite Hnil, Hwr, !app_nil_r in Hs.
Qed.

End Frames.

(* ===================================================================== *)
(** ** Calls on an open writer *)
(* ===================================================================== *)

Lemma bufio_Flush_cap b w : b_cap (bufio_Flush b w).1.2 = b_cap b.
Proof.
  unfold bufio_Flush. destruct (b_err b); [done|].
  destruct (_ =? _)%nat; [done|].
  destruct (File_Write _ _ _) as [[n e] w']. by repeat case_match.
Qed.

Lemma bufio_of_inv fw b :
  bufio_of fw = Some b -> exists bl, blog fw = Some bl /\ writer bl = Some b.
Proof.
  unfold bufio_of. destruct (blog fw) as [bl|]; [|done]. cbn. intros Hb. by exists bl.
Qed.

Lemma bufio_of_intro fw bl b : blog fw = Some bl -> writer bl = Some b -> bufio_of fw = Some b.
Proof. intros Hbl Hb. unfold bufio_of. by rewrite Hbl. Qed.

Lemma drop_S_tail {A} n (l : list A) : drop (S n) l = drop n (tail l).
Proof. destruct l; [cbn; by rewrite drop_nil|done]. Qed.

Lemma same_file_and_counters_refl fw : same_file_and_counters fw fw.
Proof. by repeat split. Qed.

Lemma same_file_and_counters_trans fw1 fw2 fw3 :
  same_file_and_counters fw1 fw2 -> same_file_and_counters fw2 fw3 ->
  same_file_and_counters fw1 fw3.
Proof. unfold same_file_and_counters. intuition congruence. Qed.

Section Open.
Context {LP : LevelPrefix}.
Variable tc : TimeCache.

(** [write] on an open writer. *)
Lemma write_open lv message fw w :
  wired fw w = true ->
  exists fw' w',
    write tc lv message fw w = Ok (fw', w')
    /\ wired fw' w' = true /\ same_policy fw fw' /\ same_file_and_counters fw fw'
    /\ logSizeChan fw'
       = (if sizeRotated fw || lineRotated fw
          then logSizeChan fw ++ [record_size tc lv message] else logSizeChan fw)
    /\ fds w' = fds w /\ denied w' = denied w
    /\ forall b, bufio_of fw = Some b -> healthy b w = true ->
         exists b', bufio_of fw' = Some b' /\ accepts (record tc lv message) b w b' w'.
Proof.
  intros Hw. destruct (wired_inv _ _ Hw) as (Hc & Hv & bl & b0 & Hbl & Hb0 & Hin & Hwr).
  unfold write. rewrite Hc, Hbl.
  destruct (BLog_write_ok tc lv message bl b0 w Hb0) as (b' & w' & Hwrite & Hwr' & Hf & Hd & Hfr).
  rewrite Hwrite, bind_Ok. cbv beta iota. rewrite deferred_send_open by done.
  eexists _, w'. split; [reflexivity|]. rewrite send_size_eq.
  split; [|split; [|split; [|split; [|split; [|split]]]]]; try done.
  - eapply wired_intro; cbn; eauto; [|congruence].
    eapply valid_handle_grow; [|exact Hv]. by rewrite Hf.
  - intros b Hb Hh.
    assert (b = b0) as ->.
    { unfold bufio_of in Hb. rewrite Hbl in Hb. cbn in Hb. congruence. }
    destruct (BLog_write_healthy tc lv message bl b0 w Hb0 Hh) as (b2 & w2 & Heq & Ha).
    rewrite Hwrite in Heq. injection Heq as _ <- <-.
    exists b'. split; [done|]. exact Ha.
Qed.

(** [flush] on an open writer. *)
Lemma flush_open fw w :
  wired fw w = true ->
  exists fw' w',
    flush fw w = Ok (fw', w')
    /\ daemon tc FlushTick fw w = Ok (Continue, fw', w')
    /\ wired fw' w' = true /\ same_policy fw fw' /\ same_file_and_counters fw fw'
    /\ logSizeChan fw' = logSizeChan fw
    /\ fds w' = fds w /\ denied w' = denied w
    /\ forall b, bufio_of fw = Some b -> healthy b w = true ->
         exists b', bufio_of fw' = Some b' /\ b_buf b' = [] /\ accepts [] b w b' w'.
Proof.
  intros Hw. destruct (wired_inv _ _ Hw) as (Hc & Hv & bl & b0 & Hbl & Hb0 & Hin & Hwr).
  pose proof (bufio_Flush_frame b0 w) as (Hwr' & Hf & Hd & Hfr).
  destruct (bufio_Flush b0 w) as [[e b1] w1] eqn:Hflush. cbn [fst snd] in *.
  exists (with_blog (mk_BLog (level bl) (in_ bl) (Some b1)) fw), w1.
  split; [|split].
  { unfold flush, BLog_flush. rewrite Hbl. cbn. by rewrite Hb0, Hflush. }
  { unfold daemon, BLog_flush. rewrite Hc at 1. rewrite Hbl. cbn. by rewrite Hb0, Hflush. }
  split; [|split; [|split; [|split; [|split; [|split]]]]]; try done.
  - eapply wired_intro; cbn; eauto; [|congruence].
    eapply valid_handle_grow; [|exact Hv]. by rewrite Hf.
  - intros b Hb Hh.
    assert (b = b0) as ->.
    { unfold bufio_of in Hb. rewrite Hbl in Hb. cbn in Hb. congruence. }
    destruct (bufio_Flush_healthy b0 w Hh) as (b2 & w2 & Heq & Hnil & Ha).
    rewrite Hflush in Heq. injection Heq as _ <- <-.
    exists b1. by split.
Qed.

(** A round of the daemon that takes a size off the channel while both
    rotations are off drops it. *)
Lemma round_rotation_off fw w :
  closed fw = false -> sizeRotated fw = false -> lineRotated fw = false ->
  daemon tc LogSize fw w = Ok (Continue, receive fw, w)
  \/ (logSizeChan fw = [] /\ daemon tc LogSize fw w = Ok (Continue, fw, w)).
Proof.
  intros Hc Hs Hl. unfold daemon. destruct (logSizeChan fw) as [|size q] eqn:Hq.
  - by right.
  - left. cbn [receive closed sizeRotated lineRotated]. by rewrite Hc, Hs, Hl.
Qed.

(** A run of writes and of rounds of the daemon while both rotations are
    off. *)
Lemma steps_rotation_off lv steps : forall fw w,
  wired fw w = true -> sizeRotated fw = false -> lineRotated fw = false ->
  exists fw' w',
    run_steps tc lv steps fw w = Ok (fw', w')
    /\ wired fw' w' = true /\ same_policy fw fw' /\ same_file_and_counters fw fw'
    /\ logSizeChan fw' = drop (rounds steps) (logSizeChan fw)
    /\ fds w' = fds w /\ denied w' = denied w
    /\ forall b, bufio_of fw = Some b -> healthy b w = true ->
         exists b', bufio_of fw' = Some b'
                    /\ accepts (records tc lv (messages steps)) b w b' w'.
Proof.
  induction steps as [|s steps IH]; intros fw w Hw Hs Hl.
  - exists fw, w. cbn. rewrite drop_0.
    split; [done|]. split; [done|]. split; [apply same_policy_refl|].
    split; [apply same_file_and_counters_refl|]. do 3 (split; [done|]).
    intros b Hb Hh. exists b. split; [done|]. by apply accepts_refl.
  - cbn [run_steps]. destruct s as [m|].
    + cbn [run_step messages rounds].
      destruct (write_open lv m fw w Hw)
        as (fw1 & w1 & -> & Hw1 & Hp1 & Hc1 & Hq1 & Hf1 & Hd1 & Hb1).
      rewrite bind_Ok. cbv beta iota. rewrite Hs, Hl in Hq1. cbn in Hq1.
      destruct Hp1 as (P1 & P2 & P3 & P4 & P5 & P6 & P7 & P8).
      destruct (IH fw1 w1 Hw1) as (fw2 & w2 & -> & Hw2 & Hp2 & Hc2 & Hq2 & Hf2 & Hd2 & Hb2);
        [congruence..|].
      exists fw2, w2. split; [done|]. split; [done|].
      split; [eapply same_policy_trans; [|exact Hp2]; by repeat split|].
      split; [by eapply same_file_and_counters_trans|].
      split; [by rewrite Hq2, Hq1|]. split; [congruence|]. split; [congruence|].
      intros b Hb Hh. destruct (Hb1 b Hb Hh) as (b1 & Hbo1 & Ha1).
      destruct (Hb2 b1 Hbo1 (proj1 Ha1)) as (b2 & Hbo2 & Ha2).
      exists b2. split; [done|]. unfold records. cbn [map concat].
      by eapply accepts_trans.
    + cbn [run_step messages rounds].
      destruct (wired_inv _ _ Hw) as (Hc & _).
      assert (Hround : exists fw1, daemon tc LogSize fw w = Ok (Continue, fw1, w)
                         /\ wired fw1 w = true /\ same_policy fw fw1
                         /\ same_file_and_counters fw fw1
                         /\ logSizeChan fw1 = tail (logSizeChan fw)
                         /\ bufio_of fw1 = bufio_of fw).
      { destruct (round_rotation_off fw w Hc Hs Hl) as [Hd|[Hq Hd]].
        - exists (receive fw). split; [done|]. split; [exact Hw|].
          split; [by repeat split|]. by repeat split.
        - exists fw. split; [done|]. split; [done|]. split; [apply same_policy_refl|].
          split; [apply same_file_and_counters_refl|]. by rewrite Hq. }
      destruct Hround as (fw1 & -> & Hw1 & Hp1 & Hc1 & Hq1 & Hb1).
      rewrite bind_Ok. cbv beta iota. rewrite bind_Ok. cbv beta iota.
      destruct Hp1 as (P1 & P2 & P3 & P4 & P5 & P6 & P7 & P8).
      destruct (IH fw1 w Hw1) as (fw2 & w2 & -> & Hw2 & Hp2 & Hc2 & Hq2 & Hf2 & Hd2 & Hb2);
        [congruence..|].
      exists fw2, w2. split; [done|]. split; [done|].
      split; [eapply same_policy_trans; [|exact Hp2]; by repeat split|].
      split; [by eapply same_file_and_counters_trans|].
      split; [by rewrite Hq2, Hq1, drop_S_tail|]. do 2 (split; [done|]).
      intros b Hb Hh. apply Hb2; [congruence|done].
Qed.

End Open.

(* ===================================================================== *)
(** ** Counting and rotating *)
(* ===================================================================== *)

Lemma period_same_policy s fw fw' : same_policy fw fw' -> period s fw' = period s fw.
Proof.
  intros (_ & _ & _ & Hl & HL & Hs & HT & _). unfold period. by rewrite Hl, HL, Hs, HT.
Qed.

Lemma sizeRotateName_ext tc fw fw' :
  fileName fw' = fileName fw -> timeRotated fw' = timeRotated fw ->
  sizeRotateTimes fw' = sizeRotateTimes fw ->
  sizeRotateName tc fw' = sizeRotateName tc fw.
Proof. intros H1 H2 H3. unfold sizeRotateName. by rewrite H1, H2, H3. Qed.

Lemma os_OpenFile_denied_frame name w : denied (os_OpenFile name w).2 = denied w.
Proof. unfold os_OpenFile. by destruct (bool_decide _). Qed.

(** The test of the daemon on the record that brings the count from [j]
    to [j + 1]: it rotates when [j + 1] is the period, and only then. *)
Lemma needRotate_period s j size fw :
  counting s j fw -> (sizeRotated fw = true -> size = s) ->
  needRotate (add_size size fw) = bool_decide (j + 1 = period s fw).
Proof.
  intros (Hon & Hj & Hsz & Hln & _) Hsize.
  unfold needRotate, add_size, period in *. cbn.
  destruct (sizeRotated fw) eqn:Es, (lineRotated fw) eqn:El; try discriminate Hon.
  - destruct (Hsz eq_refl) as (Hs & HT & Hmax & Hcs & _).
    destruct (Hln eq_refl) as (HL & Hcl). rewrite (Hsize eq_refl), Hcs, Hcl.
    assert (Hdiv : s * (rotateSize fw / s) <= rotateSize fw) by (apply Z.mul_div_le; lia).
    assert (Hmod : rotateSize fw < s * (rotateSize fw / s + 1)).
    { pose proof (Z.mul_succ_div_gt (rotateSize fw) s Hs). lia. }
    assert (HjD : j <= rotateSize fw / s) by lia.
    assert (HjL : j <= rotateLines fw) by lia.
    rewrite !wrap64_id by (unfold maxInt64 in *; nia). cbn.
    destruct (bool_decide_reflect (j + 1 = Z.min (rotateSize fw / s + 1) (rotateLines fw + 1)))
      as [Heq|Hne].
    + apply orb_true_iff.
      destruct (Z.min_spec (rotateSize fw / s + 1) (rotateLines fw + 1)) as [[_ Hm]|[_ Hm]].
      * left. apply Z.ltb_lt. nia.
      * right. apply Z.ltb_lt. lia.
    + apply orb_false_iff. split; apply Z.ltb_ge.
      * assert (j + 1 <= rotateSize fw / s) by lia. nia.
      * lia.
  - destruct (Hsz eq_refl) as (Hs & HT & Hmax & Hcs & _).
    rewrite (Hsize eq_refl), Hcs.
    assert (Hdiv : s * (rotateSize fw / s) <= rotateSize fw) by (apply Z.mul_div_le; lia).
    assert (Hmod : rotateSize fw < s * (rotateSize fw / s + 1)).
    { pose proof (Z.mul_succ_div_gt (rotateSize fw) s Hs). lia. }
    rewrite wrap64_id by (unfold maxInt64 in *; nia). cbn. rewrite orb_false_r.
    destruct (bool_decide_reflect (j + 1 = rotateSize fw / s + 1)) as [Heq|Hne].
    + apply Z.ltb_lt. nia.
    + apply Z.ltb_ge. assert (j + 1 <= rotateSize fw / s) by lia. nia.
  - destruct (Hln eq_refl) as (HL & Hcl). rewrite Hcl. cbn [andb orb].
    rewrite wrap64_id by (unfold maxInt64 in *; lia).
    destruct (bool_decide_reflect (j + 1 = rotateLines fw + 1)) as [Heq|Hne].
    + apply Z.ltb_lt. lia.
    + apply Z.ltb_ge. lia.
Qed.

Section Counting.
Context {LP : LevelPrefix}.
Variable tc : TimeCache.

(** The round of the daemon that counts a record: either it rotates,
    with both counters at zero afterwards and, in a world in which every
    file opens, the writer on a new descriptor of the rotated name, or it
    adds the record to the counters and leaves the file and the world as
    they are. *)
Lemma count_round size q fw w :
  wired fw w = true -> logSizeChan fw = size :: q ->
  sizeRotated fw || lineRotated fw = true ->
  exists fw' w',
    daemon tc LogSize fw w = Ok (Continue, fw', w')
    /\ wired fw' w' = true /\ same_policy fw fw' /\ logSizeChan fw' = q
    /\ denied w' = denied w
    /\ if needRotate (add_size size fw) then
         currentSize fw' = 0 /\ currentLines fw' = 0
         /\ sizeRotateTimes fw' = wrap64 (sizeRotateTimes fw + 1)
         /\ (denied w = ∅ ->
             file fw' = Some (length (fds w))
             /\ length (fds w') = S (length (fds w))
             /\ fds w' !! length (fds w) = Some (mk_File (sizeRotateName tc fw') false))
       else
         currentSize fw' = wrap64 (currentSize fw + size)
         /\ currentLines fw' = wrap64 (currentLines fw + 1)
         /\ sizeRotateTimes fw' = sizeRotateTimes fw
         /\ file fw' = file fw /\ w' = w.
Proof.
  intros Hw Hq Hon. destruct (wired_inv _ _ Hw) as (Hc & Hv & _).
  destruct (needRotate (add_size size fw)) eqn:Hrot.
  - destruct (daemon_LogSize_rotates tc size q fw w Hw Hq Hrot)
      as (fw' & w' & Hd & Hw' & Hp & Hq' & Hcs & Hcl & Hseq & Hfile & Hworld & _).
    set (name := sizeRotateName tc (next_sequence (add_size size fw))) in *.
    destruct (File_Close_frame (file fw) (os_OpenFile name w).2) as (_ & Hd2 & Hlen).
    rewrite <- Hworld in Hd2, Hlen.
    assert (Hname : sizeRotateName tc fw' = name).
    { destruct Hp as (Hfn & _ & Ht & _). apply sizeRotateName_ext; [done|done|].
      by rewrite Hseq. }
    exists fw', w'. do 4 (split; [done|]).
    split; [by rewrite Hd2, os_OpenFile_denied_frame|].
    do 3 (split; [done|]). intros Hden.
    assert (Hnd : name ∉ denied w) by (rewrite Hden; set_solver).
    destruct (rotation_world_opened name (file fw) w Hnd Hv) as (Hopen & Hfd & _).
    destruct (os_OpenFile_ok name w Hnd) as (w1 & Hw1 & Hf1 & _).
    rewrite <- Hworld in Hfd. rewrite Hw1 in Hlen. cbn [snd] in Hlen.
    split; [by rewrite Hfile, Hopen|].
    split; [rewrite Hlen, Hf1, length_app; cbn; lia|]. by rewrite Hname.
  - exists (add_size size (receive fw)), w.
    split.
    { rewrite (daemon_LogSize_recv tc size q) by done. unfold daemon_logSize.
      change (needRotate (add_size size (receive fw))) with (needRotate (add_size size fw)).
      by rewrite Hrot. }
    split; [exact Hw|]. split; [by repeat split|]. split; [by cbn; rewrite Hq|].
    by repeat split.
Qed.

(** A run of writes and of rounds of the daemon on the channel of
    sizes, from a writer that has counted [j] records since its last
    rotation: when the daemon has counted [K] more it has rotated
    [(j + K) / p] times, [p] being the period, and has counted
    [(j + K) mod p] records since.  In a world in which every file opens,
    every rotation opened a descriptor, and after a rotation the writer
    is on the last one, open on the rotated name. *)
Lemma steps_counted lv s steps : forall fw w j,
  wired fw w = true -> counting s j fw ->
  (sizeRotated fw = true -> writes_of_size tc lv s steps) ->
  0 <= sizeRotateTimes fw ->
  sizeRotateTimes fw + Z.of_nat (counted (length (logSizeChan fw)) steps) <= maxInt64 ->
  let p := period s fw in
  let K := Z.of_nat (counted (length (logSizeChan fw)) steps) in
  exists fw' w',
    run_steps tc lv steps fw w = Ok (fw', w')
    /\ wired fw' w' = true /\ same_policy fw fw'
    /\ counting s ((j + K) mod p) fw'
    /\ sizeRotateTimes fw' = sizeRotateTimes fw + (j + K) / p
    /\ ((j + K) / p = 0 -> file fw' = file fw /\ fds w' = fds w)
    /\ (denied w = ∅ ->
        length (fds w') = (length (fds w) + Z.to_nat ((j + K) / p))%nat
        /\ (0 < (j + K) / p ->
            file fw' = Some (length (fds w') - 1)%nat
            /\ fds w' !! (length (fds w') - 1)%nat
               = Some (mk_File (sizeRotateName tc fw') false))).
Proof.
  induction steps as [|st steps IH]; intros fw w j Hw Hcnt Hall Hr Hrmax p K.
  - pose proof Hcnt as (_ & Hj & _).
    exists fw, w. subst K. cbn [counted Z.of_nat run_steps].
    rewrite Z.add_0_r, Z.mod_small, Z.div_small by (unfold p; lia).
    split; [done|]. split; [done|]. split; [apply same_policy_refl|].
    split; [done|]. split; [lia|]. split; [done|]. intros _. split; [cbn; lia|lia].
  - pose proof Hcnt as (Hon & Hj & Hsz & Hln & H0).
    assert (Hp : 0 < p) by (unfold p; lia).
    cbn [run_steps]. destruct st as [m|].
    + (* a write *)
      cbn [run_step].
      destruct (write_open tc lv m fw w Hw)
        as (fw1 & w1 & -> & Hw1 & Hpol & (Hfile1 & Hcs1 & Hcl1 & Hr1) & Hq1 & Hf1 & Hd1 & _).
      rewrite bind_Ok. cbv beta iota. rewrite Hon in Hq1.
      pose proof Hpol as (_ & _ & _ & Hln1 & HL1 & Hsz1 & HT1 & _).
      pose proof (period_same_policy s _ _ Hpol) as Hp1.
      assert (Hlen1 : length (logSizeChan fw1) = S (length (logSizeChan fw)))
        by (rewrite Hq1, length_app; cbn; lia).
      assert (Hcnt1 : counting s j fw1).
      { split; [by rewrite Hsz1, Hln1|]. split; [by rewrite Hp1|]. split; [|split].
        - rewrite Hsz1. intros Es. destruct (Hsz Es) as (? & ? & ? & ? & Hch).
          rewrite HT1, Hcs1, Hq1. do 4 (split; [done|]).
          apply Forall_app. split; [done|]. apply Forall_singleton.
          specialize (Hall Es). apply Forall_cons_1 in Hall as [Hm _]. by cbn beta in Hm.
        - rewrite Hln1, HL1, Hcl1. exact Hln.
        - rewrite Hcs1, Hcl1. exact H0. }
      destruct (IH fw1 w1 j Hw1) as (fw' & w' & Hrun & Hw' & Hpol' & Hcnt' & Hr' & Hz' & Hpos');
        [done| | |rewrite Hlen1, Hr1; exact Hrmax|].
      { rewrite Hsz1. intros Es. specialize (Hall Es).
        by apply Forall_cons_1 in Hall as [_ Hall]. }
      { by rewrite Hr1. }
      rewrite Hlen1, Hp1 in Hcnt', Hr', Hz', Hpos'. fold p in Hcnt', Hr', Hz', Hpos'.
      rewrite Hd1, Hf1 in Hpos'.
      exists fw', w'. subst K. cbn [counted].
      split; [done|]. split; [done|]. split; [by eapply same_policy_trans|].
      split; [done|]. split; [by rewrite Hr', Hr1|].
      split; [intros Hz; destruct (Hz' Hz) as [-> ->]; by rewrite Hfile1, Hf1|done].
    + (* a round of the daemon *)
      cbn [run_step]. destruct (logSizeChan fw) as [|size q] eqn:Hq.
      * rewrite count_nothing by done. rewrite bind_Ok. cbv beta iota.
        destruct (IH fw w j Hw Hcnt) as (fw' & w' & Hrun & Hrest);
          [intros Es; specialize (Hall Es); by apply Forall_cons_1 in Hall as [_ Hall]
          |done|by rewrite ?Hq|].
        rewrite ?Hq in Hrest. exists fw', w'. subst K. rewrite ?Hq. cbn [counted length].
        by split.
      * destruct (count_round size q fw w Hw Hq Hon)
          as (fw1 & w1 & -> & Hw1 & Hpol & Hq1 & Hd1 & Hcase).
        rewrite bind_Ok. cbv beta iota.
        pose proof Hpol as (Hfn1 & _ & Ht1 & Hln1 & HL1 & Hsz1 & HT1 & _).
        pose proof (period_same_policy s _ _ Hpol) as Hp1.
        assert (HK : K = Z.of_nat (counted (length q) steps) + 1)
          by (subst K; rewrite ?Hq; cbn [counted length]; lia).
        cbn [counted length] in Hrmax.
        assert (Hsize : sizeRotated fw = true -> size = s).
        { intros Es. destruct (Hsz Es) as (_ & _ & _ & _ & Hch).
          by apply Forall_cons_1 in Hch as [-> _]. }
        assert (Hall1 : sizeRotated fw1 = true -> writes_of_size tc lv s steps).
        { rewrite Hsz1. intros Es. specialize (Hall Es).
          by apply Forall_cons_1 in Hall as [_ Hall]. }
        assert (Hdec : needRotate (add_size size fw) = bool_decide (j + 1 = p)).
        { by apply needRotate_period. }
        rewrite Hdec in Hcase.
        destruct (bool_decide_reflect (j + 1 = p)) as [Hjeq|Hjne].
        -- destruct Hcase as (Hcs1 & Hcl1 & Hr1 & Hopened).
           rewrite wrap64_id in Hr1 by (unfold maxInt64 in *; lia).
           assert (Hcnt1 : counting s 0 fw1).
           { split; [by rewrite Hsz1, Hln1|]. split; [rewrite Hp1; fold p; lia|].
             split; [|split].
             - rewrite Hsz1. intros Es. destruct (Hsz Es) as (? & ? & ? & ? & Hch).
               rewrite HT1, Hcs1, Hq1. do 3 (split; [done|]). split; [lia|].
               by apply Forall_cons_1 in Hch as [_ Hch].
             - rewrite Hln1, HL1, Hcl1. intros El. by destruct (Hln El).
             - done. }
           destruct (IH fw1 w1 0 Hw1 Hcnt1 Hall1)
             as (fw' & w' & Hrun & Hw' & Hpol' & Hcnt' & Hr' & Hz' & Hpos');
             [lia|rewrite Hq1, Hr1; lia|].
           rewrite Hq1, Hp1 in Hcnt', Hr', Hz', Hpos'.
           fold p in Hcnt', Hr', Hz', Hpos'.
           rewrite Z.add_0_l in Hcnt', Hr', Hz', Hpos'. rewrite Hd1 in Hpos'.
           set (K' := Z.of_nat (counted (length q) steps)) in *.
           assert (HR : 0 <= K' / p) by (apply Z.div_pos; lia).
           replace (j + K) with (K' + 1 * p) by lia.
           rewrite Z_mod_plus_full, Z_div_plus_full by lia.
           exists fw', w'. split; [done|]. split; [done|].
           split; [by eapply same_policy_trans|]. split; [done|].
           split; [rewrite Hr', Hr1; lia|]. split; [lia|]. intros Hden.
           destruct (Hopened Hden) as (Hfile1 & Hlen1 & Hfd1).
           destruct (Hpos' Hden) as (Hlen' & Hlast').
           split; [rewrite Hlen', Hlen1, Z2Nat.inj_add by lia; cbn; lia|]. intros _.
           destruct (Z.eq_dec (K' / p) 0) as [HR0|HRpos].
           ++ destruct (Hz' HR0) as [Hfile' Hfds'].
              rewrite Hfds', Hlen1, Hfile', Hfile1. cbn [Nat.sub]. rewrite Nat.sub_0_r.
              split; [done|]. rewrite Hfd1. do 2 f_equal.
              destruct Hpol' as (Hfn' & _ & Ht' & _).
              symmetry. apply sizeRotateName_ext; [done|done|]. rewrite Hr', HR0. lia.
           ++ apply Hlast'. lia.
        -- destruct Hcase as (Hcs1 & Hcl1 & Hr1 & Hfile1 & ->).
           assert (Hj1 : j + 1 < p) by lia.
           assert (Hcnt1 : counting s (j + 1) fw1).
           { split; [by rewrite Hsz1, Hln1|]. split; [rewrite Hp1; fold p; lia|].
             split; [|split].
             - rewrite Hsz1. intros Es. destruct (Hsz Es) as (Hs & HT & Hmax & Hcs & Hch).
               rewrite HT1, Hcs1, Hq1, Hcs, (Hsize Es). do 3 (split; [done|]).
               split.
               + assert (j <= rotateSize fw / s).
                 { unfold p, period in Hj1. rewrite Es in Hj1.
                   destruct (lineRotated fw); lia. }
                 assert (s * (rotateSize fw / s) <= rotateSize fw)
                   by (apply Z.mul_div_le; lia).
                 rewrite wrap64_id by (unfold maxInt64 in *; nia). lia.
               + by apply Forall_cons_1 in Hch as [_ Hch].
             - rewrite Hln1, HL1, Hcl1. intros El. destruct (Hln El) as (HL & Hcl).
               split; [done|]. rewrite Hcl.
               apply wrap64_id. unfold p, period in Hj1. rewrite El in Hj1.
               unfold maxInt64 in *. destruct (sizeRotated fw); lia.
             - lia. }
           destruct (IH fw1 w (j + 1) Hw1 Hcnt1 Hall1)
             as (fw' & w' & Hrun & Hw' & Hpol' & Hcnt' & Hr' & Hz' & Hpos');
             [lia|rewrite Hq1, Hr1; lia|].
           rewrite Hq1, Hp1 in Hcnt', Hr', Hz', Hpos'.
           fold p in Hcnt', Hr', Hz', Hpos'.
           replace (j + K) with (j + 1 + Z.of_nat (counted (length q) steps)) by lia.
           exists fw', w'. split; [done|]. split; [done|].
           split; [by eapply same_policy_trans|]. split; [done|].
           split; [by rewrite Hr', Hr1|].
           split; [intros Hz; destruct (Hz' Hz) as [-> ->]; by rewrite Hfile1|done].
Qed.

End Counting.

(* ===================================================================== *)
(** ** The rendering of records *)
(* ===================================================================== *)

(** C1, as amended.  [writef] has one way to fail: it panics with an
    index out of range exactly when the format closes more placeholders
    with a verb than the call has arguments; there is no graceful
    degradation in that case.  With an argument for every closed
    placeholder it returns, whatever else the format holds (unknown verbs,
    a placeholder left open, arguments in excess). *)
Theorem writef_panics_iff_argument_missing
    {LP : LevelPrefix} {Arg : Type} {F : Formatter Arg}
    (tc : TimeCache) (lv : Level) (format : bytes) (args : list Arg)
    (blog : BLog) (b : bufio_Writer) (w : World) :
  writer blog = Some b ->
  (is_Ok (BLog_writef tc lv format args blog w) = true
   <-> (placeholders format <= length args)%nat)
  /\ (BLog_writef tc lv format args blog w = Panic IndexOutOfRange
      <-> (length args < placeholders format)%nat).
Proof.
  intros Hb. pose proof (BLog_writef_outcome tc lv format args blog b w Hb) as Hout.
  destruct (Nat.leb_spec (placeholders format) (length args)) as [Hle|Hlt].
  - split; split; intros Hx; try done; try lia.
    rewrite Hx in Hout. discriminate.
  - split; split; intros Hx; try done; try lia.
    rewrite Hout in Hx. discriminate.
Qed.

Lemma writef_panics_iff_argument_missing_witness :
  writer demo_blog = Some demo_bufio
  /\ (is_Ok (BLog_writef (LP:=demo_prefix) (F:=demo_Sprintf) demo_tc INFO
               (B "%d of %d") [AInt 1; AInt 2] demo_blog demo_w) = true
      <-> (placeholders (B "%d of %d") <= length [AInt 1; AInt 2])%nat)
  /\ (BLog_writef (LP:=demo_prefix) (F:=demo_Sprintf) demo_tc INFO
        (B "%d of %d") [AInt 1; AInt 2] demo_blog demo_w = Panic IndexOutOfRange
      <-> (length [AInt 1; AInt 2] < placeholders (B "%d of %d"))%nat).
Proof.
  split; [reflexivity|].
  apply (writef_panics_iff_argument_missing (LP:=demo_prefix) (F:=demo_Sprintf)
           demo_tc INFO (B "%d of %d") [AInt 1; AInt 2] demo_blog demo_bufio demo_w).
  reflexivity.
Defined.

(** C1 fails as stated: a format with one placeholder and no argument
    makes [writef] panic. *)
Lemma writef_missing_argument_panics :
  BLog_writef (LP:=demo_prefix) (F:=demo_Sprintf) demo_tc INFO (B "id=%d") [] demo_blog demo_w
  = Panic IndexOutOfRange.
Proof. vm_compute. reflexivity. Qed.

(** Outside a placeholder every [%] opens one: the test of [escape] never
    stops it, because the flag is only ever set inside a placeholder.  So
    a backslash before a [%] escapes nothing. *)
Lemma backslash_does_not_escape pre rest :
  c_tag (ctl_scan 0 pre ctl_init) = false ->
  c_tag (ctl_scan 0 (pre ++ [ESCAPE; PLACEHOLDER]) ctl_init) = true
  /\ placeholders (pre ++ [ESCAPE; PLACEHOLDER] ++ rest)
     = placeholders (pre ++ [PLACEHOLDER] ++ rest).
Proof.
  intros Htag. split.
  - assert (Happ : forall s1 s2 i k, ctl_scan i (s1 ++ s2) k
                     = ctl_scan (i + length s1) s2 (ctl_scan i s1 k)).
    { induction s1 as [|c s1 IH]; intros s2 i k; cbn; [by rewrite Nat.add_0_r|].
      rewrite IH. f_equal. lia. }
    rewrite Happ. set (k := ctl_scan 0 pre ctl_init) in *.
    assert (Hesc : c_escape k = false) by (by apply (ctl_scan_escape_inside pre 0 ctl_init)).
    cbn [ctl_scan]. unfold ctl_step at 2. rewrite Htag.
    rewrite bool_decide_false by discriminate. cbn [andb].
    unfold ctl_step. rewrite Htag, Hesc. by rewrite bool_decide_true.
  - unfold placeholders. clear Htag. generalize false.
    induction pre as [|c pre IH]; intros tag; cbn.
    + by destruct tag.
    + repeat case_match; by rewrite ?IH.
Qed.

(** C2 (the code at the failing input).  The format [100\%d] with the
    argument 5: the backslash is copied, the [%d] after it is taken for a
    placeholder and replaced by the argument. *)
Theorem escaped_placeholder_is_substituted :
  match BLog_writef (LP:=demo_prefix) (F:=demo_Sprintf) demo_tc INFO
          (B "100\%d") [AInt 5] demo_blog demo_w with
  | Ok (size, blog', w') =>
    size = 33%nat
    /\ option_map (fun b => stream b w') (writer blog')
       = Some (B "2015-06-02 10:00:00 [INFO] 100\5" ++ [EOL])
  | Stop _ => False
  end.
Proof. vm_compute. split; reflexivity. Qed.

(** C7.  On a writer whose sink takes bytes, [write] adds to the stream
    the time stamp, the level prefix, the message as it is and the line
    end, and returns the length of that record.  For every format and
    every list of arguments, [writef] either returns, having added the
    time stamp, the level prefix, a body and the line end, with the length
    of what it added as its result, or it ends in the panic of a missing
    argument; it returns whenever there is an argument for every closed
    placeholder. *)
Theorem write_and_writef_return_bytes_written
    {LP : LevelPrefix} {Arg : Type} {F : Formatter Arg}
    (tc : TimeCache) (lv : Level) (blog : BLog) (b : bufio_Writer) (w : World) :
  writer blog = Some b -> healthy b w = true ->
  (forall message,
      exists b' w',
        BLog_write tc lv message blog w
        = Ok (length (tc_format tc ++ prefix lv ++ message ++ [EOL]),
              mk_BLog (level blog) (in_ blog) (Some b'), w')
        /\ stream b' w' = stream b w ++ tc_format tc ++ prefix lv ++ message ++ [EOL])
  /\ (forall format (args : list Arg),
         match BLog_writef tc lv format args blog w with
         | Ok (size, blog', w') =>
           exists body b',
             blog' = mk_BLog (level blog) (in_ blog) (Some b')
             /\ stream b' w' = stream b w ++ tc_format tc ++ prefix lv ++ body ++ [EOL]
             /\ size = length (tc_format tc ++ prefix lv ++ body ++ [EOL])
         | Panic p => p = IndexOutOfRange /\ (length args < placeholders format)%nat
         | Blocked => False
         end
         /\ ((placeholders format <= length args)%nat ->
             is_Ok (BLog_writef tc lv format args blog w) = true)).
Proof.
  intros Hb Hh. split.
  - intros message.
    destruct (BLog_write_healthy tc lv message blog b w Hb Hh) as (b' & w' & Hr & Ha).
    exists b', w'. split; [done|]. apply Ha.
  - intros format args.
    destruct (Nat.leb_spec (placeholders format) (length args)) as [Hle|Hlt].
    + destruct (BLog_writef_healthy tc lv format args blog b w Hb Hh Hle)
        as (body & b' & w' & -> & Ha).
      split; [|done]. exists body, b'. split; [done|]. split; [apply Ha|done].
    + pose proof (BLog_writef_outcome tc lv format args blog b w Hb) as Hout.
      rewrite (proj2 (Nat.leb_gt _ _)) in Hout by done. rewrite Hout.
      split; [by split|]. intros Hle. exfalso. lia.
Qed.

Lemma write_and_writef_return_bytes_written_witness :
  writer demo_blog = Some demo_bufio /\ healthy demo_bufio demo_w = true
  /\ (exists b' w',
        BLog_write (LP:=demo_prefix) demo_tc WARN (B "disk 93% full") demo_blog demo_w
        = Ok (length (tc_format demo_tc ++ demo_prefix WARN ++ B "disk 93% full" ++ [EOL]),
              mk_BLog (level demo_blog) (in_ demo_blog) (Some b'), w')
        /\ stream b' w' = stream demo_bufio demo_w ++ tc_format demo_tc ++ demo_prefix WARN
                            ++ B "disk 93% full" ++ [EOL])
  /\ is_Ok (BLog_writef (LP:=demo_prefix) (F:=demo_Sprintf) demo_tc WARN (B "id=%d") [AInt 7]
              demo_blog demo_w) = true.
Proof.
  assert (H1 : writer demo_blog = Some demo_bufio) by reflexivity.
  assert (H2 : healthy demo_bufio demo_w = true) by reflexivity.
  assert (H3 : (placeholders (B "id=%d") <= length [AInt 7])%nat) by (vm_compute; lia).
  destruct (write_and_writef_return_bytes_written (LP:=demo_prefix) (F:=demo_Sprintf)
              demo_tc WARN demo_blog demo_bufio demo_w H1 H2) as [Hw Hf].
  split; [exact H1|]. split; [exact H2|].
  split; [exact (Hw (B "disk 93% full"))|exact (proj2 (Hf (B "id=%d") [AInt 7]) H3)].
Defined.

(** C10.  Let the scanner meet, outside a placeholder, a [%] that no verb
    closes before the end of the format.  The literal bytes before that
    [%], from the last closed placeholder on ([span]), are written when
    the placeholder opens and once more as the head of the last flush,
    and the size returned counts both copies.  [out0] is what the scanner
    wrote before [span]: without the [%] and what follows it, the record
    is [out0] and one copy of [span]. *)
Theorem unterminated_placeholder_repeats_literal_span
    {LP : LevelPrefix} {Arg : Type} {F : Formatter Arg}
    (tc : TimeCache) (lv : Level) (pre rest : bytes) (args : list Arg)
    (blog : BLog) (b : bufio_Writer) (w : World) :
  writer blog = Some b -> healthy b w = true ->
  c_tag (ctl_scan 0 pre ctl_init) = false ->
  verb_free rest = true ->
  (placeholders pre <= length args)%nat ->
  let span := drop (c_last (ctl_scan 0 pre ctl_init)) pre in
  exists out0 b0 w0 b' w',
    BLog_writef tc lv pre args blog w
    = Ok (length (tc_format tc ++ prefix lv ++ out0 ++ span ++ [EOL]),
          mk_BLog (level blog) (in_ blog) (Some b0), w0)
    /\ stream b0 w0 = stream b w ++ tc_format tc ++ prefix lv ++ out0 ++ span ++ [EOL]
    /\ BLog_writef tc lv (pre ++ PLACEHOLDER :: rest) args blog w
       = Ok (length (tc_format tc ++ prefix lv ++ out0 ++ span ++ escapes false rest
                       ++ span ++ PLACEHOLDER :: rest ++ [EOL]),
             mk_BLog (level blog) (in_ blog) (Some b'), w')
    /\ stream b' w'
       = stream b w ++ tc_format tc ++ prefix lv ++ out0 ++ span ++ escapes false rest
           ++ span ++ PLACEHOLDER :: rest ++ [EOL].
Proof.
  intros Hb Hh Htag Hvf Hargs span.
  destruct (BLog_writef_dangling tc lv pre rest args blog b w Hb Hh Htag Hvf Hargs)
    as (out0 & b0 & w0 & b' & w' & H1 & H2 & H3 & H4).
  exists out0, b0, w0, b', w'.
  split; [exact H1|]. split; [apply H2|]. split; [exact H3|apply H4].
Qed.

Lemma unterminated_placeholder_repeats_literal_span_witness :
  writer demo_blog = Some demo_bufio /\ healthy demo_bufio demo_w = true
  /\ c_tag (ctl_scan 0 (B "id=%d done ") ctl_init) = false
  /\ verb_free (B " 100") = true
  /\ (placeholders (B "id=%d done ") <= length [AInt 7])%nat
  /\ exists out0 b0 w0 b' w',
      BLog_writef (LP:=demo_prefix) (F:=demo_Sprintf) demo_tc INFO (B "id=%d done ") [AInt 7]
        demo_blog demo_w
      = Ok (length (tc_format demo_tc ++ demo_prefix INFO ++ out0 ++ B " done " ++ [EOL]),
            mk_BLog (level demo_blog) (in_ demo_blog) (Some b0), w0)
      /\ stream b0 w0 = stream demo_bufio demo_w ++ tc_format demo_tc ++ demo_prefix INFO
                          ++ out0 ++ B " done " ++ [EOL]
      /\ BLog_writef (LP:=demo_prefix) (F:=demo_Sprintf) demo_tc INFO
           (B "id=%d done " ++ PLACEHOLDER :: B " 100") [AInt 7] demo_blog demo_w
         = Ok (length (tc_format demo_tc ++ demo_prefix INFO ++ out0 ++ B " done "
                         ++ escapes false (B " 100") ++ B " done "
                         ++ PLACEHOLDER :: B " 100" ++ [EOL]),
               mk_BLog (level demo_blog) (in_ demo_blog) (Some b'), w')
      /\ stream b' w'
         = stream demo_bufio demo_w ++ tc_format demo_tc ++ demo_prefix INFO ++ out0
             ++ B " done " ++ escapes false (B " 100") ++ B " done "
             ++ PLACEHOLDER :: B " 100" ++ [EOL].
Proof.
  assert (H1 : writer demo_blog = Some demo_bufio) by reflexivity.
  assert (H2 : healthy demo_bufio demo_w = true) by reflexivity.
  assert (H3 : c_tag (ctl_scan 0 (B "id=%d done ") ctl_init) = false) by reflexivity.
  assert (H4 : verb_free (B " 100") = true) by reflexivity.
  assert (H5 : (placeholders (B "id=%d done ") <= length [AInt 7])%nat) by (vm_compute; lia).
  split; [exact H1|]. split; [exact H2|]. split; [exact H3|]. split; [exact H4|].
  split; [exact H5|].
  exact (unterminated_placeholder_repeats_literal_span (LP:=demo_prefix) (F:=demo_Sprintf)
           demo_tc INFO (B "id=%d done ") (B " 100") [AInt 7] demo_blog demo_bufio demo_w
           H1 H2 H3 H4 H5).
Defined.

(* ===================================================================== *)
(** ** The rotations *)
(* ===================================================================== *)

(** C3, as amended.  A rotation by size or lines sets [currentSize] and
    [currentLines] to zero.  A rotation by time does not touch them: it
    sets the sequence number [sizeRotateTimes] to zero and nothing else
    of the counters. *)
Theorem counters_reset_by_size_rotation_not_by_time
    {LP : LevelPrefix} (tc : TimeCache) (fw : baseFileWriter) (w : World) :
  wired fw w = true ->
  (forall size q,
      logSizeChan fw = size :: q -> needRotate (add_size size fw) = true ->
      exists fw' w',
        daemon tc LogSize fw w = Ok (Continue, fw', w')
        /\ file fw' = (os_OpenFile (sizeRotateName tc (next_sequence (add_size size fw))) w).1.1
        /\ currentSize fw' = 0 /\ currentLines fw' = 0)
  /\ (forall now,
         timeRotated fw = true -> now <> tc_date tc ->
         exists fw' w',
           daemon tc (TimeTick now) fw w = Ok (Continue, fw', w')
           /\ file fw' = (os_OpenFile (timeRotateName tc fw) w).1.1
           /\ sizeRotateTimes fw' = 0
           /\ currentSize fw' = currentSize fw /\ currentLines fw' = currentLines fw).
Proof.
  intros Hw. split.
  - intros size q Hch Hrot.
    destruct (daemon_LogSize_rotates tc size q fw w Hw Hch Hrot)
      as (fw' & w' & Hd & _ & _ & _ & Hcs & Hcl & _ & Hf & _).
    by exists fw', w'.
  - intros now Ht Hnow.
    destruct (daemon_TimeTick_rotates tc now fw w Hw Ht Hnow)
      as (fw' & w' & Hd & _ & _ & _ & Hcs & Hcl & Hr & Hf & _).
    by exists fw', w'.
Qed.

Lemma counters_reset_by_size_rotation_not_by_time_witness :
  wired counting_fw counting_w = true
  /\ wired fourth_write_fw fourth_write_w = true
  /\ (exists fw' w',
         daemon demo_tc (TimeTick (B "2015-06-03")) counting_fw counting_w
         = Ok (Continue, fw', w')
         /\ file fw' = (os_OpenFile (timeRotateName demo_tc counting_fw) counting_w).1.1
         /\ sizeRotateTimes fw' = 0
         /\ currentSize fw' = currentSize counting_fw
         /\ currentLines fw' = currentLines counting_fw)
  /\ (exists fw' w',
         daemon demo_tc LogSize fourth_write_fw fourth_write_w = Ok (Continue, fw', w')
         /\ file fw' = (os_OpenFile
                          (sizeRotateName demo_tc (next_sequence (add_size 29 fourth_write_fw)))
                          fourth_write_w).1.1
         /\ currentSize fw' = 0 /\ currentLines fw' = 0).
Proof.
  assert (Hw : wired counting_fw counting_w = true) by (vm_compute; reflexivity).
  assert (Hw4 : wired fourth_write_fw fourth_write_w = true) by (vm_compute; reflexivity).
  assert (Ht : timeRotated counting_fw = true) by (vm_compute; reflexivity).
  assert (Hnow : B "2015-06-03" <> tc_date demo_tc) by discriminate.
  assert (Hch : logSizeChan fourth_write_fw = [29]) by (vm_compute; reflexivity).
  assert (Hrot : needRotate (add_size 29 fourth_write_fw) = true) by (vm_compute; reflexivity).
  split; [exact Hw|]. split; [exact Hw4|]. split.
  - exact (proj2 (counters_reset_by_size_rotation_not_by_time (LP:=demo_prefix)
                    demo_tc counting_fw counting_w Hw) (B "2015-06-03") Ht Hnow).
  - exact (proj1 (counters_reset_by_size_rotation_not_by_time (LP:=demo_prefix)
                    demo_tc fourth_write_fw fourth_write_w Hw4) 29 [] Hch Hrot).
Defined.

(** C3 fails as stated: after two records of 29 bytes, a rotation by
    time moves the writer from descriptor 0 to descriptor 1 and leaves
    58 bytes and 2 lines counted. *)
Lemma time_rotation_keeps_counters :
  is_Ok counting_run = true
  /\ file counting_fw = Some 0%nat
  /\ match daemon demo_tc (TimeTick (B "2015-06-03")) counting_fw counting_w with
     | Ok (_, fw', _) =>
       file fw' = Some 1%nat /\ currentSize fw' = 58 /\ currentLines fw' = 2
     | Stop _ => False
     end.
Proof. vm_compute. repeat split. Qed.

(** C4.  A write is counted when the daemon takes its size off the
    channel; the daemon rotates when a counter of a policy that is on has
    gone strictly above its threshold, and starts both counters again at
    zero.  Take any run of writes and of rounds of the daemon, from a
    writer with both counters at zero and rotation by size, by lines or
    by both on, the records having [s] bytes each when rotation by size
    is on, and let [K] be the number of writes counted at its end.  The
    daemon has rotated [K / p] times, where [p] is [T / s + 1] with size
    rotation alone and threshold [T], [L + 1] with line rotation alone
    and threshold [L], and the smaller of the two with both: the writes
    that rotate are the ones numbered [p], [2 * p], ..., so that with
    size rotation alone the write that brings the size to [T] exactly
    does not rotate, and with line rotation alone the write that brings
    the count of lines to [L] does not rotate and the next one does.
    The counters hold the [K mod p] records counted since the last
    rotation, and both are zero after a write that rotates.  The
    sequence number has gone up by one with every rotation; without a
    rotation the writer is on the file it had, and the descriptors are
    the ones there were.  In a world in which every file opens, every
    rotation has opened one descriptor more, and after a rotation the
    writer is on the last one, which is open on the name the rotation
    gave it. *)
Theorem rotation_once_the_threshold_is_exceeded
    {LP : LevelPrefix} (tc : TimeCache) (lv : Level) (s : Z) (steps : list step)
    (fw : baseFileWriter) (w : World) :
  wired fw w = true -> logSizeChan fw = [] ->
  currentSize fw = 0 -> currentLines fw = 0 ->
  0 <= sizeRotateTimes fw ->
  sizeRotateTimes fw + Z.of_nat (counted 0 steps) <= maxInt64 ->
  sizeRotated fw || lineRotated fw = true ->
  (sizeRotated fw = true ->
   0 < s /\ 0 <= rotateSize fw /\ rotateSize fw + s <= maxInt64
   /\ writes_of_size tc lv s steps) ->
  (lineRotated fw = true -> 0 <= rotateLines fw < maxInt64) ->
  let K := Z.of_nat (counted 0 steps) in
  let p := period s fw in
  exists fw' w',
    run_steps tc lv steps fw w = Ok (fw', w')
    /\ wired fw' w' = true
    /\ sizeRotateTimes fw' = sizeRotateTimes fw + K / p
    /\ (sizeRotated fw = true -> currentSize fw' = (K mod p) * s)
    /\ (lineRotated fw = true -> currentLines fw' = K mod p)
    /\ (K mod p = 0 -> currentSize fw' = 0 /\ currentLines fw' = 0)
    /\ (K / p = 0 -> file fw' = file fw /\ fds w' = fds w)
    /\ (denied w = ∅ ->
        length (fds w') = (length (fds w) + Z.to_nat (K / p))%nat
        /\ (0 < K / p ->
            file fw' = Some (length (fds w') - 1)%nat
            /\ fds w' !! (length (fds w') - 1)%nat
               = Some (mk_File (sizeRotateName tc fw') false))).
Proof.
  intros Hw Hch Hcs Hcl Hr Hrmax Hon Hsz Hln K p.
  assert (Hp : 0 < period s fw).
  { unfold period. destruct (sizeRotated fw) eqn:Es, (lineRotated fw) eqn:El;
      try discriminate Hon.
    - destruct (Hsz eq_refl) as (Hs & HT & _). pose proof (Hln eq_refl) as HL.
      pose proof (Z.div_pos (rotateSize fw) s HT Hs). lia.
    - destruct (Hsz eq_refl) as (Hs & HT & _).
      pose proof (Z.div_pos (rotateSize fw) s HT Hs). lia.
    - pose proof (Hln eq_refl) as HL. lia. }
  assert (Hcnt : counting s 0 fw).
  { split; [done|]. split; [lia|]. split; [|split; [|done]].
    - intros Es. destruct (Hsz Es) as (Hs & HT & Hmax & _).
      do 3 (split; [done|]). split; [lia|]. rewrite Hch. constructor.
    - intros El. split; [by apply Hln|done]. }
  destruct (steps_counted tc lv s steps fw w 0 Hw Hcnt)
    as (fw' & w' & Hrun & Hw' & Hpol & Hcnt' & Hr' & Hz' & Hworld);
    [intros Es; by destruct (Hsz Es) as (_ & _ & _ & Hall)|done|by rewrite Hch|].
  rewrite Hch in Hcnt', Hr', Hz', Hworld. cbn [length] in Hcnt', Hr', Hz', Hworld.
  rewrite Z.add_0_l in Hcnt', Hr', Hz', Hworld.
  fold K in Hcnt', Hr', Hz', Hworld. fold p in Hcnt', Hr', Hz', Hworld.
  destruct Hcnt' as (_ & _ & Hsz' & Hln' & H0').
  destruct Hpol as (_ & _ & _ & Hln1 & _ & Hsz1 & _).
  exists fw', w'. do 3 (split; [done|]).
  split; [intros Es; rewrite <- Hsz1 in Es; by destruct (Hsz' Es) as (_ & _ & _ & ? & _)|].
  split; [intros El; rewrite <- Hln1 in El; by destruct (Hln' El)|].
  split; [exact H0'|]. split; [exact Hz'|exact Hworld].
Qed.

Lemma rotation_once_the_threshold_is_exceeded_witness :
  (exists fw' w',
      run_steps (LP:=demo_prefix) demo_tc INFO five_writes size_fw demo_w = Ok (fw', w')
      /\ wired fw' w' = true
      /\ sizeRotateTimes fw'
         = sizeRotateTimes size_fw + Z.of_nat (counted 0 five_writes) / period 29 size_fw
      /\ (sizeRotated size_fw = true ->
          currentSize fw' = (Z.of_nat (counted 0 five_writes) mod period 29 size_fw) * 29)
      /\ (lineRotated size_fw = true ->
          currentLines fw' = Z.of_nat (counted 0 five_writes) mod period 29 size_fw)
      /\ (Z.of_nat (counted 0 five_writes) mod period 29 size_fw = 0 ->
          currentSize fw' = 0 /\ currentLines fw' = 0)
      /\ (Z.of_nat (counted 0 five_writes) / period 29 size_fw = 0 ->
          file fw' = file size_fw /\ fds w' = fds demo_w)
      /\ (denied demo_w = ∅ ->
          length (fds w')
          = (length (fds demo_w)
             + Z.to_nat (Z.of_nat (counted 0 five_writes) / period 29 size_fw))%nat
          /\ (0 < Z.of_nat (counted 0 five_writes) / period 29 size_fw ->
              file fw' = Some (length (fds w') - 1)%nat
              /\ fds w' !! (length (fds w') - 1)%nat
                 = Some (mk_File (sizeRotateName demo_tc fw') false))))
  /\ (exists fw' w',
      run_steps (LP:=demo_prefix) demo_tc INFO five_writes lines_fw demo_w = Ok (fw', w')
      /\ wired fw' w' = true
      /\ sizeRotateTimes fw'
         = sizeRotateTimes lines_fw + Z.of_nat (counted 0 five_writes) / period 29 lines_fw
      /\ (sizeRotated lines_fw = true ->
          currentSize fw' = (Z.of_nat (counted 0 five_writes) mod period 29 lines_fw) * 29)
      /\ (lineRotated lines_fw = true ->
          currentLines fw' = Z.of_nat (counted 0 five_writes) mod period 29 lines_fw)
      /\ (Z.of_nat (counted 0 five_writes) mod period 29 lines_fw = 0 ->
          currentSize fw' = 0 /\ currentLines fw' = 0)
      /\ (Z.of_nat (counted 0 five_writes) / period 29 lines_fw = 0 ->
          file fw' = file lines_fw /\ fds w' = fds demo_w)
      /\ (denied demo_w = ∅ ->
          length (fds w')
          = (length (fds demo_w)
             + Z.to_nat (Z.of_nat (counted 0 five_writes) / period 29 lines_fw))%nat
          /\ (0 < Z.of_nat (counted 0 five_writes) / period 29 lines_fw ->
              file fw' = Some (length (fds w') - 1)%nat
              /\ fds w' !! (length (fds w') - 1)%nat
                 = Some (mk_File (sizeRotateName demo_tc fw') false))))
  /\ (exists fw' w',
      run_steps (LP:=demo_prefix) demo_tc INFO five_writes both_fw demo_w = Ok (fw', w')
      /\ wired fw' w' = true
      /\ sizeRotateTimes fw'
         = sizeRotateTimes both_fw + Z.of_nat (counted 0 five_writes) / period 29 both_fw
      /\ (sizeRotated both_fw = true ->
          currentSize fw' = (Z.of_nat (counted 0 five_writes) mod period 29 both_fw) * 29)
      /\ (lineRotated both_fw = true ->
          currentLines fw' = Z.of_nat (counted 0 five_writes) mod period 29 both_fw)
      /\ (Z.of_nat (counted 0 five_writes) mod period 29 both_fw = 0 ->
          currentSize fw' = 0 /\ currentLines fw' = 0)
      /\ (Z.of_nat (counted 0 five_writes) / period 29 both_fw = 0 ->
          file fw' = file both_fw /\ fds w' = fds demo_w)
      /\ (denied demo_w = ∅ ->
          length (fds w')
          = (length (fds demo_w)
             + Z.to_nat (Z.of_nat (counted 0 five_writes) / period 29 both_fw))%nat
          /\ (0 < Z.of_nat (counted 0 five_writes) / period 29 both_fw ->
              file fw' = Some (length (fds w') - 1)%nat
              /\ fds w' !! (length (fds w') - 1)%nat
                 = Some (mk_File (sizeRotateName demo_tc fw') false)))).
Proof.
  assert (Hsizes : writes_of_size (LP:=demo_prefix) demo_tc INFO 29 five_writes)
    by (repeat constructor).
  assert (Hmax : 58 + 29 <= maxInt64) by (vm_compute; discriminate).
  assert (Hseq : forall fw, sizeRotateTimes fw = 0 ->
            sizeRotateTimes fw + Z.of_nat (counted 0 five_writes) <= maxInt64)
    by (intros fw ->; vm_compute; discriminate).
  split; [|split].
  - refine (rotation_once_the_threshold_is_exceeded (LP:=demo_prefix) demo_tc INFO 29
              five_writes size_fw demo_w _ _ _ _ _ (Hseq size_fw eq_refl) _ _ _);
      try reflexivity; try (vm_compute; discriminate).
    intros _. split; [reflexivity|]. split; [vm_compute; discriminate|]. by split.
  - refine (rotation_once_the_threshold_is_exceeded (LP:=demo_prefix) demo_tc INFO 29
              five_writes lines_fw demo_w _ _ _ _ _ (Hseq lines_fw eq_refl) _ _ _);
      try reflexivity; try (vm_compute; discriminate).
    intros _. split; vm_compute; [discriminate|reflexivity].
  - refine (rotation_once_the_threshold_is_exceeded (LP:=demo_prefix) demo_tc INFO 29
              five_writes both_fw demo_w _ _ _ _ _ (Hseq both_fw eq_refl) _ _ _);
      try reflexivity; try (vm_compute; discriminate).
    + intros _. split; [reflexivity|]. split; [vm_compute; discriminate|]. by split.
    + intros _. split; vm_compute; [discriminate|reflexivity].
Defined.

(** C5 (the code at the failing input).  The comment of the field
    [sizeRotateTimes] gives the suffixes as [xxx.1, xxx.2], and the [N]-th
    rotation by size or lines is to open [<base>.<N>].  The daemon adds
    one to the sequence number and [resetFile] formats the sequence number
    plus one: the first rotation by lines of a fresh writer on [app.log]
    leaves the sequence number at 1 and opens [app.log.2], and there is no
    [app.log.1]. *)
Lemma first_size_rotation_opens_suffix_2 :
  is_Ok fourth_write_run = true
  /\ sizeRotateTimes fourth_write_fw = 0
  /\ match daemon demo_tc LogSize fourth_write_fw fourth_write_w with
     | Ok (_, fw', w') =>
       sizeRotateTimes fw' = 1
       /\ option_map f_name (fd ← file fw'; fds w' !! fd) = Some (B "app.log.2")
       /\ disk w' !! B "app.log.1" = None
     | Stop _ => False
     end.
Proof. vm_compute. repeat split. Qed.

(** C6, as amended.  When the file of a rotation cannot be opened, the
    daemon goes on as if it had been: the error is dropped, the old file
    is closed, and the writer and its BLog are left with a nil file.
    Nothing was written to the disk by the rotation, and nothing written
    to the writer after it reaches the disk, until a rotation opens a
    file. *)
Theorem failed_open_leaves_a_nil_file
    {LP : LevelPrefix} {Arg : Type} {F : Formatter Arg}
    (tc : TimeCache) (fw : baseFileWriter) (w : World) :
  wired fw w = true ->
  let lost (fw' : baseFileWriter) (w' : World) : Prop :=
    file fw' = None /\ wired fw' w' = true
    /\ writable (file fw) w' = false /\ disk w' = disk w
    /\ (forall lv message, exists fw'',
           write tc lv message fw' w' = Ok (fw'', w')
           /\ wired fw'' w' = true /\ file fw'' = None)
    /\ (forall lv format (args : list Arg) fw'' w'',
           writef tc lv format args fw' w' = Ok (fw'', w'') ->
           w'' = w' /\ wired fw'' w' = true /\ file fw'' = None)
    /\ (exists fw'', flush fw' w' = Ok (fw'', w')
                     /\ wired fw'' w' = true /\ file fw'' = None) in
  (forall now,
      timeRotated fw = true -> now <> tc_date tc ->
      timeRotateName tc fw ∈ denied w ->
      exists fw' w', daemon tc (TimeTick now) fw w = Ok (Continue, fw', w') /\ lost fw' w')
  /\ (forall size q,
         logSizeChan fw = size :: q -> needRotate (add_size size fw) = true ->
         sizeRotateName tc (next_sequence (add_size size fw)) ∈ denied w ->
         exists fw' w', daemon tc LogSize fw w = Ok (Continue, fw', w') /\ lost fw' w').
Proof.
  intros Hw lost.
  assert (Hlost : forall name fw' w',
             name ∈ denied w -> wired fw' w' = true ->
             file fw' = (os_OpenFile name w).1.1 ->
             w' = (File_Close (file fw) (os_OpenFile name w).2).2 -> lost fw' w').
  { intros name fw' w' Hd Hw' Hf Hworld.
    destruct (rotation_world_denied name (file fw) w Hd) as (Hnil & Hdisk & Hnw).
    rewrite Hnil in Hf. rewrite <- Hworld in Hdisk, Hnw.
    unfold lost. do 4 (split; [done|]). by apply lost_sink. }
  split.
  - intros now Ht Hnow Hd.
    destruct (daemon_TimeTick_rotates tc now fw w Hw Ht Hnow)
      as (fw' & w' & Hstep & Hw' & _ & _ & _ & _ & _ & Hf & Hworld & _).
    exists fw', w'. split; [done|]. by eapply Hlost.
  - intros size q Hch Hrot Hd.
    destruct (daemon_LogSize_rotates tc size q fw w Hw Hch Hrot)
      as (fw' & w' & Hstep & Hw' & _ & _ & _ & _ & _ & Hf & Hworld & _).
    exists fw', w'. split; [done|]. by eapply Hlost.
Qed.

Lemma failed_open_leaves_a_nil_file_witness :
  wired ro_fourth_write_fw ro_fourth_write_w = true
  /\ exists fw' w',
      daemon demo_tc LogSize ro_fourth_write_fw ro_fourth_write_w = Ok (Continue, fw', w')
      /\ file fw' = None /\ wired fw' w' = true
      /\ writable (file ro_fourth_write_fw) w' = false
      /\ disk w' = disk ro_fourth_write_w.
Proof.
  assert (Hw : wired ro_fourth_write_fw ro_fourth_write_w = true)
    by (vm_compute; reflexivity).
  assert (Hch : logSizeChan ro_fourth_write_fw = [29])
    by (vm_compute; reflexivity).
  assert (Hrot : needRotate (add_size 29 ro_fourth_write_fw) = true)
    by (vm_compute; reflexivity).
  assert (Hd : sizeRotateName demo_tc (next_sequence (add_size 29 ro_fourth_write_fw))
               ∈ denied ro_fourth_write_w)
    by (vm_compute; set_solver).
  split; [exact Hw|].
  destruct (proj2 (failed_open_leaves_a_nil_file (LP:=demo_prefix) (F:=demo_Sprintf)
                     demo_tc ro_fourth_write_fw ro_fourth_write_w Hw) 29 [] Hch Hrot Hd)
    as (fw' & w' & Hstep & Hnil & Hw' & Hnw & Hdisk & _).
  exists fw', w'. split; [exact Hstep|]. split; [exact Hnil|]. split; [exact Hw'|].
  split; [exact Hnw|exact Hdisk].
Defined.

(** C6 fails as stated: the rotation after the fourth record cannot open
    [app.log.2]; the daemon goes on, the writer is left without a file,
    [app.log] is closed, and a fifth record and a flush leave [app.log]
    empty. *)
Lemma failed_open_loses_the_file_and_the_writes :
  is_Ok ro_fourth_write_run = true
  /\ file ro_fourth_write_fw = Some 0%nat
  /\ match daemon demo_tc LogSize ro_fourth_write_fw ro_fourth_write_w with
     | Ok (o, fw1, w1) =>
       o = Continue /\ file fw1 = None /\ fds w1 = [mk_File (B "app.log") true]
       /\ match write (LP:=demo_prefix) demo_tc INFO (B "e") fw1 w1 with
          | Ok (fw2, w2) =>
            match flush fw2 w2 with
            | Ok (fw3, w3) => file fw3 = None /\ disk w3 !! B "app.log" = Some []
            | Stop _ => False
            end
          | Stop _ => False
          end
     | Stop _ => False
     end.
Proof. vm_compute. repeat split. Qed.

(* ===================================================================== *)
(** ** Closing and configuring the writer *)
(* ===================================================================== *)

(** C8 (the code at the failing input).  A write after [Close] is to be
    a silent no-op, and [write] and [writef] return early on a closed
    writer; but their deferred send is not guarded by [closed].  A
    writer with rotation by lines on is closed, and the daemon leaves
    its loop at its next tick.  Each of the first 4096 writes after
    [Close] leaves the world as it is and puts a size 0 in the channel,
    which nothing receives any more; the channel is then full, and the
    next [write] or [writef] does not return. *)
Theorem write_after_Close_blocks_on_a_full_channel :
  Close (SetRotateLines 3 demo_fw) demo_w = Ok (late_fw, late_w)
  /\ closed late_fw = true /\ logSizeChan late_fw = []
  /\ daemon demo_tc FlushTick late_fw late_w = Ok (Break, late_fw, late_w)
  /\ late_run = Ok (full_fw, late_w)
  /\ logSizeChan full_fw = repeat 0 logSizeChanCap
  /\ write (LP:=demo_prefix) demo_tc INFO (B "late") full_fw late_w = Blocked
  /\ writef (LP:=demo_prefix) (F:=demo_Sprintf) demo_tc INFO (B "late %d") [AInt 1]
       full_fw late_w = Blocked.
Proof. vm_compute. repeat split. Qed.

(** C9.  Each of the three setters changes the flag and the threshold of
    its own policy and nothing else of the writer: the flag and the
    threshold of the two other policies, the counters and the sequence
    number are as they were. *)
Theorem setters_touch_their_own_policy_only (fw : baseFileWriter) :
  (forall t,
      timeRotated (SetTimeRotated t fw) = t
      /\ sizeRotated (SetTimeRotated t fw) = sizeRotated fw
      /\ rotateSize (SetTimeRotated t fw) = rotateSize fw
      /\ lineRotated (SetTimeRotated t fw) = lineRotated fw
      /\ rotateLines (SetTimeRotated t fw) = rotateLines fw
      /\ currentSize (SetTimeRotated t fw) = currentSize fw
      /\ currentLines (SetTimeRotated t fw) = currentLines fw
      /\ sizeRotateTimes (SetTimeRotated t fw) = sizeRotateTimes fw)
  /\ (forall size,
         sizeRotated (SetRotateSize size fw) = bool_decide (0 < size)
         /\ rotateSize (SetRotateSize size fw) = (if bool_decide (0 < size) then size
                                                  else rotateSize fw)
         /\ timeRotated (SetRotateSize size fw) = timeRotated fw
         /\ lineRotated (SetRotateSize size fw) = lineRotated fw
         /\ rotateLines (SetRotateSize size fw) = rotateLines fw
         /\ currentSize (SetRotateSize size fw) = currentSize fw
         /\ currentLines (SetRotateSize size fw) = currentLines fw
         /\ sizeRotateTimes (SetRotateSize size fw) = sizeRotateTimes fw)
  /\ (forall lines,
         lineRotated (SetRotateLines lines fw) = bool_decide (0 < lines)
         /\ rotateLines (SetRotateLines lines fw) = (if bool_decide (0 < lines) then lines
                                                     else rotateLines fw)
         /\ timeRotated (SetRotateLines lines fw) = timeRotated fw
         /\ sizeRotated (SetRotateLines lines fw) = sizeRotated fw
         /\ rotateSize (SetRotateLines lines fw) = rotateSize fw
         /\ currentSize (SetRotateLines lines fw) = currentSize fw
         /\ currentLines (SetRotateLines lines fw) = currentLines fw
         /\ sizeRotateTimes (SetRotateLines lines fw) = sizeRotateTimes fw).
Proof.
  split; [|split].
  - intros t. by repeat split.
  - intros size. unfold SetRotateSize.
    destruct (Z.ltb_spec 0 size).
    + rewrite bool_decide_true by done. by repeat split.
    + rewrite bool_decide_false by lia. by repeat split.
  - intros lines. unfold SetRotateLines.
    destruct (Z.ltb_spec 0 lines).
    + rewrite bool_decide_true by done. by repeat split.
    + rewrite bool_decide_false by lia. by repeat split.
Qed.

(* ===================================================================== *)
(** ** More on the scanner of writef *)
(* ===================================================================== *)

Lemma format_of_app ps tail : format_of ps tail = format_of ps [] ++ tail.
Proof.
  induction ps as [|p ps IH]; [done|]. cbn [format_of]. by rewrite IH, <- app_assoc.
Qed.

Section Pieces.
Context {LP : LevelPrefix} {Arg : Type} {F : Formatter Arg}.

(** Outside a placeholder, over bytes that hold no [%], the scanner
    writes nothing and keeps its state. *)
Lemma writef_bytes_literal (args : list Arg) s : forall pre post st b w,
  v_tag st = false -> percent_free s = true ->
  writef_bytes (pre ++ s ++ post) args (length pre) s st b w = Ok (st, b, w).
Proof.
  induction s as [|c s IH]; intros pre post st b w Ht Hpf; [done|].
  cbn in Hpf. apply andb_true_iff in Hpf as [Hc Hpf]. apply negb_true_iff in Hc.
  cbn [writef_bytes]. unfold writef_body at 1. rewrite Ht. unfold index.
  rewrite lookup_app_r, Nat.sub_diag by lia. cbn [app lookup list_lookup].
  rewrite bind_Ok, Hc. cbn [andb]. rewrite bind_Ok. cbv beta iota.
  replace (pre ++ c :: s ++ post) with ((pre ++ [c]) ++ s ++ post) by (by rewrite <- app_assoc).
  replace (S (length pre)) with (length (pre ++ [c])) by (rewrite length_app; cbn; lia).
  by apply IH.
Qed.

(** Inside a placeholder, over bytes that are neither a verb nor a
    backslash, the scanner writes nothing and keeps its state. *)
Lemma writef_bytes_flags format (args : list Arg) s : forall i st b w,
  v_tag st = true -> plain_flags s = true ->
  writef_bytes format args i s st b w = Ok (st, b, w).
Proof.
  induction s as [|c s IH]; intros i st b w Ht Hpl; [done|].
  cbn in Hpl. apply andb_true_iff in Hpl as [Hc Hpl]. apply andb_true_iff in Hc as [Hv He].
  apply negb_true_iff in Hv, He.
  cbn [writef_bytes]. unfold writef_body at 1. rewrite Ht, Hv, He, bind_Ok. cbv beta iota.
  by apply IH.
Qed.

(** More arguments do not change a round that returns. *)
Lemma writef_body_more_args format (args extra : list Arg) i v st b w r :
  writef_body format args i v st b w = Ok r ->
  writef_body format (args ++ extra) i v st b w = Ok r.
Proof.
  unfold writef_body. destruct (v_tag st); [|done].
  destruct (is_verb v); [|done].
  destruct (slice _ _ _) as [f|]; [|done]. rewrite !bind_Ok. unfold index.
  destruct (args !! v_n st) as [a|] eqn:Ha; [|done].
  by rewrite (lookup_app_l_Some _ _ _ _ Ha).
Qed.

Lemma writef_loop_more_args format (args extra : list Arg) rs : forall st b w r,
  writef_loop format args rs st b w = Ok r ->
  writef_loop format (args ++ extra) rs st b w = Ok r.
Proof.
  induction rs as [|[i v] rs IH]; intros st b w r; cbn [writef_loop]; [done|].
  destruct (writef_body format args i v st b w) as [[[st1 b1] w1]|] eqn:Hbody; [|done].
  rewrite (writef_body_more_args _ _ extra _ _ _ _ _ _ Hbody), !bind_Ok. cbv beta iota.
  apply IH.
Qed.

Lemma BLog_writef_more_args tc lv format (args extra : list Arg) blog w r :
  BLog_writef tc lv format args blog w = Ok r ->
  BLog_writef tc lv format (args ++ extra) blog w = Ok r.
Proof.
  unfold BLog_writef. destruct (writer blog) as [b|]; [|done].
  destruct (bufio_Write _ b w) as [[[? ?] bx] wx].
  destruct (bufio_WriteString _ bx wx) as [[[? ?] b1] w1].
  destruct (writef_loop format args _ _ b1 w1) as [[[st1 b2] w2]|] eqn:Hloop; [|done].
  by rewrite (writef_loop_more_args _ _ extra _ _ _ _ _ Hloop).
Qed.

(** The scan of one piece: the literal text goes out when the [%] is
    met, the placeholder when its verb is met. *)
Lemma writef_bytes_piece (args : list Arg) p pre post st b w a :
  well_formed p = true -> healthy b w = true ->
  v_tag st = false -> v_escape st = false -> v_last st = length pre ->
  args !! v_n st = Some a ->
  exists st' b' w',
    writef_bytes (pre ++ piece_text p ++ post) args (length pre) (piece_text p) st b w
    = Ok (st', b', w')
    /\ v_tag st' = false /\ v_escape st' = false
    /\ v_last st' = length (pre ++ piece_text p)
    /\ v_n st' = S (v_n st)
    /\ v_size st' = (v_size st + length (p_lit p ++ Sprintf (piece_spec p) a))%nat
    /\ accepts (p_lit p ++ Sprintf (piece_spec p) a) b w b' w'.
Proof.
  intros Hwf Hh Ht He Hl Ha. unfold well_formed in Hwf.
  apply andb_true_iff in Hwf as [Hwf Hverb]. apply andb_true_iff in Hwf as [Hlit Hflags].
  destruct p as [lit flags verb]. cbn [p_lit p_flags p_verb] in *.
  unfold piece_text, piece_spec. cbn [p_lit p_flags p_verb].
  set (spec := PLACEHOLDER :: flags ++ [verb]).
  set (format := pre ++ (lit ++ spec) ++ post).
  assert (Hfmt : format = pre ++ lit ++ spec ++ post) by (unfold format; by rewrite <- app_assoc).
  (* the literal text *)
  rewrite writef_bytes_app.
  pose proof (writef_bytes_literal args lit pre (spec ++ post) st b w Ht Hlit) as Hrun1.
  rewrite <- Hfmt in Hrun1. rewrite Hrun1, bind_Ok. cbv beta iota.
  (* the round at the [%] *)
  destruct (bufio_WriteString_healthy lit b w Hh) as (b1 & w1 & Hw1 & Ha1).
  set (i1 := (length pre + length lit)%nat).
  assert (Hopen : writef_body format args i1 (byte_val PLACEHOLDER) st b w
                  = Ok (mk_scan true i1 false (v_n st) (v_last st)
                          (v_size st + length lit), b1, w1)).
  { unfold writef_body, index. rewrite Ht, He, Hfmt.
    rewrite lookup_app_r by (unfold i1; lia).
    rewrite lookup_app_r by (unfold i1; lia).
    replace (i1 - length pre - length lit)%nat with 0%nat by (unfold i1; lia).
    cbn [app spec lookup list_lookup]. rewrite bind_Ok, bool_decide_true by done.
    cbn [andb negb]. rewrite slice_ok by (rewrite ?length_app; unfold i1; lia).
    rewrite bind_Ok, Hl.
    replace (i1 - length pre)%nat with (length lit) by (unfold i1; lia).
    rewrite drop_app_length, take_app_length. by rewrite Hw1. }
  change (writef_bytes format args i1 spec st b w)
    with (writef_bytes format args i1 (PLACEHOLDER :: (flags ++ [verb])) st b w).
  cbn [writef_bytes]. rewrite Hopen, bind_Ok. cbv beta iota.
  (* the flags *)
  rewrite writef_bytes_app.
  rewrite (writef_bytes_flags format args flags) by done.
  rewrite bind_Ok. cbv beta iota.
  (* the round at the verb *)
  destruct (bufio_WriteString_healthy (Sprintf spec a) b1 w1 (proj1 Ha1)) as (b2 & w2 & Hw2 & Ha2).
  cbn [writef_bytes]. unfold writef_body at 1. cbn [v_tag v_tagPos v_n v_size v_last v_escape].
  rewrite Hverb.
  assert (Hslice : slice format i1 (S i1 + length flags + 1) = Ok spec).
  { rewrite Hfmt, slice_ok by (rewrite ?length_app; unfold spec, i1; cbn; rewrite ?length_app; cbn; lia).
    f_equal. rewrite app_assoc. unfold i1. rewrite <- length_app, drop_app_length.
    replace (S (length (pre ++ lit)) + length flags + 1 - length (pre ++ lit))%nat
      with (length spec) by (unfold spec; cbn; rewrite length_app; cbn; lia).
    by rewrite take_app_length. }
  rewrite Hslice, bind_Ok. unfold index. rewrite Ha, bind_Ok, Hw2, bind_Ok. cbv beta iota.
  eexists _, _, _. split; [reflexivity|]. cbn [v_tag v_escape v_last v_n v_size].
  do 2 (split; [done|]). split.
  { rewrite !length_app. unfold spec, i1. cbn. rewrite length_app. cbn. lia. }
  split; [lia|]. split.
  { rewrite length_app. lia. }
  by eapply accepts_trans.
Qed.

(** The scan of the pieces of a format. *)
Lemma writef_bytes_pieces ps : forall pre tail (given args : list Arg) st b w,
  Forall (fun p => well_formed p = true) ps -> healthy b w = true ->
  v_tag st = false -> v_escape st = false -> v_last st = length pre ->
  v_n st = length given -> (length ps <= length args)%nat ->
  exists st' b' w',
    writef_bytes (pre ++ format_of ps [] ++ tail) (given ++ args) (length pre)
      (format_of ps []) st b w = Ok (st', b', w')
    /\ v_tag st' = false
    /\ v_last st' = length (pre ++ format_of ps [])
    /\ v_size st' = (v_size st + length (render ps args))%nat
    /\ accepts (render ps args) b w b' w'.
Proof.
  induction ps as [|p ps IH]; intros pre tail given args st b w Hwf Hh Ht He Hl Hn Hlen.
  - exists st, b, w. cbn. rewrite app_nil_r, Nat.add_0_r.
    do 3 (split; [done|]). split; [done|]. by apply accepts_refl.
  - apply Forall_cons_1 in Hwf as [Hp Hwf]. cbn beta in Hp.
    destruct args as [|a args]; [cbn in Hlen; lia|]. cbn [length] in Hlen.
    cbn [format_of render]. rewrite writef_bytes_app.
    assert (Ha : (given ++ a :: args) !! v_n st = Some a).
    { by rewrite Hn, lookup_app_r, Nat.sub_diag by lia. }
    destruct (writef_bytes_piece (given ++ a :: args) p pre (format_of ps [] ++ tail)
                st b w a Hp Hh Ht He Hl Ha)
      as (st1 & b1 & w1 & Hrun1 & Ht1 & He1 & Hl1 & Hn1 & Hs1 & Ha1).
    rewrite <- app_assoc. rewrite Hrun1, bind_Ok. cbv beta iota.
    replace (length pre + length (piece_text p))%nat with (length (pre ++ piece_text p))
      by (by rewrite length_app).
    destruct (IH (pre ++ piece_text p) tail (given ++ [a]) args st1 b1 w1 Hwf (proj1 Ha1)
                Ht1 He1 Hl1) as (st2 & b2 & w2 & Hrun2 & Ht2 & Hl2 & Hs2 & Ha2).
    { rewrite Hn1, Hn, length_app. cbn. lia. }
    { lia. }
    rewrite <- !app_assoc in Hrun2. cbn [app] in Hrun2. rewrite Hrun2.
    eexists _, _, _. split; [reflexivity|]. split; [done|]. split.
    { by rewrite Hl2, <- app_assoc. }
    split.
    { rewrite Hs2, Hs1, !length_app. lia. }
    pose proof (accepts_trans _ _ _ _ _ _ _ _ Ha1 Ha2) as Hacc.
    by rewrite <- app_assoc in Hacc.
Qed.

End Pieces.

(** X1.  A format without a [%] is a message: [writef] writes what
    [write] writes and returns the same size, whatever the arguments and
    whatever the state of the bufio writer.  Bytes outside ASCII and
    backslashes are copied as they are. *)
Theorem writef_without_placeholder_is_write
    {LP : LevelPrefix} {Arg : Type} {F : Formatter Arg}
    (tc : TimeCache) (lv : Level) (format : bytes) (args : list Arg)
    (blog : BLog) (w : World) :
  percent_free format = true ->
  BLog_writef tc lv format args blog w = BLog_write tc lv format blog w.
Proof.
  intros Hpf. unfold BLog_writef, BLog_write. destruct (writer blog) as [b|]; [|done].
  destruct (bufio_Write _ b w) as [[[? ?] bx] wx].
  destruct (bufio_WriteString _ bx wx) as [[[? ?] b1] w1].
  rewrite writef_loop_bytes.
  match goal with
  | |- context [writef_bytes _ _ _ _ ?st _ _] =>
    pose proof (writef_bytes_literal args format [] [] st b1 w1 eq_refl Hpf) as Hrun
  end.
  rewrite app_nil_r in Hrun. cbn [app length] in Hrun. rewrite Hrun, bind_Ok. cbv beta iota.
  cbn [v_last v_size]. rewrite slice_from_ok, bind_Ok by lia. rewrite drop_0.
  destruct (bufio_WriteString format b1 w1) as [[[? ?] b2] w2].
  destruct (bufio_WriteByte EOL b2 w2) as [[? b3] w3].
  do 3 f_equal. lia.
Qed.

Lemma writef_without_placeholder_is_write_witness :
  percent_free (B "disk 80 full\n") = true
  /\ BLog_writef (LP:=demo_prefix) (F:=demo_Sprintf) demo_tc WARN (B "disk 80 full\n")
       [AInt 80] demo_blog demo_w
     = BLog_write (LP:=demo_prefix) demo_tc WARN (B "disk 80 full\n") demo_blog demo_w.
Proof.
  split; [reflexivity|].
  apply (writef_without_placeholder_is_write (LP:=demo_prefix) (F:=demo_Sprintf)
           demo_tc WARN (B "disk 80 full\n") [AInt 80] demo_blog demo_w).
  reflexivity.
Defined.

(** X2.  On a format made of pieces (literal text without [%], then a
    [%], flags that hold neither a verb nor a backslash, and a verb) and
    of a last stretch of text without [%], with an argument for every
    piece and a bufio writer that takes bytes, [writef] writes the time
    stamp, the prefix, every literal text followed by [Sprintf] of its
    placeholder and argument, the last stretch and the line end, and it
    returns the length of that record. *)
Theorem writef_renders_the_pieces
    {LP : LevelPrefix} {Arg : Type} {F : Formatter Arg}
    (tc : TimeCache) (lv : Level) (ps : list piece) (tail : bytes) (args : list Arg)
    (blog : BLog) (b : bufio_Writer) (w : World) :
  writer blog = Some b -> healthy b w = true ->
  Forall (fun p => well_formed p = true) ps -> percent_free tail = true ->
  (length ps <= length args)%nat ->
  exists b' w',
    BLog_writef tc lv (format_of ps tail) args blog w
    = Ok (length (record tc lv (render ps args ++ tail)),
          mk_BLog (level blog) (in_ blog) (Some b'), w')
    /\ accepts (record tc lv (render ps args ++ tail)) b w b' w'.
Proof.
  intros Hb Hh Hwf Htail Hlen. unfold BLog_writef. rewrite Hb.
  destruct (header_healthy tc lv b w Hh) as (b1 & w1 & -> & Ha1).
  rewrite writef_loop_bytes. fold (scan_init tc lv).
  rewrite format_of_app. rewrite writef_bytes_app.
  destruct (writef_bytes_pieces ps [] tail [] args (scan_init tc lv) b1 w1 Hwf (proj1 Ha1))
    as (st2 & b2 & w2 & Hrun2 & Ht2 & Hl2 & Hs2 & Ha2); [done..|].
  cbn [app length] in Hrun2, Hl2. rewrite Hrun2, bind_Ok. cbv beta iota.
  pose proof (writef_bytes_literal args tail (format_of ps []) [] st2 b2 w2 Ht2 Htail) as Hrun3.
  rewrite app_nil_r in Hrun3. cbn [Nat.add]. rewrite Hrun3, bind_Ok. cbv beta iota.
  rewrite slice_from_ok, bind_Ok by (rewrite Hl2, length_app; lia).
  rewrite Hl2, drop_app_length.
  destruct (trailer_healthy tail b2 w2 (proj1 Ha2)) as (b3 & w3 & -> & Ha3).
  exists b3, w3. unfold record. split.
  - do 3 f_equal. rewrite Hs2. cbn [scan_init v_size]. rewrite !length_app. cbn. lia.
  - pose proof (accepts_trans _ _ _ _ _ _ _ _ (accepts_trans _ _ _ _ _ _ _ _ Ha1 Ha2) Ha3) as Ha.
    rewrite <- !app_assoc in Ha. rewrite <- !app_assoc. exact Ha.
Qed.

Lemma writef_renders_the_pieces_witness :
  writer demo_blog = Some demo_bufio /\ healthy demo_bufio demo_w = true
  /\ Forall (fun p => well_formed p = true) demo_pieces /\ percent_free (B " up") = true
  /\ (length demo_pieces <= length demo_args)%nat
  /\ exists b' w',
    BLog_writef (LP:=demo_prefix) (F:=demo_Sprintf) demo_tc INFO (format_of demo_pieces (B " up"))
      demo_args demo_blog demo_w
    = Ok (length (record (LP:=demo_prefix) demo_tc INFO
                    (render (F:=demo_Sprintf) demo_pieces demo_args ++ B " up")),
          mk_BLog (level demo_blog) (in_ demo_blog) (Some b'), w')
    /\ accepts (record (LP:=demo_prefix) demo_tc INFO
                  (render (F:=demo_Sprintf) demo_pieces demo_args ++ B " up"))
         demo_bufio demo_w b' w'.
Proof.
  assert (Hwf : Forall (fun p => well_formed p = true) demo_pieces) by (repeat constructor).
  assert (Hlen : (length demo_pieces <= length demo_args)%nat) by (cbn; lia).
  split; [reflexivity|]. split; [reflexivity|]. split; [exact Hwf|].
  split; [reflexivity|]. split; [exact Hlen|].
  exact (writef_renders_the_pieces (LP:=demo_prefix) (F:=demo_Sprintf) demo_tc INFO demo_pieces
           (B " up") demo_args demo_blog demo_bufio demo_w eq_refl eq_refl Hwf eq_refl Hlen).
Defined.

(** X3.  Arguments in excess are never read: with an argument for every
    placeholder that a verb closes, further arguments change neither
    what [writef] writes nor what it returns. *)
Theorem writef_ignores_surplus_arguments
    {LP : LevelPrefix} {Arg : Type} {F : Formatter Arg}
    (tc : TimeCache) (lv : Level) (format : bytes) (args extra : list Arg)
    (blog : BLog) (w : World) :
  (placeholders format <= length args)%nat ->
  BLog_writef tc lv format (args ++ extra) blog w = BLog_writef tc lv format args blog w.
Proof.
  intros Hlen. destruct (writer blog) as [b|] eqn:Hb.
  - pose proof (BLog_writef_outcome tc lv format args blog b w Hb) as Hout.
    rewrite (proj2 (Nat.leb_le _ _) Hlen) in Hout.
    destruct (BLog_writef tc lv format args blog w) as [r|] eqn:Hr; [|done].
    by apply BLog_writef_more_args.
  - unfold BLog_writef. by rewrite Hb.
Qed.

Lemma writef_ignores_surplus_arguments_witness :
  (placeholders (B "%s took %d ms") <= length [AStr (B "GET"); AInt 12])%nat
  /\ BLog_writef (LP:=demo_prefix) (F:=demo_Sprintf) demo_tc INFO (B "%s took %d ms")
       ([AStr (B "GET"); AInt 12] ++ [AInt 99; AStr (B "x")]) demo_blog demo_w
     = BLog_writef (LP:=demo_prefix) (F:=demo_Sprintf) demo_tc INFO (B "%s took %d ms")
         [AStr (B "GET"); AInt 12] demo_blog demo_w.
Proof.
  assert (Hlen : (placeholders (B "%s took %d ms") <= length [AStr (B "GET"); AInt 12])%nat)
    by (vm_compute; lia).
  split; [exact Hlen|].
  exact (writef_ignores_surplus_arguments (LP:=demo_prefix) (F:=demo_Sprintf) demo_tc INFO
           (B "%s took %d ms") [AStr (B "GET"); AInt 12] [AInt 99; AStr (B "x")]
           demo_blog demo_w Hlen).
Defined.

(** [newBaseFileWriter] on a path that opens. *)
Lemma newBaseFileWriter_ok size name w :
  name ∉ denied w ->
  exists w',
    newBaseFileWriter size name w
    = (mk_baseFileWriter name (Some (length (fds w)))
         (Some (NewBLog size (Some (length (fds w))))) false
         false false DefaultRotateLines 0 false DefaultRotateSize 0 0 [] false, None, w')
    /\ fds w' = fds w ++ [mk_File name false] /\ denied w' = denied w
    /\ (forall other, other <> name -> disk w' !! other = disk w !! other)
    /\ contents w' name = contents w name
    /\ healthy (bufio_NewWriterSize (Some (length (fds w))) size) w' = true.
Proof.
  intros Hd. destruct (os_OpenFile_ok name w Hd) as (w1 & Hopen & Hf & Hden & Hother & Hc).
  exists w1. unfold newBaseFileWriter. rewrite Hopen. do 5 (split; [done|]).
  apply healthy_intro; [done| |].
  - cbn. destruct (size =? 0)%nat eqn:Hz; [lia|]. apply Nat.eqb_neq in Hz. lia.
  - cbn. rewrite Hf. by rewrite lookup_app_r, Nat.sub_diag by lia.
Qed.

(** X4.  [flush] on an open writer whose file takes bytes, and so the
    round of the daemon on the 10 second ticker: when it returns,
    everything the writer took is in its file and the buffer is empty. *)
Theorem flush_writes_the_buffer_out
    (tc : TimeCache) (fw : baseFileWriter) (w : World) (b : bufio_Writer) :
  wired fw w = true -> bufio_of fw = Some b -> healthy b w = true ->
  exists fw' w' b',
    flush fw w = Ok (fw', w')
    /\ daemon tc FlushTick fw w = Ok (Continue, fw', w')
    /\ bufio_of fw' = Some b' /\ b_buf b' = []
    /\ file_bytes (file fw) w' = stream b w
    /\ wired fw' w' = true /\ healthy b' w' = true.
Proof.
  intros Hw Hb Hh.
  destruct (flush_open tc fw w Hw) as (fw' & w' & Hfl & Hd & Hw' & _ & _ & _ & _ & _ & Hbuf).
  destruct (Hbuf b Hb Hh) as (b' & Hb' & Hnil & Hh' & Hs & Hwr & _).
  exists fw', w', b'. do 4 (split; [done|]). split; [|done].
  destruct (wired_inv _ _ Hw) as (_ & _ & bl & b0 & Hbl & Hb0 & _ & Hwr0).
  assert (b0 = b) as -> by (rewrite (bufio_of_intro _ _ _ Hbl Hb0) in Hb; congruence).
  unfold stream in Hs at 1. by rewrite Hnil, Hwr, Hwr0, !app_nil_r in Hs.
Qed.

Lemma flush_writes_the_buffer_out_witness :
  wired counting_fw counting_w = true /\ bufio_of counting_fw = Some counting_bufio
  /\ healthy counting_bufio counting_w = true
  /\ exists fw' w' b',
    flush counting_fw counting_w = Ok (fw', w')
    /\ daemon demo_tc FlushTick counting_fw counting_w = Ok (Continue, fw', w')
    /\ bufio_of fw' = Some b' /\ b_buf b' = []
    /\ file_bytes (file counting_fw) w' = stream counting_bufio counting_w
    /\ wired fw' w' = true /\ healthy b' w' = true.
Proof.
  assert (Hw : wired counting_fw counting_w = true) by (vm_compute; reflexivity).
  assert (Hb : bufio_of counting_fw = Some counting_bufio) by (vm_compute; reflexivity).
  assert (Hh : healthy counting_bufio counting_w = true) by (vm_compute; reflexivity).
  split; [exact Hw|]. split; [exact Hb|]. split; [exact Hh|].
  exact (flush_writes_the_buffer_out demo_tc counting_fw counting_w counting_bufio Hw Hb Hh).
Defined.

(** X5.  While rotation by size and by lines is off, the records of any
    run of writes, with rounds of the daemon on the channel of sizes in
    between, reach the file in the order of the calls: after a flush
    the file holds what the writer had taken before, followed by the
    record of every message. *)
Theorem records_reach_the_file_in_order
    {LP : LevelPrefix} (tc : TimeCache) (lv : Level) (steps : list step)
    (fw : baseFileWriter) (w : World) (b : bufio_Writer) :
  wired fw w = true -> bufio_of fw = Some b -> healthy b w = true ->
  sizeRotated fw = false -> lineRotated fw = false ->
  exists fw1 w1 fw2 w2,
    run_steps tc lv steps fw w = Ok (fw1, w1)
    /\ flush fw1 w1 = Ok (fw2, w2)
    /\ file_bytes (file fw) w2 = stream b w ++ records tc lv (messages steps).
Proof.
  intros Hw Hb Hh Hs Hl.
  destruct (steps_rotation_off tc lv steps fw w Hw Hs Hl)
    as (fw1 & w1 & Hrun & Hw1 & _ & (Hfile & _) & _ & _ & _ & Hbuf).
  destruct (Hbuf b Hb Hh) as (b1 & Hb1 & Hh1 & Hs1 & Hwr1 & _).
  destruct (flush_open tc fw1 w1 Hw1) as (fw2 & w2 & Hfl & _ & _ & _ & _ & _ & _ & _ & Hbuf2).
  destruct (Hbuf2 b1 Hb1 Hh1) as (b2 & Hb2 & Hnil & Hh2 & Hs2 & Hwr2 & _).
  exists fw1, w1, fw2, w2. do 2 (split; [done|]).
  destruct (wired_inv _ _ Hw) as (_ & _ & bl & b0 & Hbl & Hb0 & _ & Hwr0).
  assert (b0 = b) as -> by (rewrite (bufio_of_intro _ _ _ Hbl Hb0) in Hb; congruence).
  unfold stream in Hs2 at 1. rewrite Hnil, Hwr2, Hwr1, Hwr0, !app_nil_r in Hs2.
  by rewrite Hs2, Hs1.
Qed.

Lemma records_reach_the_file_in_order_witness :
  wired demo_fw demo_w = true /\ bufio_of demo_fw = Some demo_bufio
  /\ healthy demo_bufio demo_w = true
  /\ sizeRotated demo_fw = false /\ lineRotated demo_fw = false
  /\ exists fw1 w1 fw2 w2,
    run_steps (LP:=demo_prefix) demo_tc INFO five_writes demo_fw demo_w = Ok (fw1, w1)
    /\ flush fw1 w1 = Ok (fw2, w2)
    /\ file_bytes (file demo_fw) w2
       = stream demo_bufio demo_w
         ++ records (LP:=demo_prefix) demo_tc INFO (messages five_writes).
Proof.
  assert (Hw : wired demo_fw demo_w = true) by (vm_compute; reflexivity).
  assert (Hb : bufio_of demo_fw = Some demo_bufio) by (vm_compute; reflexivity).
  assert (Hh : healthy demo_bufio demo_w = true) by (vm_compute; reflexivity).
  assert (Hs : sizeRotated demo_fw = false) by (vm_compute; reflexivity).
  assert (Hl : lineRotated demo_fw = false) by (vm_compute; reflexivity).
  do 5 (split; [assumption|]).
  exact (records_reach_the_file_in_order (LP:=demo_prefix) demo_tc INFO five_writes
           demo_fw demo_w demo_bufio Hw Hb Hh Hs Hl).
Defined.

(** X6.  While rotation by size and by lines is off nothing is counted:
    over any run of writes and of rounds of the daemon on the channel
    of sizes, no write sends its size, the sizes that wait in the channel
    are taken off it one a round and dropped, the two counters and the
    sequence number keep their values, and the writer keeps its file. *)
Theorem nothing_is_counted_while_rotation_is_off
    {LP : LevelPrefix} (tc : TimeCache) (lv : Level) (steps : list step)
    (fw : baseFileWriter) (w : World) :
  wired fw w = true -> sizeRotated fw = false -> lineRotated fw = false ->
  exists fw' w',
    run_steps tc lv steps fw w = Ok (fw', w')
    /\ currentSize fw' = currentSize fw /\ currentLines fw' = currentLines fw
    /\ sizeRotateTimes fw' = sizeRotateTimes fw
    /\ logSizeChan fw' = drop (rounds steps) (logSizeChan fw)
    /\ file fw' = file fw /\ fds w' = fds w.
Proof.
  intros Hw Hs Hl.
  destruct (steps_rotation_off tc lv steps fw w Hw Hs Hl)
    as (fw1 & w1 & Hrun & _ & _ & (Hfile & Hcs & Hcl & Hseq) & Hq & Hf & _).
  by exists fw1, w1.
Qed.

Lemma nothing_is_counted_while_rotation_is_off_witness :
  wired (SetRotateSize 0 counting_fw) counting_w = true
  /\ sizeRotated (SetRotateSize 0 counting_fw) = false
  /\ lineRotated (SetRotateSize 0 counting_fw) = false
  /\ exists fw' w',
    run_steps (LP:=demo_prefix) demo_tc INFO five_writes (SetRotateSize 0 counting_fw) counting_w
    = Ok (fw', w')
    /\ currentSize fw' = currentSize (SetRotateSize 0 counting_fw)
    /\ currentLines fw' = currentLines (SetRotateSize 0 counting_fw)
    /\ sizeRotateTimes fw' = sizeRotateTimes (SetRotateSize 0 counting_fw)
    /\ logSizeChan fw' = drop (rounds five_writes) (logSizeChan (SetRotateSize 0 counting_fw))
    /\ file fw' = file (SetRotateSize 0 counting_fw) /\ fds w' = fds counting_w.
Proof.
  assert (Hw : wired (SetRotateSize 0 counting_fw) counting_w = true) by (vm_compute; reflexivity).
  assert (Hs : sizeRotated (SetRotateSize 0 counting_fw) = false) by (vm_compute; reflexivity).
  assert (Hl : lineRotated (SetRotateSize 0 counting_fw) = false) by (vm_compute; reflexivity).
  do 3 (split; [assumption|]).
  exact (nothing_is_counted_while_rotation_is_off (LP:=demo_prefix) demo_tc INFO five_writes
           (SetRotateSize 0 counting_fw) counting_w Hw Hs Hl).
Defined.

(** X7.  [newBaseFileWriter] on a path that opens returns no error and
    an open writer on a new descriptor of that path: its BLog and its
    bufio writer write to that descriptor, the buffer is empty, the file
    keeps the bytes it had (it is opened to append), no other file
    changes, every rotation is off, the thresholds are the defaults and
    the level is [DEBUG]. *)
Theorem newBaseFileWriter_returns_a_wired_writer
    (size : nat) (name : bytes) (w : World) :
  name ∉ denied w ->
  exists fw w' b,
    newBaseFileWriter size name w = (fw, None, w')
    /\ wired fw w' = true /\ bufio_of fw = Some b /\ healthy b w' = true /\ b_buf b = []
    /\ file fw = Some (length (fds w)) /\ fds w' = fds w ++ [mk_File name false]
    /\ file_bytes (file fw) w' = contents w name
    /\ (forall other, other <> name -> disk w' !! other = disk w !! other)
    /\ fileName fw = name
    /\ timeRotated fw = false /\ sizeRotated fw = false /\ lineRotated fw = false
    /\ RotateSize fw = 500 * 2 ^ 20 /\ RotateLine fw = 2000000
    /\ baseFileWriter_Level fw = Ok DEBUG.
Proof.
  intros Hd.
  destruct (newBaseFileWriter_ok size name w Hd) as (w' & -> & Hf & Hden & Hother & Hc & Hh).
  eexists _, w', _. split; [reflexivity|].
  split.
  { eapply wired_intro; [done| |reflexivity|reflexivity|done|done].
    cbn. rewrite Hf, length_app. cbn. apply Nat.ltb_lt. lia. }
  cbn. do 5 (split; [done|]). split.
  { rewrite Hf. by rewrite lookup_app_r, Nat.sub_diag by lia. }
  by do 7 (split; [done|]).
Qed.

Lemma newBaseFileWriter_returns_a_wired_writer_witness :
  (B "app.log" ∉ denied ro_world)
  /\ exists fw w' b,
    newBaseFileWriter 4096 (B "app.log") ro_world = (fw, None, w')
    /\ wired fw w' = true /\ bufio_of fw = Some b /\ healthy b w' = true /\ b_buf b = []
    /\ file fw = Some (length (fds ro_world))
    /\ fds w' = fds ro_world ++ [mk_File (B "app.log") false]
    /\ file_bytes (file fw) w' = contents ro_world (B "app.log")
    /\ (forall other, other <> B "app.log" -> disk w' !! other = disk ro_world !! other)
    /\ fileName fw = B "app.log"
    /\ timeRotated fw = false /\ sizeRotated fw = false /\ lineRotated fw = false
    /\ RotateSize fw = 500 * 2 ^ 20 /\ RotateLine fw = 2000000
    /\ baseFileWriter_Level fw = Ok DEBUG.
Proof.
  assert (Hd : B "app.log" ∉ denied ro_world) by (vm_compute; set_solver).
  split; [exact Hd|].
  exact (newBaseFileWriter_returns_a_wired_writer 4096 (B "app.log") ro_world Hd).
Defined.

(** X8.  [newBaseFileWriter] on a path that does not open returns the
    error together with a writer that is not closed and has neither a
    file nor a BLog; the world is as before.  Every use of that writer
    panics on the nil BLog: [write], [writef], [flush] and [Close]. *)
Theorem newBaseFileWriter_failure_returns_a_writer_that_panics
    {LP : LevelPrefix} {Arg : Type} {F : Formatter Arg}
    (tc : TimeCache) (size : nat) (name : bytes) (w : World) :
  name ∈ denied w ->
  exists fw,
    newBaseFileWriter size name w = (fw, Some ErrOpen, w)
    /\ file fw = None /\ blog fw = None /\ closed fw = false
    /\ (forall lv message, write tc lv message fw w = Panic NilPointerDereference)
    /\ (forall lv format (args : list Arg),
           writef tc lv format args fw w = Panic NilPointerDereference)
    /\ flush fw w = Panic NilPointerDereference
    /\ Close fw w = Panic NilPointerDereference.
Proof.
  intros Hd. unfold newBaseFileWriter. rewrite (os_OpenFile_denied name w Hd).
  eexists. split; [reflexivity|]. by cbn.
Qed.

Lemma newBaseFileWriter_failure_returns_a_writer_that_panics_witness :
  (B "app.log.2" ∈ denied ro_world)
  /\ exists fw,
    newBaseFileWriter 4096 (B "app.log.2") ro_world = (fw, Some ErrOpen, ro_world)
    /\ file fw = None /\ blog fw = None /\ closed fw = false
    /\ (forall lv message,
           write (LP:=demo_prefix) demo_tc lv message fw ro_world = Panic NilPointerDereference)
    /\ (forall lv format (args : list DemoArg),
           writef (LP:=demo_prefix) (F:=demo_Sprintf) demo_tc lv format args fw ro_world
           = Panic NilPointerDereference)
    /\ flush fw ro_world = Panic NilPointerDereference
    /\ Close fw ro_world = Panic NilPointerDereference.
Proof.
  assert (Hd : B "app.log.2" ∈ denied ro_world) by (vm_compute; set_solver).
  split; [exact Hd|].
  exact (newBaseFileWriter_failure_returns_a_writer_that_panics (LP:=demo_prefix)
           (F:=demo_Sprintf) demo_tc 4096 (B "app.log.2") ro_world Hd).
Defined.

(** X9.  From [newBaseFileWriter] to [Close] no record is lost while the
    rotations are off, as they are on a new writer: after any run of
    writes and of rounds of the daemon on the channel of sizes, [Close]
    leaves in the file the bytes it had before it was opened, followed
    by the record of every message in the order of the calls. *)
Theorem open_write_close_keeps_every_record
    {LP : LevelPrefix} (tc : TimeCache) (lv : Level) (size : nat) (name : bytes)
    (steps : list step) (w : World) :
  name ∉ denied w ->
  exists fw0 w0 fw1 w1 fw2 w2,
    newBaseFileWriter size name w = (fw0, None, w0)
    /\ run_steps tc lv steps fw0 w0 = Ok (fw1, w1)
    /\ Close fw1 w1 = Ok (fw2, w2)
    /\ contents w2 name = contents w name ++ records tc lv (messages steps).
Proof.
  intros Hd.
  destruct (newBaseFileWriter_ok size name w Hd) as (w0 & Hnew & Hf0 & _ & _ & Hc0 & Hh0).
  set (fd := length (fds w)) in *. set (b0 := bufio_NewWriterSize (Some fd) size) in *.
  match type of Hnew with _ = (?x, _, _) => set (fw0 := x) in * end.
  assert (Hfd0 : fds w0 !! fd = Some (mk_File name false)).
  { rewrite Hf0. by rewrite lookup_app_r, Nat.sub_diag by (unfold fd; lia). }
  assert (Hw0 : wired fw0 w0 = true).
  { apply (wired_intro fw0 w0 (NewBLog size (Some fd)) b0); try done.
    cbn. apply Nat.ltb_lt. apply lookup_lt_Some in Hfd0. exact Hfd0. }
  destruct (steps_rotation_off tc lv steps fw0 w0 Hw0 eq_refl eq_refl)
    as (fw1 & w1 & Hrun & Hw1 & _ & _ & _ & Hf1 & _ & Hbuf).
  destruct (Hbuf b0 eq_refl Hh0) as (b1 & Hb1 & Hh1 & Hs1 & Hwr1 & _).
  destruct (wired_inv _ _ Hw1) as (Hcl1 & _ & bl1 & b1' & Hbl1 & Hb1' & _).
  assert (b1' = b1) as -> by (rewrite (bufio_of_intro _ _ _ Hbl1 Hb1') in Hb1; congruence).
  destruct (Close_flushes fw1 w1 bl1 b1 Hcl1 Hbl1 Hb1' Hh1)
    as (fw2 & w2 & Hclose & _ & _ & _ & Hbytes & Hf2).
  exists fw0, w0, fw1, w1, fw2, w2. do 3 (split; [done|]).
  rewrite Hwr1 in Hbytes. cbn [b0 bufio_NewWriterSize b_wr file_bytes] in Hbytes.
  rewrite Hf2, Hf1, Hfd0 in Hbytes. cbn [f_name] in Hbytes.
  rewrite Hbytes, Hs1. unfold stream. cbn [b0 bufio_NewWriterSize b_wr b_buf file_bytes].
  rewrite Hfd0, app_nil_r. cbn [f_name]. by rewrite Hc0.
Qed.

Lemma open_write_close_keeps_every_record_witness :
  (B "app.log" ∉ denied ro_world)
  /\ exists fw0 w0 fw1 w1 fw2 w2,
    newBaseFileWriter 16 (B "app.log") ro_world = (fw0, None, w0)
    /\ run_steps (LP:=demo_prefix) demo_tc INFO five_writes fw0 w0 = Ok (fw1, w1)
    /\ Close fw1 w1 = Ok (fw2, w2)
    /\ contents w2 (B "app.log")
       = contents ro_world (B "app.log")
         ++ records (LP:=demo_prefix) demo_tc INFO (messages five_writes).
Proof.
  assert (Hd : B "app.log" ∉ denied ro_world) by (vm_compute; set_solver).
  split; [exact Hd|].
  exact (open_write_close_keeps_every_record (LP:=demo_prefix) demo_tc INFO 16 (B "app.log")
           five_writes ro_world Hd).
Defined.

(* ===================================================================== *)
(** ** Rounds of the daemon *)
(* ===================================================================== *)

Lemma os_OpenFile_contents name w other :
  contents (os_OpenFile name w).2 other = contents w other.
Proof.
  unfold os_OpenFile. destruct (bool_decide _); [done|]. cbn. unfold contents. cbn.
  destruct (disk w !! name) eqn:Hn; [done|].
  destruct (decide (other = name)) as [->|Hne].
  - by rewrite lookup_insert_eq, Hn.
  - by rewrite lookup_insert_ne.
Qed.

(** A rotation changes the bytes of no file. *)
Lemma rotation_world_contents name h w other :
  contents (File_Close h (os_OpenFile name w).2).2 other = contents w other.
Proof.
  rewrite <- (os_OpenFile_contents name w other).
  unfold contents. by destruct (File_Close_frame h (os_OpenFile name w).2) as (-> & _).
Qed.

(** The swap of the file leaves an empty bufio writer of the same
    capacity, without a pending error, on the new file. *)
Lemma swap_file_bufio f fw w fw' w' b :
  swap_file f fw w = Ok (fw', w') -> bufio_of fw = Some b ->
  exists b', bufio_of fw' = Some b' /\ b_cap b' = b_cap b /\ b_err b' = None
             /\ b_buf b' = [] /\ b_wr b' = f.
Proof.
  intros Hs Hb. destruct (bufio_of_inv _ _ Hb) as (bl & Hbl & Hwr).
  unfold swap_file, BLog_resetFile in Hs. destruct (File_Close (file fw) w) as [e w1].
  rewrite Hbl in Hs. cbn in Hs. rewrite Hwr in Hs.
  pose proof (bufio_Flush_cap b w1) as Hcap.
  destruct (bufio_Flush b w1) as [[e' b1] w2]. cbn [fst snd] in Hcap.
  rewrite bind_Ok in Hs. injection Hs as <- <-.
  eexists. split; [reflexivity|]. by cbn.
Qed.

(** A round of the daemon keeps the capacity of the bufio writer. *)
Lemma daemon_round_bufio tc ev fw w o fw' w' b :
  daemon tc ev fw w = Ok (o, fw', w') -> bufio_of fw = Some b ->
  exists b', bufio_of fw' = Some b' /\ b_cap b' = b_cap b
             /\ (closed fw = false -> rotates tc ev fw = true -> b_err b' = None).
Proof.
  intros Hd Hb.
  assert (Hsame : exists b', bufio_of fw = Some b' /\ b_cap b' = b_cap b
                    /\ (closed fw = false -> false = true -> b_err b' = None)).
  { exists b. by repeat split. }
  destruct (bufio_of_inv _ _ Hb) as (bl & Hbl & Hwr).
  unfold daemon in Hd. destruct ev as [|now|].
  - destruct (closed fw) eqn:Hc.
    + injection Hd as <- <- <-. exists b. by repeat split.
    + rewrite Hbl in Hd. unfold BLog_flush in Hd. rewrite Hwr in Hd.
      pose proof (bufio_Flush_cap b w) as Hcap.
      destruct (bufio_Flush b w) as [[e b1] w1]. cbn [fst snd] in Hcap.
      rewrite bind_Ok in Hd. injection Hd as <- <- <-.
      exists b1. by repeat split.
  - destruct (closed fw) eqn:Hc.
    + injection Hd as <- <- <-. exists b. by repeat split.
    + unfold daemon_time in Hd. cbn [rotates].
      destruct (timeRotated fw && negb (bool_decide (now = tc_date tc))).
      * destruct (os_OpenFile _ w) as [[f e] w1].
        destruct (swap_file f (reset_sequence fw) w1) as [[fw1 w2]|] eqn:Hs; [|done].
        rewrite bind_Ok in Hd. injection Hd as <- <- <-.
        destruct (swap_file_bufio _ _ _ _ _ b Hs Hb) as (b' & Hb' & Hcap & Herr & _).
        exists b'. by repeat split.
      * rewrite bind_Ok in Hd. injection Hd as <- <- <-. exact Hsame.
  - cbn [rotates]. destruct (logSizeChan fw) as [|size q] eqn:Hq.
    + injection Hd as <- <- <-. exact Hsame.
    + cbn [receive closed sizeRotated lineRotated] in Hd. destruct (closed fw) eqn:Hc.
      * injection Hd as <- <- <-. exists b. by repeat split.
      * change (needRotate (add_size size fw))
          with (needRotate (add_size size (receive fw))).
        destruct (negb (sizeRotated fw) && negb (lineRotated fw)) eqn:Hoff.
        { injection Hd as <- <- <-. exists b. split; [exact Hb|]. split; [done|].
          intros _ Hrot. apply needRotate_on in Hrot. cbn in Hrot.
          by destruct (sizeRotated fw), (lineRotated fw). }
        unfold daemon_logSize in Hd.
        destruct (needRotate (add_size size (receive fw))).
        { destruct (os_OpenFile _ w) as [[f e] w1].
          destruct (swap_file f _ w1) as [[fw1 w2]|] eqn:Hs; [|done].
          rewrite bind_Ok in Hd. injection Hd as <- <- <-.
          destruct (swap_file_bufio _ _ _ _ _ b Hs Hb) as (b' & Hb' & Hcap & Herr & _).
          exists b'. by repeat split. }
        rewrite bind_Ok in Hd. injection Hd as <- <- <-. exists b. by repeat split.
Qed.

Section Rounds.
Context {LP : LevelPrefix}.
Variable tc : TimeCache.

(** A round of the daemon on an open writer never leaves the loop. *)
Lemma round_open ev fw w :
  wired fw w = true ->
  exists fw' w',
    daemon tc ev fw w = Ok (Continue, fw', w')
    /\ wired fw' w' = true /\ same_policy fw fw'.
Proof.
  intros Hw. destruct (wired_inv _ _ Hw) as (Hc & _). destruct ev as [|now|].
  - destruct (flush_open tc fw w Hw) as (fw' & w' & _ & Hd & Hw' & Hp & _).
    by exists fw', w'.
  - unfold daemon. rewrite Hc.
    destruct (daemon_time_spec tc now fw w Hw) as (fw' & w' & -> & Hw' & Hp & _).
    rewrite bind_Ok. by exists fw', w'.
  - unfold daemon. destruct (logSizeChan fw) as [|size q] eqn:Hq.
    + exists fw, w. split; [done|]. split; [done|]. apply same_policy_refl.
    + cbn [receive closed sizeRotated lineRotated]. rewrite Hc.
      destruct (negb (sizeRotated fw) && negb (lineRotated fw)).
      * exists (receive fw), w. split; [done|]. split; [exact Hw|]. by repeat split.
      * assert (Hw2 : wired (receive fw) w = true) by exact Hw.
        destruct (daemon_logSize_spec tc size (receive fw) w Hw2)
          as (fw' & w' & -> & Hw' & Hp & _).
        rewrite bind_Ok. exists fw', w'. split; [done|]. split; [done|].
        destruct Hp as (? & ? & ? & ? & ? & ? & ? & ?). by repeat split.
Qed.

(** A round of the daemon that rotates. *)
Lemma round_rotates ev fw w b :
  wired fw w = true -> bufio_of fw = Some b -> rotates tc ev fw = true ->
  exists fw' w' b',
    daemon tc ev fw w = Ok (Continue, fw', w')
    /\ wired fw' w' = true /\ same_policy fw fw'
    /\ file fw' = (os_OpenFile (rotation_name tc ev fw) w).1.1
    /\ w' = (File_Close (file fw) (os_OpenFile (rotation_name tc ev fw) w).2).2
    /\ bufio_of fw' = Some b' /\ b_buf b' = [] /\ b_err b' = None
    /\ b_wr b' = file fw' /\ b_cap b' = b_cap b.
Proof.
  intros Hw Hb Hrot. destruct (wired_inv _ _ Hw) as (Hc & _).
  assert (Hmain : exists fw' w' b',
             daemon tc ev fw w = Ok (Continue, fw', w')
             /\ wired fw' w' = true /\ same_policy fw fw'
             /\ file fw' = (os_OpenFile (rotation_name tc ev fw) w).1.1
             /\ w' = (File_Close (file fw) (os_OpenFile (rotation_name tc ev fw) w).2).2
             /\ bufio_of fw' = Some b' /\ b_buf b' = [] /\ b_wr b' = file fw').
  { destruct ev as [|now|]; [done| |].
    - cbn [rotates] in Hrot. apply andb_true_iff in Hrot as [Ht Hnow].
      apply negb_true_iff, bool_decide_eq_false in Hnow.
      destruct (daemon_TimeTick_rotates tc now fw w Hw Ht Hnow)
        as (fw' & w' & Hd & Hw' & Hp & _ & _ & _ & _ & Hfile & Hworld & b' & Hb' & Hbuf & Hwr).
      exists fw', w', b'. unfold rotation_name. by destruct (logSizeChan fw).
    - cbn [rotates] in Hrot. destruct (logSizeChan fw) as [|size q] eqn:Hq; [done|].
      destruct (daemon_LogSize_rotates tc size q fw w Hw Hq Hrot)
        as (fw' & w' & Hd & Hw' & Hp & _ & _ & _ & _ & Hfile & Hworld & b' & Hb' & Hbuf & Hwr).
      exists fw', w', b'. unfold rotation_name. by rewrite Hq. }
  destruct Hmain as (fw' & w' & b' & Hd & Hw' & Hp & Hfile & Hworld & Hb' & Hbuf & Hwr).
  destruct (daemon_round_bufio tc ev fw w _ fw' w' b Hd Hb) as (b2 & Hb2 & Hcap & Herr).
  assert (b2 = b') as -> by congruence.
  exists fw', w', b'. do 7 (split; [done|]). split; [by apply Herr|]. by split.
Qed.

(** A round of the daemon that does not rotate, on a writer whose file
    takes bytes. *)
Lemma round_quiet ev fw w b :
  wired fw w = true -> bufio_of fw = Some b -> healthy b w = true ->
  rotates tc ev fw = false ->
  exists fw' w' b',
    daemon tc ev fw w = Ok (Continue, fw', w')
    /\ wired fw' w' = true /\ same_policy fw fw'
    /\ file fw' = file fw /\ sizeRotateTimes fw' = sizeRotateTimes fw
    /\ bufio_of fw' = Some b' /\ accepts [] b w b' w'.
Proof.
  intros Hw Hb Hh Hrot. destruct (wired_inv _ _ Hw) as (Hc & _).
  assert (Hnone : forall fw', bufio_of fw' = Some b -> wired fw' w = true ->
                    same_policy fw fw' -> file fw' = file fw ->
                    sizeRotateTimes fw' = sizeRotateTimes fw ->
                    daemon tc ev fw w = Ok (Continue, fw', w) ->
                    exists fw' w' b',
                      daemon tc ev fw w = Ok (Continue, fw', w')
                      /\ wired fw' w' = true /\ same_policy fw fw'
                      /\ file fw' = file fw /\ sizeRotateTimes fw' = sizeRotateTimes fw
                      /\ bufio_of fw' = Some b' /\ accepts [] b w b' w').
  { intros fw' ? ? ? ? ? ?. exists fw', w, b. do 6 (split; [done|]). by apply accepts_refl. }
  destruct ev as [|now|].
  - destruct (flush_open tc fw w Hw)
      as (fw' & w' & _ & Hd & Hw' & Hp & (Hfile & _ & _ & Hseq) & _ & _ & _ & Hbuf).
    destruct (Hbuf b Hb Hh) as (b' & Hb' & _ & Ha).
    by exists fw', w', b'.
  - apply (Hnone fw); [done|done|apply same_policy_refl|done|done|].
    unfold daemon. rewrite Hc. unfold daemon_time. cbn [rotates] in Hrot. by rewrite Hrot.
  - cbn [rotates] in Hrot. destruct (logSizeChan fw) as [|size q] eqn:Hq.
    + apply (Hnone fw); [done|done|apply same_policy_refl|done|done|]. by apply count_nothing.
    + destruct (sizeRotated fw || lineRotated fw) eqn:Hon.
      * apply (Hnone (add_size size (receive fw))); [done|exact Hw|by repeat split|done|done|].
        rewrite (daemon_LogSize_recv tc size q) by done.
        unfold daemon_logSize.
        change (needRotate (add_size size (receive fw))) with (needRotate (add_size size fw)).
        by rewrite Hrot.
      * apply (Hnone (receive fw)); [done|exact Hw|by repeat split|done|done|].
        apply orb_false_iff in Hon as [Hs Hl].
        destruct (round_rotation_off tc fw w Hc Hs Hl) as [Hd|[Hq' _]]; [done|congruence].
Qed.

End Rounds.

(* ===================================================================== *)
(** ** After Close *)
(* ===================================================================== *)

(** X10.  [BLog.Close] leaves the BLog without its bufio writer and
    nothing guards the later calls: [write], [writef], [flush],
    [resetFile] and a second [Close] panic on the nil pointer.  [In] and
    [Level] still answer. *)
Theorem BLog_panics_after_Close
    {LP : LevelPrefix} {Arg : Type} {F : Formatter Arg}
    (tc : TimeCache) (blog : BLog) (w : World) (blog' : BLog) (w' : World) :
  BLog_Close blog w = Ok (blog', w') ->
  (forall lv message, BLog_write tc lv message blog' w' = Panic NilPointerDereference)
  /\ (forall lv format (args : list Arg),
         BLog_writef tc lv format args blog' w' = Panic NilPointerDereference)
  /\ BLog_flush blog' w' = Panic NilPointerDereference
  /\ (forall in', BLog_resetFile in' blog' w' = Panic NilPointerDereference)
  /\ BLog_Close blog' w' = Panic NilPointerDereference
  /\ BLog_In blog' = BLog_In blog /\ BLog_Level blog' = BLog_Level blog.
Proof.
  unfold BLog_Close. destruct (writer blog) as [b|]; [|done].
  destruct (bufio_Flush b w) as [[e b1] w1]. by intros [= <- <-].
Qed.

Lemma BLog_panics_after_Close_witness :
  BLog_Close demo_blog demo_w = Ok (mk_BLog DEBUG (Some 0%nat) None, demo_w)
  /\ (forall lv message,
         BLog_write (LP:=demo_prefix) demo_tc lv message (mk_BLog DEBUG (Some 0%nat) None) demo_w
         = Panic NilPointerDereference)
  /\ (forall lv format (args : list DemoArg),
         BLog_writef (LP:=demo_prefix) (F:=demo_Sprintf) demo_tc lv format args
           (mk_BLog DEBUG (Some 0%nat) None) demo_w
         = Panic NilPointerDereference)
  /\ BLog_flush (mk_BLog DEBUG (Some 0%nat) None) demo_w = Panic NilPointerDereference
  /\ (forall in', BLog_resetFile in' (mk_BLog DEBUG (Some 0%nat) None) demo_w
                  = Panic NilPointerDereference)
  /\ BLog_Close (mk_BLog DEBUG (Some 0%nat) None) demo_w = Panic NilPointerDereference
  /\ BLog_In (mk_BLog DEBUG (Some 0%nat) None) = BLog_In demo_blog
  /\ BLog_Level (mk_BLog DEBUG (Some 0%nat) None) = BLog_Level demo_blog.
Proof.
  assert (Hc : BLog_Close demo_blog demo_w = Ok (mk_BLog DEBUG (Some 0%nat) None, demo_w))
    by (vm_compute; reflexivity).
  split; [exact Hc|].
  exact (BLog_panics_after_Close (LP:=demo_prefix) (F:=demo_Sprintf) demo_tc demo_blog demo_w
           (mk_BLog DEBUG (Some 0%nat) None) demo_w Hc).
Defined.

(** X11.  [Close] of the file writer guards itself, [write] and
    [writef] with the flag [closed], and nothing else: on the closed
    writer [flush], [Level] and [SetLevel] reach the nil BLog and
    panic. *)
Theorem closed_writer_panics_on_flush_and_level
    (fw : baseFileWriter) (w : World) (fw' : baseFileWriter) (w' : World) :
  closed fw = false -> Close fw w = Ok (fw', w') ->
  flush fw' w' = Panic NilPointerDereference
  /\ baseFileWriter_Level fw' = Panic NilPointerDereference
  /\ (forall lv, baseFileWriter_SetLevel lv fw' = Panic NilPointerDereference).
Proof.
  intros Hc. unfold Close. rewrite Hc. destruct (blog fw) as [bl|]; [|done].
  destruct (BLog_Close bl w) as [[bl' w1]|]; [|done]. rewrite bind_Ok. by intros [= <- <-].
Qed.

Lemma closed_writer_panics_on_flush_and_level_witness :
  closed counting_fw = false /\ Close counting_fw counting_w = Ok (closed_fw, closed_w)
  /\ flush closed_fw closed_w = Panic NilPointerDereference
  /\ baseFileWriter_Level closed_fw = Panic NilPointerDereference
  /\ (forall lv, baseFileWriter_SetLevel lv closed_fw = Panic NilPointerDereference).
Proof.
  assert (Hc : closed counting_fw = false) by (vm_compute; reflexivity).
  assert (Hclose : Close counting_fw counting_w = Ok (closed_fw, closed_w))
    by (vm_compute; reflexivity).
  split; [exact Hc|]. split; [exact Hclose|].
  exact (closed_writer_panics_on_flush_and_level counting_fw counting_w closed_fw closed_w
           Hc Hclose).
Defined.

(** X12.  The daemon leaves its loop after [Close] and not before: on an
    open writer every round goes on; once the writer is closed the
    round on the same stimulus breaks out of the loop and touches
    neither the world nor the nil BLog.  (A round on the channel of
    sizes fires only when the channel holds a size.) *)
Theorem daemon_stops_after_Close
    (tc : TimeCache) (ev : stimulus) (fw : baseFileWriter) (w : World)
    (fw' : baseFileWriter) (w' : World) :
  wired fw w = true -> Close fw w = Ok (fw', w') ->
  (ev = LogSize -> logSizeChan fw <> []) ->
  (exists fw1 w1, daemon tc ev fw w = Ok (Continue, fw1, w1))
  /\ exists fw2, daemon tc ev fw' w' = Ok (Break, fw2, w')
                 /\ closed fw2 = true /\ blog fw2 = None /\ file fw2 = file fw.
Proof.
  intros Hw Hclose Hready. split.
  - destruct (round_open tc ev fw w Hw) as (fw1 & w1 & Hd & _). by exists fw1, w1.
  - destruct (wired_inv _ _ Hw) as (Hc & _ & bl & b & Hbl & Hb & _).
    unfold Close in Hclose. rewrite Hc, Hbl in Hclose.
    destruct (BLog_Close bl w) as [[bl' w1]|]; [|done].
    rewrite bind_Ok in Hclose. injection Hclose as <- <-.
    destruct ev as [|now|]; [by eexists..|].
    unfold daemon. cbn [logSizeChan].
    destruct (logSizeChan fw) as [|size q]; [by destruct Hready|]. by eexists.
Qed.

Lemma daemon_stops_after_Close_witness :
  wired counting_fw counting_w = true /\ Close counting_fw counting_w = Ok (closed_fw, closed_w)
  /\ (TimeTick (B "2015-06-03") = LogSize -> logSizeChan counting_fw <> [])
  /\ (exists fw1 w1,
         daemon demo_tc (TimeTick (B "2015-06-03")) counting_fw counting_w
         = Ok (Continue, fw1, w1))
  /\ exists fw2,
      daemon demo_tc (TimeTick (B "2015-06-03")) closed_fw closed_w = Ok (Break, fw2, closed_w)
      /\ closed fw2 = true /\ blog fw2 = None /\ file fw2 = file counting_fw.
Proof.
  assert (Hw : wired counting_fw counting_w = true) by (vm_compute; reflexivity).
  assert (Hclose : Close counting_fw counting_w = Ok (closed_fw, closed_w))
    by (vm_compute; reflexivity).
  assert (Hready : TimeTick (B "2015-06-03") = LogSize -> logSizeChan counting_fw <> []).
  { intros Heq. inversion Heq. }
  split; [exact Hw|]. split; [exact Hclose|]. split; [exact Hready|].
  exact (daemon_stops_after_Close demo_tc (TimeTick (B "2015-06-03")) counting_fw counting_w
           closed_fw closed_w Hw Hclose Hready).
Defined.

(* ===================================================================== *)
(** ** What a rotation does to the bytes *)
(* ===================================================================== *)

(** X13.  [BLog.resetFile] on a bufio writer whose file takes bytes:
    everything buffered is in the old file before the BLog and the
    bufio writer are pointed to the new one; the buffer is then empty
    and keeps its capacity, and the level is kept. *)
Theorem resetFile_flushes_to_the_old_file
    (in' : handle) (blog : BLog) (b : bufio_Writer) (w : World) :
  writer blog = Some b -> healthy b w = true ->
  exists blog' b' w',
    BLog_resetFile in' blog w = Ok (blog', w')
    /\ file_bytes (b_wr b) w' = stream b w
    /\ BLog_In blog' = in' /\ writer blog' = Some b' /\ b_wr b' = in'
    /\ b_buf b' = [] /\ b_err b' = None /\ b_cap b' = b_cap b
    /\ BLog_Level blog' = BLog_Level blog /\ fds w' = fds w.
Proof.
  intros Hb Hh. unfold BLog_resetFile. rewrite Hb.
  destruct (bufio_Flush_healthy b w Hh) as (b1 & w1 & -> & Hnil & _ & Hs & Hwr & Hcap & Hf & _).
  eexists _, _, w1. split; [reflexivity|]. cbn. split.
  { unfold stream in Hs at 1. by rewrite Hnil, Hwr, !app_nil_r in Hs. }
  by repeat split.
Qed.

Lemma resetFile_flushes_to_the_old_file_witness :
  writer counting_blog = Some counting_bufio /\ healthy counting_bufio counting_w = true
  /\ exists blog' b' w',
    BLog_resetFile None counting_blog counting_w = Ok (blog', w')
    /\ file_bytes (b_wr counting_bufio) w' = stream counting_bufio counting_w
    /\ BLog_In blog' = None /\ writer blog' = Some b' /\ b_wr b' = None
    /\ b_buf b' = [] /\ b_err b' = None /\ b_cap b' = b_cap counting_bufio
    /\ BLog_Level blog' = BLog_Level counting_blog /\ fds w' = fds counting_w.
Proof.
  assert (Hb : writer counting_blog = Some counting_bufio) by (vm_compute; reflexivity).
  assert (Hh : healthy counting_bufio counting_w = true) by (vm_compute; reflexivity).
  split; [exact Hb|]. split; [exact Hh|].
  exact (resetFile_flushes_to_the_old_file None counting_blog counting_bufio counting_w Hb Hh).
Defined.

(** X14.  A rotation of the daemon, by time or by size and lines, drops
    what is buffered: the old file is closed before [resetFile] flushes,
    so when the round returns no file has changed, the old file takes no
    more bytes, and the bufio writer is empty and without error. *)
Theorem rotation_drops_the_buffered_bytes
    (tc : TimeCache) (ev : stimulus) (fw : baseFileWriter) (w : World) (b : bufio_Writer) :
  wired fw w = true -> bufio_of fw = Some b -> rotates tc ev fw = true ->
  exists fw' w' b',
    daemon tc ev fw w = Ok (Continue, fw', w')
    /\ bufio_of fw' = Some b' /\ b_buf b' = [] /\ b_err b' = None
    /\ writable (file fw) w' = false
    /\ forall name, contents w' name = contents w name.
Proof.
  intros Hw Hb Hrot.
  destruct (round_rotates tc ev fw w b Hw Hb Hrot)
    as (fw' & w' & b' & Hd & _ & _ & _ & -> & Hb' & Hbuf & Herr & _).
  eexists fw', _, b'. do 4 (split; [done|]). split.
  - apply File_Close_not_writable.
  - intros name. apply rotation_world_contents.
Qed.

Lemma rotation_drops_the_buffered_bytes_witness :
  wired counting_fw counting_w = true /\ bufio_of counting_fw = Some counting_bufio
  /\ rotates demo_tc (TimeTick (B "2015-06-03")) counting_fw = true
  /\ exists fw' w' b',
    daemon demo_tc (TimeTick (B "2015-06-03")) counting_fw counting_w = Ok (Continue, fw', w')
    /\ bufio_of fw' = Some b' /\ b_buf b' = [] /\ b_err b' = None
    /\ writable (file counting_fw) w' = false
    /\ forall name, contents w' name = contents counting_w name.
Proof.
  assert (Hw : wired counting_fw counting_w = true) by (vm_compute; reflexivity).
  assert (Hb : bufio_of counting_fw = Some counting_bufio) by (vm_compute; reflexivity).
  assert (Hrot : rotates demo_tc (TimeTick (B "2015-06-03")) counting_fw = true)
    by (vm_compute; reflexivity).
  split; [exact Hw|]. split; [exact Hb|]. split; [exact Hrot|].
  exact (rotation_drops_the_buffered_bytes demo_tc (TimeTick (B "2015-06-03"))
           counting_fw counting_w counting_bufio Hw Hb Hrot).
Defined.

(** X15.  A round of the daemon that does not find the condition of a
    rotation loses nothing on a writer whose file takes bytes: the round
    goes on, the writer keeps its file and its sequence number, no
    descriptor is opened or closed, and the bytes the writer has taken
    are the same, in the file or in the buffer. *)
Theorem round_without_rotation_keeps_the_bytes
    (tc : TimeCache) (ev : stimulus) (fw : baseFileWriter) (w : World) (b : bufio_Writer) :
  wired fw w = true -> bufio_of fw = Some b -> healthy b w = true ->
  rotates tc ev fw = false ->
  exists fw' w' b',
    daemon tc ev fw w = Ok (Continue, fw', w')
    /\ file fw' = file fw /\ sizeRotateTimes fw' = sizeRotateTimes fw
    /\ fds w' = fds w
    /\ bufio_of fw' = Some b' /\ healthy b' w' = true /\ stream b' w' = stream b w.
Proof.
  intros Hw Hb Hh Hrot.
  destruct (round_quiet tc ev fw w b Hw Hb Hh Hrot)
    as (fw' & w' & b' & Hd & _ & _ & Hfile & Hseq & Hb' & Hh' & Hs & _ & _ & Hf & _).
  exists fw', w', b'. do 6 (split; [done|]). by rewrite Hs, app_nil_r.
Qed.

Lemma round_without_rotation_keeps_the_bytes_witness :
  wired counting_fw counting_w = true /\ bufio_of counting_fw = Some counting_bufio
  /\ healthy counting_bufio counting_w = true
  /\ rotates demo_tc (TimeTick (B "2015-06-02")) counting_fw = false
  /\ exists fw' w' b',
    daemon demo_tc (TimeTick (B "2015-06-02")) counting_fw counting_w = Ok (Continue, fw', w')
    /\ file fw' = file counting_fw /\ sizeRotateTimes fw' = sizeRotateTimes counting_fw
    /\ fds w' = fds counting_w
    /\ bufio_of fw' = Some b' /\ healthy b' w' = true
    /\ stream b' w' = stream counting_bufio counting_w.
Proof.
  assert (Hw : wired counting_fw counting_w = true) by (vm_compute; reflexivity).
  assert (Hb : bufio_of counting_fw = Some counting_bufio) by (vm_compute; reflexivity).
  assert (Hh : healthy counting_bufio counting_w = true) by (vm_compute; reflexivity).
  assert (Hrot : rotates demo_tc (TimeTick (B "2015-06-02")) counting_fw = false)
    by (vm_compute; reflexivity).
  split; [exact Hw|]. split; [exact Hb|]. split; [exact Hh|]. split; [exact Hrot|].
  exact (round_without_rotation_keeps_the_bytes demo_tc (TimeTick (B "2015-06-02"))
           counting_fw counting_w counting_bufio Hw Hb Hh Hrot).
Defined.

(** X16.  A rotation whose file opens leaves a working writer on the
    new file: the writer is open and wired to a new descriptor of the
    rotated name, its bufio writer takes bytes, and a record written and
    flushed after the rotation is at the end of the new file. *)
Theorem rotation_leaves_a_working_writer
    {LP : LevelPrefix} (tc : TimeCache) (ev : stimulus)
    (fw : baseFileWriter) (w : World) (b : bufio_Writer) :
  wired fw w = true -> bufio_of fw = Some b -> (0 < b_cap b)%nat ->
  rotates tc ev fw = true -> rotation_name tc ev fw ∉ denied w ->
  exists fw' w' b',
    daemon tc ev fw w = Ok (Continue, fw', w')
    /\ wired fw' w' = true /\ bufio_of fw' = Some b' /\ healthy b' w' = true
    /\ file fw' = Some (length (fds w))
    /\ fds w' !! length (fds w) = Some (mk_File (rotation_name tc ev fw) false)
    /\ forall lv message, exists fw1 w1 fw2 w2,
         write tc lv message fw' w' = Ok (fw1, w1)
         /\ flush fw1 w1 = Ok (fw2, w2)
         /\ contents w2 (rotation_name tc ev fw)
            = contents w (rotation_name tc ev fw) ++ record tc lv message.
Proof.
  intros Hw Hb Hcap Hrot Hd. set (name := rotation_name tc ev fw) in *.
  destruct (wired_inv _ _ Hw) as (_ & Hv & _).
  destruct (round_rotates tc ev fw w b Hw Hb Hrot)
    as (fw' & w' & b' & Hdae & Hw' & _ & Hfile & Hworld & Hb' & Hbuf & Herr & Hwr & Hcap').
  fold name in Hfile, Hworld.
  destruct (rotation_world_opened name (file fw) w Hd Hv) as (Hopen & Hfd & Hwritable).
  rewrite <- Hworld in Hfd, Hwritable. rewrite Hopen in Hfile.
  assert (Hh' : healthy b' w' = true).
  { apply healthy_intro; [done|lia|]. by rewrite Hwr, Hfile. }
  exists fw', w', b'. do 6 (split; [done|]).
  intros lv message.
  destruct (write_open tc lv message fw' w' Hw')
    as (fw1 & w1 & Hwrite & Hw1 & _ & _ & _ & Hf1 & _ & Hbuf1).
  destruct (Hbuf1 b' Hb' Hh') as (b1 & Hb1 & Hh1 & Hs1 & Hwr1 & _).
  destruct (flush_open tc fw1 w1 Hw1) as (fw2 & w2 & Hfl & _ & _ & _ & _ & _ & Hf2 & _ & Hbuf2).
  destruct (Hbuf2 b1 Hb1 Hh1) as (b2 & Hb2 & Hnil & Hh2 & Hs2 & Hwr2 & _).
  exists fw1, w1, fw2, w2. do 2 (split; [done|]).
  unfold stream in Hs2 at 1. rewrite Hnil, Hwr2, Hwr1, Hwr, Hfile, !app_nil_r in Hs2.
  cbn [file_bytes] in Hs2. rewrite Hf2, Hf1, Hfd in Hs2. cbn [f_name] in Hs2.
  rewrite Hs2, Hs1. unfold stream. rewrite Hbuf, Hwr, Hfile, app_nil_r.
  cbn [file_bytes]. rewrite Hfd. cbn [f_name]. f_equal.
  rewrite Hworld. apply rotation_world_contents.
Qed.

Lemma rotation_leaves_a_working_writer_witness :
  wired fourth_write_fw fourth_write_w = true
  /\ bufio_of fourth_write_fw = Some (default demo_bufio (bufio_of fourth_write_fw))
  /\ (0 < b_cap (default demo_bufio (bufio_of fourth_write_fw)))%nat
  /\ rotates demo_tc LogSize fourth_write_fw = true
  /\ (rotation_name demo_tc LogSize fourth_write_fw ∉ denied fourth_write_w)
  /\ exists fw' w' b',
    daemon demo_tc LogSize fourth_write_fw fourth_write_w = Ok (Continue, fw', w')
    /\ wired fw' w' = true /\ bufio_of fw' = Some b' /\ healthy b' w' = true
    /\ file fw' = Some (length (fds fourth_write_w))
    /\ fds w' !! length (fds fourth_write_w)
       = Some (mk_File (rotation_name demo_tc LogSize fourth_write_fw) false)
    /\ forall lv message, exists fw1 w1 fw2 w2,
         write (LP:=demo_prefix) demo_tc lv message fw' w' = Ok (fw1, w1)
         /\ flush fw1 w1 = Ok (fw2, w2)
         /\ contents w2 (rotation_name demo_tc LogSize fourth_write_fw)
            = contents fourth_write_w (rotation_name demo_tc LogSize fourth_write_fw)
              ++ record (LP:=demo_prefix) demo_tc lv message.
Proof.
  assert (Hw : wired fourth_write_fw fourth_write_w = true) by (vm_compute; reflexivity).
  assert (Hb : bufio_of fourth_write_fw = Some (default demo_bufio (bufio_of fourth_write_fw)))
    by (vm_compute; reflexivity).
  assert (Hcap : (0 < b_cap (default demo_bufio (bufio_of fourth_write_fw)))%nat)
    by (vm_compute; lia).
  assert (Hrot : rotates demo_tc LogSize fourth_write_fw = true) by (vm_compute; reflexivity).
  assert (Hd : rotation_name demo_tc LogSize fourth_write_fw ∉ denied fourth_write_w)
    by (vm_compute; set_solver).
  split; [exact Hw|]. split; [exact Hb|]. split; [exact Hcap|]. split; [exact Hrot|].
  split; [exact Hd|].
  exact (rotation_leaves_a_working_writer (LP:=demo_prefix) demo_tc LogSize fourth_write_fw
           fourth_write_w _ Hw Hb Hcap Hrot Hd).
Defined.

(* ===================================================================== *)
(** ** Runs of calls *)
(* ===================================================================== *)

Section Level.
Context {LP : LevelPrefix} {Arg : Type} {F : Formatter Arg}.
Variable tc : TimeCache.

(** [write] and [writef] read the bufio writer of the BLog and never its
    level. *)
Lemma BLog_write_level lv message threshold bl w :
  BLog_write tc lv message (BLog_SetLevel threshold bl) w
  = BLog_write tc lv message bl w
      ≫= λ '(n, bl', w'), Ok (n, BLog_SetLevel threshold bl', w').
Proof.
  unfold BLog_write, BLog_SetLevel. cbn [writer level in_].
  destruct (writer bl) as [b|]; [|done].
  destruct (bufio_Write _ b w) as [[[? ?] b1] w1].
  destruct (bufio_WriteString _ b1 w1) as [[[? ?] b2] w2].
  destruct (bufio_WriteString _ b2 w2) as [[[? ?] b3] w3].
  by destruct (bufio_WriteByte _ b3 w3) as [[? b4] w4].
Qed.

Lemma BLog_writef_level lv format (args : list Arg) threshold bl w :
  BLog_writef tc lv format args (BLog_SetLevel threshold bl) w
  = BLog_writef tc lv format args bl w
      ≫= λ '(n, bl', w'), Ok (n, BLog_SetLevel threshold bl', w').
Proof.
  unfold BLog_writef, BLog_SetLevel. cbn [writer level in_].
  destruct (writer bl) as [b|]; [|done].
  destruct (bufio_Write _ b w) as [[[? ?] b1] w1].
  destruct (bufio_WriteString _ b1 w1) as [[[? ?] b2] w2].
  destruct (writef_loop _ _ _ _ b2 w2) as [[[st b3] w3]|]; [|done].
  rewrite !bind_Ok. cbv beta iota.
  destruct (slice_from _ _) as [tail|]; [|done]. rewrite !bind_Ok.
  destruct (bufio_WriteString _ b3 w3) as [[[? ?] b4] w4].
  by destruct (bufio_WriteByte _ b4 w4) as [[? b5] w5].
Qed.

(** A call or a round on an open writer leaves it open and wired, or
    is a [writef] that lacks an argument and panics on its index. *)
Lemma run_call_wired (c : call Arg) fw w :
  wired fw w = true ->
  match run_call tc c fw w with
  | Ok (fw', w') => wired fw' w' = true
  | Panic p => p = IndexOutOfRange /\ lacks_argument c = true
  | Blocked => False
  end.
Proof.
  intros Hw. destruct (wired_inv _ _ Hw) as (Hc & Hv & bl & b & Hbl & Hb & Hin & Hwr).
  destruct c as [lv m|lv format args| |t|z|z|lv|ev]; cbn [run_call].
  - by destruct (write_open tc lv m fw w Hw) as (fw' & w' & -> & Hw' & _).
  - unfold writef. rewrite Hc, Hbl.
    pose proof (BLog_writef_outcome tc lv format args bl b w Hb) as Hout.
    destruct (placeholders format <=? length args)%nat eqn:Hle.
    + destruct (BLog_writef tc lv format args bl w) as [[[size bl'] w1]|] eqn:Hwf; [|done].
      destruct (BLog_writef_frame _ _ _ _ _ _ _ _ _ _ Hb Hwf) as (b' & -> & Hwr' & Hf & Hd & Hfr).
      rewrite bind_Ok. cbv beta iota. rewrite deferred_send_open, send_size_eq by done.
      eapply wired_intro; cbn; eauto; [|congruence].
      eapply valid_handle_grow; [|exact Hv]. by rewrite Hf.
    + rewrite Hout. cbn. split; [done|]. apply Nat.ltb_lt. by apply Nat.leb_gt.
  - by destruct (flush_open tc fw w Hw) as (fw' & w' & -> & _ & Hw' & _).
  - exact Hw.
  - unfold SetRotateSize. by destruct (0 <? z).
  - unfold SetRotateLines. by destruct (0 <? z).
  - unfold baseFileWriter_SetLevel. rewrite Hbl, bind_Ok.
    eapply wired_intro; cbn; eauto.
  - destruct (round_open tc ev fw w Hw) as (fw' & w' & -> & Hw' & _). by rewrite bind_Ok.
Qed.

End Level.

(** X17.  An open writer stays open and wired under every run of calls
    of [write], [writef], [flush], the setters and [SetLevel], and of
    rounds of the daemon, rotations that fail to open their file
    included: its BLog and its bufio writer are there and write to the
    file of the writer.  The one way such a run can panic is a [writef]
    with fewer arguments than placeholders; no call and no round meets
    a nil BLog. *)
Theorem open_writer_stays_wired
    {LP : LevelPrefix} {Arg : Type} {F : Formatter Arg}
    (tc : TimeCache) (cs : list (call Arg)) (fw : baseFileWriter) (w : World) :
  wired fw w = true ->
  match run_calls tc cs fw w with
  | Ok (fw', w') => wired fw' w' = true
  | Panic p => p = IndexOutOfRange /\ Exists (fun c => lacks_argument c = true) cs
  | Blocked => False
  end.
Proof.
  revert fw w. induction cs as [|c cs IH]; intros fw w Hw; cbn [run_calls]; [done|].
  pose proof (run_call_wired tc c fw w Hw) as Hcall.
  destruct (run_call tc c fw w) as [[fw1 w1]|[p|]].
  - rewrite bind_Ok. cbv beta iota. specialize (IH fw1 w1 Hcall).
    destruct (run_calls tc cs fw1 w1) as [[fw2 w2]|[p|]]; [done| |done].
    destruct IH as [-> Hex]. split; [done|]. by apply Exists_cons_tl.
  - rewrite bind_Panic. destruct Hcall as [-> Hlack]. split; [done|]. by apply Exists_cons_hd.
  - done.
Qed.

Lemma open_writer_stays_wired_witness :
  wired demo_fw demo_w = true
  /\ match run_calls (LP:=demo_prefix) (F:=demo_Sprintf) demo_tc demo_calls demo_fw demo_w with
     | Ok (fw', w') => wired fw' w' = true
     | Panic p => p = IndexOutOfRange /\ Exists (fun c => lacks_argument c = true) demo_calls
     | Blocked => False
     end.
Proof.
  assert (Hw : wired demo_fw demo_w = true) by (vm_compute; reflexivity).
  split; [exact Hw|].
  exact (open_writer_stays_wired (LP:=demo_prefix) (F:=demo_Sprintf) demo_tc demo_calls
           demo_fw demo_w Hw).
Defined.

(** X18.  The level of the writer is stored and never consulted:
    [SetLevel] on an open writer returns, [Level] then gives the level
    set, and [write] and [writef] at any level do on the writer with the
    new threshold what they do on the writer with the old one; no record
    is filtered. *)
Theorem level_is_never_consulted
    {LP : LevelPrefix} {Arg : Type} {F : Formatter Arg}
    (tc : TimeCache) (threshold : Level) (fw : baseFileWriter) (w : World) :
  wired fw w = true ->
  exists fw1,
    baseFileWriter_SetLevel threshold fw = Ok fw1
    /\ baseFileWriter_Level fw1 = Ok threshold
    /\ (forall lv message,
           same_output (write tc lv message fw1 w) (write tc lv message fw w))
    /\ (forall lv format (args : list Arg),
           same_output (writef tc lv format args fw1 w) (writef tc lv format args fw w)).
Proof.
  intros Hw. destruct (wired_inv _ _ Hw) as (Hc & Hv & bl & b & Hbl & Hb & Hin & Hwr).
  unfold baseFileWriter_SetLevel, baseFileWriter_Level. rewrite Hbl.
  eexists. split; [reflexivity|]. cbn [blog]. split; [done|]. split.
  - intros lv message. unfold write. cbn [closed blog]. rewrite Hc, Hbl, BLog_write_level.
    destruct (BLog_write tc lv message bl w) as [[[n bl'] w']|]; [|done].
    rewrite !bind_Ok. cbv beta iota. rewrite !deferred_send_open by done.
    rewrite !send_size_eq. by cbn.
  - intros lv format args. unfold writef. cbn [closed blog].
    rewrite Hc, Hbl, BLog_writef_level.
    destruct (BLog_writef tc lv format args bl w) as [[[n bl'] w']|]; [|done].
    rewrite !bind_Ok. cbv beta iota. rewrite !deferred_send_open by done.
    rewrite !send_size_eq. by cbn.
Qed.

Lemma level_is_never_consulted_witness :
  wired counting_fw counting_w = true
  /\ exists fw1,
    baseFileWriter_SetLevel CRITICAL counting_fw = Ok fw1
    /\ baseFileWriter_Level fw1 = Ok CRITICAL
    /\ (forall lv message,
           same_output (write (LP:=demo_prefix) demo_tc lv message fw1 counting_w)
             (write (LP:=demo_prefix) demo_tc lv message counting_fw counting_w))
    /\ (forall lv format (args : list DemoArg),
           same_output
             (writef (LP:=demo_prefix) (F:=demo_Sprintf) demo_tc lv format args fw1 counting_w)
             (writef (LP:=demo_prefix) (F:=demo_Sprintf) demo_tc lv format args
                counting_fw counting_w)).
Proof.
  assert (Hw : wired counting_fw counting_w = true) by (vm_compute; reflexivity).
  split; [exact Hw|].
  exact (level_is_never_consulted (LP:=demo_prefix) (F:=demo_Sprintf) demo_tc CRITICAL
           counting_fw counting_w Hw).
Defined.

(** X19.  [writef] of the file writer on an open writer whose file
    takes bytes, with an argument for every placeholder that a verb
    closes: the record joins the stream of the bufio writer, and the
    size sent to the daemon, when rotation by size or by lines is on, is
    the number of bytes of that record; the caller changes no counter. *)
Theorem writef_sends_the_size_of_its_record
    {LP : LevelPrefix} {Arg : Type} {F : Formatter Arg}
    (tc : TimeCache) (lv : Level) (format : bytes) (args : list Arg)
    (fw : baseFileWriter) (w : World) (b : bufio_Writer) :
  wired fw w = true -> bufio_of fw = Some b -> healthy b w = true ->
  (placeholders format <= length args)%nat ->
  exists fw' w' b' body,
    writef tc lv format args fw w = Ok (fw', w')
    /\ wired fw' w' = true /\ bufio_of fw' = Some b'
    /\ accepts (record tc lv body) b w b' w'
    /\ logSizeChan fw'
       = (if sizeRotated fw || lineRotated fw
          then logSizeChan fw ++ [Z.of_nat (length (record tc lv body))]
          else logSizeChan fw)
    /\ same_file_and_counters fw fw'.
Proof.
  intros Hw Hb Hh Hargs.
  destruct (wired_inv _ _ Hw) as (Hc & Hv & bl & b0 & Hbl & Hb0 & Hin & Hwr).
  assert (b0 = b) as -> by (rewrite (bufio_of_intro _ _ _ Hbl Hb0) in Hb; congruence).
  destruct (BLog_writef_healthy tc lv format args bl b w Hb0 Hh Hargs)
    as (body & b' & w' & Hwf & Ha).
  unfold writef. rewrite Hc, Hbl, Hwf, bind_Ok. cbv beta iota.
  rewrite deferred_send_open by done.
  eexists _, w', b', body. split; [reflexivity|]. rewrite send_size_eq.
  destruct Ha as (Hh' & Hs & Hwr' & Hcap & Hf & Hd).
  split.
  { eapply wired_intro; cbn; eauto; [|congruence].
    eapply valid_handle_grow; [|exact Hv]. by rewrite Hf. }
  split; [done|]. split; [by repeat split|]. split; [done|]. by repeat split.
Qed.

Lemma writef_sends_the_size_of_its_record_witness :
  wired counting_fw counting_w = true /\ bufio_of counting_fw = Some counting_bufio
  /\ healthy counting_bufio counting_w = true
  /\ (placeholders (B "%s took %d ms") <= length [AStr (B "GET"); AInt 12])%nat
  /\ exists fw' w' b' body,
    writef (LP:=demo_prefix) (F:=demo_Sprintf) demo_tc INFO (B "%s took %d ms")
      [AStr (B "GET"); AInt 12] counting_fw counting_w = Ok (fw', w')
    /\ wired fw' w' = true /\ bufio_of fw' = Some b'
    /\ accepts (record (LP:=demo_prefix) demo_tc INFO body) counting_bufio counting_w b' w'
    /\ logSizeChan fw'
       = (if sizeRotated counting_fw || lineRotated counting_fw
          then logSizeChan counting_fw
               ++ [Z.of_nat (length (record (LP:=demo_prefix) demo_tc INFO body))]
          else logSizeChan counting_fw)
    /\ same_file_and_counters counting_fw fw'.
Proof.
  assert (Hw : wired counting_fw counting_w = true) by (vm_compute; reflexivity).
  assert (Hb : bufio_of counting_fw = Some counting_bufio) by (vm_compute; reflexivity).
  assert (Hh : healthy counting_bufio counting_w = true) by (vm_compute; reflexivity).
  assert (Hargs : (placeholders (B "%s took %d ms") <= length [AStr (B "GET"); AInt 12])%nat)
    by (vm_compute; lia).
  split; [exact Hw|]. split; [exact Hb|]. split; [exact Hh|]. split; [exact Hargs|].
  exact (writef_sends_the_size_of_its_record (LP:=demo_prefix) (F:=demo_Sprintf) demo_tc INFO
           (B "%s took %d ms") [AStr (B "GET"); AInt 12] counting_fw counting_w counting_bufio
           Hw Hb Hh Hargs).
Defined.



(** X21.  The names that the daemon gives to the files it opens.  A rotation
    by time opens [<base>.<date>], the date being the previous day of the
    time cache.  A rotation by size or lines, the [n]-th since the
    sequence number was last zero, leaves the sequence number at [n] and
    opens [<base>.<n+1>], or [<base>.<date>.<n+1>] with the current date
    of the time cache when rotation by time is on as well: the number
    that [resetFile] formats is the sequence number plus one. *)
Theorem rotated_file_names
    {LP : LevelPrefix} (tc : TimeCache) (fw : baseFileWriter) (w : World) :
  wired fw w = true ->
  (forall now,
      timeRotated fw = true -> now <> tc_date tc ->
      let name := fileName fw ++ B "." ++ tc_dateYesterday tc in
      name ∉ denied w ->
      exists fw' w' fd,
        daemon tc (TimeTick now) fw w = Ok (Continue, fw', w')
        /\ sizeRotateTimes fw' = 0
        /\ file fw' = Some fd /\ fds w' !! fd = Some (mk_File name false))
  /\ (forall size q n,
         logSizeChan fw = size :: q -> needRotate (add_size size fw) = true ->
         sizeRotateTimes fw = n - 1 -> 1 <= n < maxInt64 ->
         let name := if timeRotated fw
                     then fileName fw ++ B "." ++ tc_date tc ++ B "." ++ itoa (n + 1)
                     else fileName fw ++ B "." ++ itoa (n + 1) in
         name ∉ denied w ->
         exists fw' w' fd,
           daemon tc LogSize fw w = Ok (Continue, fw', w')
           /\ sizeRotateTimes fw' = n
           /\ file fw' = Some fd /\ fds w' !! fd = Some (mk_File name false)).
Proof.
  intros Hw. destruct (wired_inv _ _ Hw) as (_ & Hv & _). split.
  - intros now Ht Hnow name Hd.
    destruct (daemon_TimeTick_rotates tc now fw w Hw Ht Hnow)
      as (fw' & w' & Hstep & _ & _ & _ & _ & _ & Hr & Hf & Hw' & _).
    change (timeRotateName tc fw) with name in Hf, Hw'.
    destruct (rotation_world_opened name (file fw) w Hd Hv) as (Hfd & Hnew & _).
    exists fw', w', (length (fds w)). subst w'. rewrite Hf, Hfd. by repeat split.
  - intros size q n Hch Hrot Hn Hrange name Hd.
    destruct (daemon_LogSize_rotates tc size q fw w Hw Hch Hrot)
      as (fw' & w' & Hstep & _ & _ & _ & _ & _ & Hr & Hf & Hw' & _).
    assert (Hname : sizeRotateName tc (next_sequence (add_size size fw)) = name).
    { unfold sizeRotateName, next_sequence, add_size, Sprintf_s_s_d, Sprintf_s_d, name. cbn.
      rewrite Hn, (wrap64_id (n - 1 + 1)) by (unfold maxInt64 in *; lia).
      rewrite wrap64_id by (unfold maxInt64 in *; lia).
      by replace (n - 1 + 1 + 1) with (n + 1) by lia. }
    rewrite Hname in Hf, Hw'.
    destruct (rotation_world_opened name (file fw) w Hd Hv) as (Hfd & Hnew & _).
    exists fw', w', (length (fds w)). subst w'. rewrite Hf, Hfd.
    split; [done|]. split; [|done].
    rewrite Hr, Hn, wrap64_id by (unfold maxInt64 in *; lia). lia.
Qed.

Lemma rotated_file_names_witness :
  wired fourth_write_fw fourth_write_w = true
  /\ exists fw' w' fd,
      daemon demo_tc LogSize fourth_write_fw fourth_write_w = Ok (Continue, fw', w')
      /\ sizeRotateTimes fw' = 1
      /\ file fw' = Some fd
      /\ fds w' !! fd = Some (mk_File (B "app.log" ++ B "." ++ itoa (1 + 1)) false).
Proof.
  assert (Hw : wired fourth_write_fw fourth_write_w = true) by reflexivity.
  split; [exact Hw|].
  refine (proj2 (rotated_file_names (LP:=demo_prefix) demo_tc fourth_write_fw fourth_write_w Hw)
            29 [] 1 _ _ _ _ _); try reflexivity.
  - vm_compute. split; [discriminate|reflexivity].
  - vm_compute. set_solver.
Defined.
